(** * scrapper2000: the claim generator and the two directory scrapers

    A shallow embedding of [claimgenerator.py], [clinic_scrapper.py] and
    [doctor_scrapper.py].  Python values loaded from JSON are a small
    inductive type, dictionaries are finite maps, and code that touches the
    file system, the log or the random generators runs in a state monad with
    exceptions.  What belongs to the Python runtime and to third-party
    libraries (float parsing and formatting, the CSV, JSON, PNG and PDF
    codecs, reportlab's own argument checks) is an interface the model is
    parametric in. *)

From Stdlib Require Import ZArith String Ascii List.
From stdpp Require Import base option list strings gmap pretty.

Local Open Scope string_scope.
Local Open Scope Z_scope.

Set Warnings "-register-all".

(** ** Python exceptions and results *)

Inductive exn : Type :=
| KeyError (key : string)
| TypeError
| AttributeError
| IndexError
| ValueError (msg : string)
| FileNotFoundError (path : string)
| OSError (path : string)
| OverflowError
| JSONDecodeError
| LibraryError.

Inductive outcome (A : Type) : Type :=
| Ret (a : A)
| Raise (e : exn).
Arguments Ret {A} a.
Arguments Raise {A} e.

Definition obind {A B} (x : outcome A) (f : A -> outcome B) : outcome B :=
  match x with
  | Ret a => f a
  | Raise e => Raise e
  end.

Fixpoint omapM {A B} (f : A -> outcome B) (l : list A) : outcome (list B) :=
  match l with
  | [] => Ret []
  | x :: l' =>
      obind (f x) (fun y => obind (omapM f l') (fun ys => Ret (y :: ys)))
  end.

(** ** The numeric part of the runtime

    [float(...)], [sum(...)] over floats and the [.2f] format are the
    interpreter's; the model fixes only their types. *)

Class PyFloat : Type := {
  pyfloat : Type;
  (** [float(s)] for a string; [None] stands for [ValueError]. *)
  float_of_string : string -> option pyfloat;
  (** [float(n)] for an integer; [None] stands for [OverflowError]. *)
  float_of_int : Z -> option pyfloat;
  (** [sum(xs)] for a list of floats, started from the integer 0. *)
  py_sum : list pyfloat -> pyfloat;
  (** [f"{x:.2f}"]. *)
  format_2f : pyfloat -> string;
  (** [str(x)] for a float. *)
  float_str : pyfloat -> string;
  (** [bool(x)] for a float. *)
  float_truthy : pyfloat -> bool;
}.

(** ** Python values, as [json.load] builds them *)

Section Values.
Context `{PyFloat}.

Inductive value : Type :=
| VNone
| VBool (b : bool)
| VInt (n : Z)
| VFloat (x : pyfloat)
| VStr (s : string)
| VList (l : list value)
| VDict (d : gmap string value).

(** *** Built-in operations on values *)

(** [bool(v)], the test behind [if not items]. *)
Definition py_truthy (v : value) : bool :=
  match v with
  | VNone => false
  | VBool b => b
  | VInt n => negb (n =? 0)
  | VFloat x => float_truthy x
  | VStr s => negb (String.eqb s "")
  | VList l => match l with [] => false | _ :: _ => true end
  | VDict d => match map_to_list d with [] => false | _ :: _ => true end
  end.

(** [d.get(k, default)].  A JSON object has string keys only, so a key of
    another hashable type is never found; lists and dictionaries are not
    hashable. *)
Definition py_get (d k dflt : value) : outcome value :=
  match d with
  | VDict m =>
      match k with
      | VStr s => Ret (default dflt (m !! s))
      | VList _ | VDict _ => Raise TypeError
      | VNone | VBool _ | VInt _ | VFloat _ => Ret dflt
      end
  | _ => Raise AttributeError
  end.

(** [v[k]] for a string [k]. *)
Definition py_getitem (v : value) (k : string) : outcome value :=
  match v with
  | VDict m =>
      match m !! k with
      | Some x => Ret x
      | None => Raise (KeyError k)
      end
  | _ => Raise TypeError
  end.

Fixpoint string_chars (s : string) : list string :=
  match s with
  | EmptyString => []
  | String c s' => String c EmptyString :: string_chars s'
  end.

(** [for item in v]: the elements of a list, the characters of a string,
    the keys of a dictionary. *)
Definition py_iter (v : value) : outcome (list value) :=
  match v with
  | VList l => Ret l
  | VStr s => Ret (VStr <$> string_chars s)
  | VDict m => Ret ((fun kv => VStr kv.1) <$> map_to_list m)
  | _ => Raise TypeError
  end.

End Values.

(** ** The page description handed to reportlab *)

Section Canvas.
Context `{PyFloat}.

Inductive colour : Type :=
| Black                       (* [colors.black] *)
| DesignColour (v : value).   (* a colour of the design record *)

(** One call on the canvas [c].  [DrawTable] stands for building the
    [Table], styling it with the two design colours and the design font,
    and drawing it. *)
Inductive canvas_op : Type :=
| DrawImage (path : string) (x y width height : Z)
| SetFont (name : value) (size : Z)
| SetFillColor (c : colour)
| DrawString (x y : Z) (text : string)
| DrawLine (x1 y1 x2 y2 : Z)
| DrawTable (data : list (list value)) (primary secondary font : value)
            (x y : Z).

End Canvas.

(** ** Libraries and operating system

    The codecs and checks of [json], [csv], PIL, reportlab and Faker, and
    whether the operating system lets the process create a file. *)

Class Runtime `{PyFloat} : Type := {
  (** [str(v)] for a list or a dictionary. *)
  container_repr : value -> string;
  (** [json.load]; [None] stands for [JSONDecodeError]. *)
  json_decode : string -> option value;
  (** [json.dump(v, file, indent=4)]. *)
  json_encode : value -> string;
  (** The rows [csv.DictReader] yields for the text of a file whose rows
      have as many cells as its header, as [csv.writer] and
      [csv.DictWriter] write them: a map from column name to cell.  For a
      shorter row the reader fills the missing cells with [None], which is
      no text; files with such rows are outside the model. *)
  csv_dictreader : string -> list (gmap string string);
  (** The text [csv.writer] produces for a list of rows. *)
  csv_encode : list (list string) -> string;
  (** PIL can lay out and draw the text with the font it found. *)
  pil_draws : string -> bool;
  (** The PNG file of the 300x100 logo showing the text. *)
  png_encode : string -> string;
  (** [Image.open] followed by [verify] accepts the bytes. *)
  image_ok : string -> bool;
  (** The PDF file of a page description. *)
  pdf_encode : list canvas_op -> string;
  (** reportlab carries out the call without raising. *)
  rl_accepts : canvas_op -> bool;
  (** [open(path, 'w')] succeeds. *)
  writable : string -> bool;
  (** The name Faker builds from a random draw. *)
  faker_name : nat -> string;
}.

(** ** Log records, one constructor per logging call of the sources *)

Inductive level : Type := INFO | WARNING | ERROR.

Inductive log_entry : Type :=
| LoadDataError (e : exn)                    (* "Error loading data: {e}" *)
| BillingLoadError (e : exn)                 (* "Error loading billing items: {e}" *)
| LogoGenerated (provider path : string)     (* "Logo generated for {} and saved to {}" *)
| LogoError (provider : string) (e : exn)    (* "Error generating logo for {}: {e}" *)
| LogoVerifyError (path : string) (e : exn)  (* "Error verifying logo {}: {e}" *)
| ClaimGenerated (path : string)             (* "Claim PDF generated successfully: {}" *)
| ClaimError (kind : string) (e : exn)       (* "Error generating claim PDF for {}: {e}" *)
| BatchDone (legitimate fraudulent : nat)    (* "Successfully generated {} legitimate and {} fraudulent claims." *)
| FatalError (e : exn)                       (* "Fatal error in main execution: {e}" *)
| NoHospitalDetails                          (* "No hospital details to save." *)
| HospitalsSaved                             (* "Hospital details saved to hospitals_and_clinics.csv" *)
| CsvSaveError (e : exn)                     (* "Error saving to CSV: {e}" *)
| SavingDoctors (count : nat)                (* "Saving {} doctor(s) and specialist(s) to CSV file..." *)
| DoctorsSaved (filename : string).          (* "Doctor and specialist data saved to {}" *)

Definition level_of (l : log_entry) : level :=
  match l with
  | LoadDataError _ | BillingLoadError _ | LogoError _ _
  | LogoVerifyError _ _ | ClaimError _ _ | FatalError _
  | CsvSaveError _ => ERROR
  | NoHospitalDetails => WARNING
  | LogoGenerated _ _ | ClaimGenerated _ | BatchDone _ _
  | HospitalsSaved | SavingDoctors _ | DoctorsSaved _ => INFO
  end.

(** ** The world a script runs in *)

Record world : Type := World {
  fs : gmap string string;   (* the files, by path *)
  log : list log_entry;      (* what was logged, oldest first *)
  rnd : list nat;            (* the draws of the [random] module *)
  fake_rnd : list nat;       (* the draws of the Faker instance *)
  today : string;            (* [datetime.now().strftime("%Y-%m-%d")] *)
}.

Definition set_fs (f : gmap string string) (w : world) : world :=
  World f (log w) (rnd w) (fake_rnd w) (today w).
Definition add_log (l : log_entry) (w : world) : world :=
  World (fs w) (log w ++ [l]) (rnd w) (fake_rnd w) (today w).
Definition set_rnd (r : list nat) (w : world) : world :=
  World (fs w) (log w) r (fake_rnd w) (today w).
Definition set_fake_rnd (r : list nat) (w : world) : world :=
  World (fs w) (log w) (rnd w) r (today w).

(** ** State and exceptions *)

Definition M (S A : Type) : Type := S -> outcome A * S.

Definition mret {S A} (a : A) : M S A := fun s => (Ret a, s).
Definition mraise {S A} (e : exn) : M S A := fun s => (Raise e, s).
Definition mbind {S A B} (m : M S A) (f : A -> M S B) : M S B :=
  fun s =>
    match m s with
    | (Ret a, s') => f a s'
    | (Raise e, s') => (Raise e, s')
    end.
(** [try: m  except Exception as e: h e] *)
Definition mtry {S A} (m : M S A) (h : exn -> M S A) : M S A :=
  fun s =>
    match m s with
    | (Ret a, s') => (Ret a, s')
    | (Raise e, s') => h e s'
    end.
Definition mlift {S A} (x : outcome A) : M S A := fun s => (x, s).
Definition mget {S} : M S S := fun s => (Ret s, s).
Definition mmodify {S} (f : S -> S) : M S unit := fun s => (Ret tt, f s).

Notation "x <- m ;; k" := (mbind m (fun x => k))
  (at level 100, m at next level, right associativity).
Notation "m ;; k" := (mbind m (fun _ => k))
  (at level 100, right associativity).

(** A computation on the world, run where the state pairs the world with
    something local: the page of a canvas, the queue of an executor. *)
Definition on_world {C A} (m : M world A) : M (world * C) A :=
  fun s =>
    match m (fst s) with
    | (r, w') => (r, (w', snd s))
    end.

(** ** claimgenerator.py *)

Section Generator.
Context `{Runtime}.

Definition logos_dir : string := "logos".
Definition output_dir : string := "output".
Definition design_file : string := "design.json".

(** A clinic is a row of [csv.DictReader], a finite map from column name
    to text; a doctor is a pair (name, specialty). *)

(** *** Helpers of the runtime that the model writes out *)

(** [str(v)] *)
Definition py_str (v : value) : string :=
  match v with
  | VNone => "None"
  | VBool true => "True"
  | VBool false => "False"
  | VInt n => pretty n
  | VFloat x => float_str x
  | VStr s => s
  | VList _ | VDict _ => container_repr v
  end.

(** [float(v)] *)
Definition py_float (v : value) : outcome pyfloat :=
  match v with
  | VStr s =>
      match float_of_string s with
      | Some x => Ret x
      | None => Raise (ValueError s)
      end
  | VInt n =>
      match float_of_int n with
      | Some x => Ret x
      | None => Raise OverflowError
      end
  | VBool b =>
      match float_of_int (if b then 1 else 0) with
      | Some x => Ret x
      | None => Raise OverflowError
      end
  | VFloat x => Ret x
  | VNone | VList _ | VDict _ => Raise TypeError
  end.

(** [row[k]] for a CSV row. *)
Definition row_getitem (row : gmap string string) (k : string) : outcome string :=
  match row !! k with
  | Some x => Ret x
  | None => Raise (KeyError k)
  end.

(** [l[i]] for a list. *)
Definition list_getitem {A} (l : list A) (i : nat) : outcome A :=
  match l !! i with
  | Some x => Ret x
  | None => Raise IndexError
  end.

Definition starts_with_slash (s : string) : bool :=
  match s with
  | String c _ => Ascii.eqb c "/"
  | EmptyString => false
  end.

Fixpoint ends_with_slash (s : string) : bool :=
  match s with
  | EmptyString => false
  | String c EmptyString => Ascii.eqb c "/"
  | String _ s' => ends_with_slash s'
  end.

(** [os.path.join(a, b)] on POSIX. *)
Definition os_path_join (a b : string) : string :=
  if starts_with_slash b then b
  else if String.eqb a "" || ends_with_slash a then a +:+ b
  else a +:+ "/" +:+ b.

(** [k in v] for a string [k]. *)
Definition py_contains (v : value) (k : string) : outcome bool :=
  match v with
  | VDict m => Ret (bool_decide (is_Some (m !! k)))
  | VList l =>
      Ret (existsb (fun x => match x with
                             | VStr s => String.eqb s k
                             | _ => false
                             end) l)
  | VStr s =>
      Ret (match index 0 k s with Some _ => true | None => false end)
  | VNone | VBool _ | VInt _ | VFloat _ => Raise TypeError
  end.

(** *** Files, log, random draws *)

Definition path_exists (path : string) : M world bool :=
  w <- mget ;; mret (bool_decide (is_Some (fs w !! path))).

Definition read_file (path : string) : M world string :=
  w <- mget ;;
  match fs w !! path with
  | Some text => mret text
  | None => mraise (FileNotFoundError path)
  end.

Definition write_file (path text : string) : M world unit :=
  if writable path then mmodify (fun w => set_fs (<[path := text]> (fs w)) w)
  else mraise (OSError path).

Definition logging (l : log_entry) : M world unit := mmodify (add_log l).

Definition draw_rnd : M world nat :=
  fun w =>
    match rnd w with
    | [] => (Ret 0%nat, w)
    | r :: t => (Ret r, set_rnd t w)
    end.

Definition draw_fake : M world nat :=
  fun w =>
    match fake_rnd w with
    | [] => (Ret 0%nat, w)
    | r :: t => (Ret r, set_fake_rnd t w)
    end.

(** [random.choice(l)] *)
Definition random_choice {A} (l : list A) : M world A :=
  match l with
  | [] => mraise IndexError
  | x :: _ => r <- draw_rnd ;; mret (nth (r mod length l)%nat l x)
  end.

(** [random.choice(v)] for a value: it needs [len(v)] and [v[i]]. *)
Definition random_choice_value (v : value) : M world value :=
  match v with
  | VList l => random_choice l
  | VStr s => random_choice (VStr <$> string_chars s)
  | VDict m =>
      match map_to_list m with
      | [] => mraise IndexError
      | _ :: _ =>
          r <- draw_rnd ;; mraise (KeyError (pretty (r mod size m)%nat))
      end
  | VNone | VBool _ | VInt _ | VFloat _ => mraise TypeError
  end.

(** [fake.name()] and [fake.random_int(min, max)] *)
Definition fake_name : M world string :=
  r <- draw_fake ;; mret (faker_name r).
Definition fake_random_int (lo hi : Z) : M world Z :=
  r <- draw_fake ;; mret (lo + Z.of_nat r mod (hi - lo + 1)).

(** *** [load_or_create_designs] *)

Definition primary_palette : list string :=
  ["#1f77b4"; "#ff7f0e"; "#2ca02c"; "#d62728"; "#9467bd"].
Definition secondary_palette : list string :=
  ["#aec7e8"; "#ffbb78"; "#98df8a"; "#ff9896"; "#c5b0d5"].
Definition font_palette : list string :=
  ["Helvetica-Bold"; "Times-Roman"; "Courier"].

Definition design_record (p s f : string) : value :=
  VDict (<["primary_color" := VStr p]>
         (<["secondary_color" := VStr s]>
          (<["font" := VStr f]> ∅))).

(** The loop body: [designs[clinic['name']] = {...}]. *)
Definition new_design (c : gmap string string)
    (designs : gmap string value) : M world (gmap string value) :=
  clinic_name <- mlift (row_getitem c "name") ;;
  p <- random_choice primary_palette ;;
  s <- random_choice secondary_palette ;;
  f <- random_choice font_palette ;;
  mret (<[clinic_name := design_record p s f]> designs).

Fixpoint create_designs (clinics_info : list (gmap string string))
    (designs : gmap string value) : M world (gmap string value) :=
  match clinics_info with
  | [] => mret designs
  | c :: rest =>
      designs' <- new_design c designs ;; create_designs rest designs'
  end.

Definition load_or_create_designs
    (clinics_info : list (gmap string string)) : M world value :=
  w <- mget ;;
  match fs w !! design_file with
  | Some text =>
      match json_decode text with
      | Some v => mret v
      | None => mraise JSONDecodeError
      end
  | None =>
      designs <- create_designs clinics_info ∅ ;;
      write_file design_file (json_encode (VDict designs)) ;;
      mret (VDict designs)
  end.

(** *** [load_data] and [load_billing_items] *)

Definition clinics_csv : string := "hospitals_and_clinics.csv".
Definition doctors_csv : string := "doctors_and_specialists_list.csv".
Definition specialties_json : string := "specialities_diseases.json".
Definition billing_json : string := "disease_consultation.json".

(** [row[k] = row.get(k, 'N/A')] *)
Definition ensure_field (k : string) (row : gmap string string)
    : gmap string string :=
  <[k := default "N/A" (row !! k)]> row.

Definition clinic_of_row (row : gmap string string) : gmap string string :=
  ensure_field "email"
    (ensure_field "location"
      (ensure_field "address" (ensure_field "telephone" row))).

Definition doctor_of_row (row : gmap string string)
    : outcome (string * string) :=
  obind (row_getitem row "Doctor Name") (fun n =>
  obind (row_getitem row "Specialty") (fun s => Ret (n, s))).

Definition read_json (path : string) : M world value :=
  text <- read_file path ;;
  match json_decode text with
  | Some v => mret v
  | None => mraise JSONDecodeError
  end.

Definition load_data_try
    : M world (list (gmap string string) * list (string * string) * value) :=
  text <- read_file clinics_csv ;;
  let clinics_info := clinic_of_row <$> csv_dictreader text in
  match clinics_info with
  | [] => mraise (ValueError "No data found in hospitals_and_clinics.csv")
  | _ :: _ =>
      text' <- read_file doctors_csv ;;
      doctors_info <- mlift (omapM doctor_of_row (csv_dictreader text')) ;;
      match doctors_info with
      | [] =>
          mraise (ValueError
                    "No data found in doctors_and_specialists_list.csv")
      | _ :: _ =>
          specialties_diseases <- read_json specialties_json ;;
          if py_truthy specialties_diseases
          then mret (clinics_info, doctors_info, specialties_diseases)
          else mraise (ValueError
                         "No data found in specialities_diseases.json")
      end
  end.

Definition load_data
    : M world (list (gmap string string) * list (string * string) * value) :=
  mtry load_data_try (fun e => logging (LoadDataError e) ;; mraise e).

Definition load_billing_items : M world value :=
  mtry (data <- read_json billing_json ;;
        mlift (py_get data (VStr "diagnoses") (VDict ∅)))
       (fun e => logging (BillingLoadError e) ;; mret (VDict ∅)).

(** *** [generate_logo] and [verify_logo] *)

Definition generate_logo (provider_name logo_file : string) : M world bool :=
  mtry (let text := substring 0 20 provider_name in
        (if pil_draws text then mret tt else mraise LibraryError) ;;
        write_file logo_file (png_encode text) ;;
        logging (LogoGenerated provider_name logo_file) ;;
        mret true)
       (fun e => logging (LogoError provider_name e) ;; mret false).

Definition verify_logo (logo_file : string) : M world bool :=
  mtry (present <- path_exists logo_file ;;
        if present then
          bytes <- read_file logo_file ;;
          (if image_ok bytes then mret tt else mraise LibraryError) ;;
          mret true
        else mret false)
       (fun e => logging (LogoVerifyError logo_file e) ;; mret false).

(** *** [get_billing_items_for_diagnosis] *)

Definition fallback_billing_items : list (list value) :=
  [ [VStr "Consultation"; VStr "General Consultation"; VStr "1";
     VStr "1000"; VStr "1000"];
    [VStr "Lab Test"; VStr "General Lab Test"; VStr "1";
     VStr "500"; VStr "500"] ].

Definition billing_row (item : value) : outcome (list value) :=
  obind (py_getitem item "Item") (fun i =>
  obind (py_getitem item "Description") (fun d =>
  obind (py_getitem item "Quantity") (fun q =>
  obind (py_getitem item "Unit Price") (fun u =>
  obind (py_getitem item "Total") (fun t =>
  Ret [i; d; VStr (py_str q); VStr (py_str u); VStr (py_str t)]))))).

Definition get_billing_items_for_diagnosis
    (diagnosis billing_items_data : value) : outcome (list (list value)) :=
  obind (py_get billing_items_data diagnosis (VDict ∅)) (fun entry =>
  obind (py_get entry (VStr "billing_items") (VList [])) (fun items =>
  if negb (py_truthy items) then Ret fallback_billing_items
  else obind (py_iter items) (omapM billing_row))).

(** An item of the billing table as the input files have it: an object
    with the five fields. *)
Definition has_billing_fields (item : value) : bool :=
  match item with
  | VDict m =>
      bool_decide (is_Some (m !! "Item"))
      && bool_decide (is_Some (m !! "Description"))
      && bool_decide (is_Some (m !! "Quantity"))
      && bool_decide (is_Some (m !! "Unit Price"))
      && bool_decide (is_Some (m !! "Total"))
  | _ => false
  end.

(** An entry of the billing table as the input files have it: an object
    whose "billing_items", when present, is a list of such items. *)
Definition well_formed_entry (entry : value) : bool :=
  match entry with
  | VDict e =>
      match e !! "billing_items" with
      | None => true
      | Some (VList items) => forallb has_billing_fields items
      | Some _ => false
      end
  | _ => false
  end.

(** *** [generate_claim_pdf]

    The canvas [c] is local to the call: the body runs on the world paired
    with the page built so far. *)

(** A call on the canvas: reportlab raises or records it. *)
Definition draw (op : canvas_op) : M (world * list canvas_op) unit :=
  if rl_accepts op
  then mmodify (fun s => (fst s, (snd s ++ [op])%list))
  else mraise LibraryError.

Definition table_header : list value :=
  [VStr "Item"; VStr "Description"; VStr "Quantity";
   VStr "Unit Price (Rs)"; VStr "Total (Rs)"].

Definition logo_path (clinic_name : string) : string :=
  os_path_join logos_dir ("logo_" +:+ clinic_name +:+ ".png").

(** Lines 204-210: make sure the logo is there, then place it. *)
Definition add_clinic_logo (clinic : gmap string string)
    : M (world * list canvas_op) unit :=
  clinic_name <- mlift (row_getitem clinic "name") ;;
  let logo_file := logo_path clinic_name in
  present <- on_world (path_exists logo_file) ;;
  stale <- (if negb present then mret true
            else ok <- on_world (verify_logo logo_file) ;; mret (negb ok)) ;;
  (if stale : bool
   then provider <- mlift (row_getitem clinic "name") ;;
        on_world (generate_logo provider logo_file) ;; mret tt
   else mret tt) ;;
  ok <- on_world (verify_logo logo_file) ;;
  if ok : bool then draw (DrawImage logo_file 50 700 100 50) else mret tt.

(** Line 257: [sum([float(item[4]) for item in billing_items])]. *)
Definition total_amount (billing_items : list (list value))
    : outcome pyfloat :=
  obind (omapM (fun item => obind (list_getitem item 4) py_float)
               billing_items)
        (fun xs => Ret (py_sum xs)).

(** Lines 212-266: the page, drawn once the patient and the design are
    known. *)
Definition claim_layout (clinic : gmap string string)
    (doctor : string * string) (diagnosis : value)
    (billing_items : list (list value))
    (patient_name : string) (patient_id : Z)
    (primary_color secondary_color font_name : value)
    : M (world * list canvas_op) unit :=
  (* clinic information *)
  draw (SetFont font_name 16) ;;
  draw (SetFillColor (DesignColour primary_color)) ;;
  name <- mlift (row_getitem clinic "name") ;;
  draw (DrawString 170 730 name) ;;
  draw (SetFont font_name 12) ;;
  draw (SetFillColor Black) ;;
  address <- mlift (row_getitem clinic "address") ;;
  draw (DrawString 170 710 address) ;;
  telephone <- mlift (row_getitem clinic "telephone") ;;
  draw (DrawString 170 690 ("Phone: " +:+ telephone)) ;;
  email <- mlift (row_getitem clinic "email") ;;
  draw (DrawString 170 670 ("Email: " +:+ email)) ;;
  (* bill header *)
  draw (SetFont font_name 14) ;;
  draw (SetFillColor (DesignColour primary_color)) ;;
  draw (DrawString 50 640 "Medical Bill Receipt") ;;
  draw (DrawLine 50 635 550 635) ;;
  (* patient *)
  draw (SetFont font_name 12) ;;
  draw (DrawString 50 610 ("Patient Name: " +:+ patient_name)) ;;
  draw (DrawString 50 590 ("Patient ID: " +:+ pretty patient_id)) ;;
  s <- mget ;;
  draw (DrawString 50 570 ("Date of Service: " +:+ today (fst s))) ;;
  (* doctor and diagnosis *)
  draw (DrawString 50 540
          ("Doctor: " +:+ fst doctor +:+ " (" +:+ snd doctor +:+ ")")) ;;
  draw (DrawString 50 520 ("Diagnosis: " +:+ py_str diagnosis)) ;;
  (* billing table *)
  draw (DrawTable (table_header :: billing_items)
                  primary_color secondary_color font_name 50 400) ;;
  (* total *)
  total <- mlift (total_amount billing_items) ;;
  draw (SetFont font_name 12) ;;
  draw (SetFillColor (DesignColour primary_color)) ;;
  draw (DrawString 400 370 ("Total Amount: Rs " +:+ format_2f total)) ;;
  (* footer *)
  draw (SetFont font_name 10) ;;
  draw (SetFillColor Black) ;;
  name' <- mlift (row_getitem clinic "name") ;;
  draw (DrawString 50 50 ("Thank you for choosing " +:+ name' +:+ "!")) ;;
  telephone' <- mlift (row_getitem clinic "telephone") ;;
  email' <- mlift (row_getitem clinic "email") ;;
  draw (DrawString 50 35
          ("For any queries, please contact us at " +:+ telephone'
           +:+ " or " +:+ email')).

(** Lines 192-266: everything up to [c.save()]. *)
Definition claim_page (clinic : gmap string string)
    (doctor : string * string) (diagnosis : value) (design : value)
    (billing_items : list (list value)) : M (world * list canvas_op) unit :=
  patient_name <- on_world fake_name ;;
  patient_id <- on_world (fake_random_int 100000 999999) ;;
  primary_color <- mlift (py_getitem design "primary_color") ;;
  secondary_color <- mlift (py_getitem design "secondary_color") ;;
  font_name <- mlift (py_getitem design "font") ;;
  add_clinic_logo clinic ;;
  claim_layout clinic doctor diagnosis billing_items patient_name patient_id
    primary_color secondary_color font_name.

(** [c.save()] *)
Definition canvas_save (output_pdf : string)
    : M (world * list canvas_op) unit :=
  s <- mget ;; on_world (write_file output_pdf (pdf_encode (snd s))).

(** The [try] block. *)
Definition generate_claim_pdf_try (clinic : gmap string string)
    (doctor : string * string) (diagnosis : value) (output_pdf : string)
    (design : value) (billing_items : list (list value))
    : M (world * list canvas_op) unit :=
  claim_page clinic doctor diagnosis design billing_items ;;
  canvas_save output_pdf ;;
  on_world (logging (ClaimGenerated output_pdf)).

Definition generate_claim_pdf (clinic : gmap string string)
    (doctor : string * string) (diagnosis : value) (fraud_type : string)
    (output_pdf : string) (design : value)
    (billing_items : list (list value)) : M world unit :=
  fun w =>
    match generate_claim_pdf_try clinic doctor diagnosis output_pdf design
            billing_items (w, []) with
    | (Ret _, (w', _)) => (Ret tt, w')
    | (Raise e, (w', _)) => (Ret tt, add_log (ClaimError fraud_type e) w')
    end.

(** *** The batch of the main program

    [executor.submit] queues a call of [generate_claim_pdf]; the queue is
    part of the state, so that what was submitted is known even when the
    loop stops on an exception. *)

Record task : Type := Task {
  t_clinic : gmap string string;
  t_doctor : string * string;
  t_diagnosis : value;
  t_kind : string;
  t_output : string;
  t_design : value;
  t_billing : list (list value);
}.

Definition submit (t : task) : M (world * list task) unit :=
  mmodify (fun s => (fst s, (snd s ++ [t])%list)).

(** [for i in range(n): body i] *)
Fixpoint for_range_from {St} (start n : nat) (body : nat -> M St unit)
    : M St unit :=
  match n with
  | O => mret tt
  | S n' => body start ;; for_range_from (S start) n' body
  end.
Definition for_range {St} (n : nat) (body : nat -> M St unit) : M St unit :=
  for_range_from 0 n body.

Definition claim_path (stem : string) (i : nat) : string :=
  os_path_join output_dir (stem +:+ pretty i +:+ ".pdf").

(** The body of either loop; [kind] is "legitimate" or "fraudulent" and
    [stem] is "legit_claim_" or "fraud_claim_". *)
Definition claim_slot (kind stem : string)
    (clinics_info : list (gmap string string))
    (doctors_info : list (string * string))
    (specialties_diseases designs billing_items_data : value) (i : nat)
    : M (world * list task) unit :=
  clinic <- on_world (random_choice clinics_info) ;;
  doctor <- on_world (random_choice doctors_info) ;;
  let specialty := snd doctor in
  known <- mlift (py_contains specialties_diseases specialty) ;;
  if known : bool then
    diagnoses <- mlift (py_getitem specialties_diseases specialty) ;;
    diagnosis <- on_world (random_choice_value diagnoses) ;;
    billing_items <-
      mlift (get_billing_items_for_diagnosis diagnosis billing_items_data) ;;
    let output_pdf := claim_path stem i in
    clinic_name <- mlift (row_getitem clinic "name") ;;
    design <- mlift (py_getitem designs clinic_name) ;;
    submit (Task clinic doctor diagnosis kind output_pdf design billing_items)
  else mret tt.

Definition claim_loop (kind stem : string) (count : nat)
    (clinics_info : list (gmap string string))
    (doctors_info : list (string * string))
    (specialties_diseases designs billing_items_data : value)
    : M (world * list task) unit :=
  for_range count
    (claim_slot kind stem clinics_info doctors_info specialties_diseases
       designs billing_items_data).

(** Lines 300-328 of the main program, for the given counts: load the
    inputs, then queue the legitimate and the fraudulent claims. *)
Definition main_submit (legitimate_count fraudulent_count : nat)
    : M (world * list task) unit :=
  data <- on_world load_data ;;
  let clinics_info := fst (fst data) in
  let doctors_info := snd (fst data) in
  let specialties_diseases := snd data in
  designs <- on_world (load_or_create_designs clinics_info) ;;
  billing_items_data <- on_world load_billing_items ;;
  claim_loop "legitimate" "legit_claim_" legitimate_count clinics_info
    doctors_info specialties_diseases designs billing_items_data ;;
  claim_loop "fraudulent" "fraud_claim_" fraudulent_count clinics_info
    doctors_info specialties_diseases designs billing_items_data.

(** A queued task, run. *)
Definition run_task (t : task) : M world unit :=
  generate_claim_pdf (t_clinic t) (t_doctor t) (t_diagnosis t) (t_kind t)
    (t_output t) (t_design t) (t_billing t).

(** The queued tasks, run one after the other: the schedule of the pool
    in which a call has finished before the next one starts. *)
Fixpoint run_tasks (ts : list task) : M world unit :=
  match ts with
  | [] => mret tt
  | t :: ts' => run_task t ;; run_tasks ts'
  end.

(** The main program, lines 294-337.  The pool runs the queued calls while
    the loops go on and is waited for when its block is left, also when
    the block is left on an exception.  The loops only draw from [random],
    which no call touches, so the model runs the calls after the loops.
    It runs them in the order of submission and one at a time, which is
    one schedule of the pool: calls for the same clinic share its logo
    file, lines 205-209 are not atomic, and calls that the pool runs at
    the same time may each generate the logo, or fail on a logo that
    another call is writing. *)
Definition main_program (legitimate_count fraudulent_count : nat)
    : M world unit :=
  fun w =>
    match main_submit legitimate_count fraudulent_count (w, []) with
    | (Ret _, (w1, futures)) =>
        (run_tasks futures ;;
         logging (BatchDone legitimate_count fraudulent_count)) w1
    | (Raise e, (w1, futures)) =>
        (run_tasks futures ;; logging (FatalError e)) w1
    end.

End Generator.

(** ** clinic_scrapper.py and doctor_scrapper.py: writing the results

    Fetching and parsing pages is the work of [requests] and
    [BeautifulSoup]; what the worker pool hands back is an input here. *)

Section Scrapers.
Context `{Runtime}.

(** A scraped clinic: a dictionary in insertion order, a field is a text
    or [None]. *)
Definition record : Type := list (string * option string).

Definition record_keys (r : record) : list string := fst <$> r.

(** [r.get(k)], with [None] for an absent key *)
Definition record_get (r : record) (k : string) : option string :=
  match find (fun kv => String.eqb (fst kv) k) r with
  | Some (_, v) => v
  | None => None
  end.

(** What [csv.DictWriter.writerow] writes for a dictionary: a field that is
    absent or [None] becomes the empty text, and a key outside the field
    names raises [ValueError]. *)
Definition dict_to_row (fieldnames : list string) (r : record)
    : outcome (list string) :=
  if forallb (fun kv => existsb (String.eqb (fst kv)) fieldnames) r
  then Ret ((fun k => default "" (record_get r k)) <$> fieldnames)
  else Raise (ValueError "dict contains fields not in fieldnames").

(** The rows written one after the other; the file holds what was written
    so far. *)
Fixpoint write_dict_rows (path : string) (fieldnames : list string)
    (written : list (list string)) (details : list record) : M world unit :=
  match details with
  | [] => mret tt
  | detail :: rest =>
      row <- mlift (dict_to_row fieldnames detail) ;;
      let written' := (written ++ [row])%list in
      mmodify (fun w => set_fs (<[path := csv_encode written']> (fs w)) w) ;;
      write_dict_rows path fieldnames written' rest
  end.

(** [save_to_csv] of the clinic scraper *)
Definition save_to_csv (hospital_details : list record) : M world unit :=
  match hospital_details with
  | [] => logging NoHospitalDetails
  | first :: _ =>
      let keys := record_keys first in
      mtry (write_file clinics_csv (csv_encode []) ;;
            mmodify (fun w =>
              set_fs (<[clinics_csv := csv_encode [keys]]> (fs w)) w) ;;
            write_dict_rows clinics_csv keys [keys] hospital_details ;;
            logging HospitalsSaved)
           (fun e => logging (CsvSaveError e))
  end.

(** The end of [scrape_hospitals]: the details the pool returned, in the
    order of completion, those that are not [None] kept and saved. *)
Definition scrape_hospitals (results : list (option record)) : M world unit :=
  save_to_csv (omap id results).

(** [save_doctors_to_csv] of the doctor scraper *)
Definition save_doctors_to_csv (doctor_data : list (list string))
    (filename : string) : M world unit :=
  logging (SavingDoctors (length doctor_data)) ;;
  write_file filename
    (csv_encode (["Doctor Name"; "Specialty"] :: doctor_data)) ;;
  logging (DoctorsSaved filename).

(** The end of the doctor script: the lists the pool returned, in the order
    of completion, concatenated and saved under the default name. *)
Definition doctor_main (results : list (list (list string))) : M world unit :=
  save_doctors_to_csv (concat results) doctors_csv.

End Scrapers.

(** ** clinic_scrapper.py and doctor_scrapper.py: fetching and parsing

    [requests] and [BeautifulSoup] are outside the repository.  A parsed
    page is given by what the scrapers ask of it, every text as
    [get_text(strip=True)] returns it; the site is the sequence of answers
    it gives to the requests of a run, in the order they are made, and an
    exhausted sequence stands for a request that raises.  The records of
    the fetching functions are kept with the site, apart from those of
    the saving functions. *)

Record html : Type := Html {
  (** [soup.find('div', class_='pagination-container')]: the texts of its
      [<a>] elements *)
  pagination_links : option (list string);
  (** [soup.find_all('a', href=True)]: the [href], and whether the element
      holds a [<section>] of class [result-record] or [highlight-result] *)
  anchors : list (string * bool);
  (** [soup.find('h1', class_='main-name')] and
      [soup.find('h2', class_='main-field')] *)
  main_name : option string;
  main_field : option string;
  (** the [contact-info] section, its [info-table], and for each [<tr>]
      of the table the texts of its [<td>] cells *)
  contact_info : option (option (list (list string)));
  (** [soup.find('table', {'id': 'doctor-list-result'})]: for each [<tr>]
      the texts of its [<td>] cells *)
  doctor_list_result : option (list (list string));
}.

Record response : Type := Response {
  status_code : Z;
  soup : html;   (* [BeautifulSoup(response.text, 'html.parser')] *)
}.

(** One constructor per logging call of the fetching code (the two
    [logging.debug] calls are below the configured level and leave no
    record). *)
Inductive scrape_entry : Type :=
| FetchingMaxPage (url : string)             (* "Fetching max page number from {url}..." *)
| RetrieveFailed (url : string) (status : Z) (* "Failed to retrieve data from {url}. Status code: {}" *)
| MaxPageNumber (n : Z)                      (* "Max page number: {}" *)
| MaxPageError (e : exn)                     (* "Error fetching max page number: {e}" *)
| FetchingLinks (url : string)               (* "Fetching hospital/clinic links from {url}..." *)
| LinksFound (n : nat)                       (* "Found {} hospital/clinic links on page." *)
| LinksError (url : string) (e : exn)        (* "Error fetching hospital links from {url}: {e}" *)
| ScrapingDetails (url : string)             (* "Scraping hospital/clinic details from {url}..." *)
| ResponseStatus (url : string) (status : Z) (* "{url}... response.status {}" *)
| DetailsError (url : string) (e : exn)      (* "Error scraping hospital details from {url}: {e}" *)
| UsingThreads (n : option nat)              (* "Using {} threads for ..." *)
| TotalLinks (n : nat)                       (* "Total hospital/clinic links fetched: {}" *)
| TotalDetails (n : nat)                     (* "Total hospital details scraped: {}" *)
| FetchingData (url : string)                (* "Fetching data from {url}..." *)
| Retrieved (url : string)                   (* "Successfully retrieved data from {url}." *)
| TableNotFound (url : string)               (* "Table not found at {url}." *)
| DoctorsFound (n : nat) (url : string)      (* "Found {} doctor(s) and specialist(s) in {url}." *)
| FetchError (url : string) (e : exn)        (* "Error fetching data from {url}: {e}" *)
| ScrapingAlphabet (alphabet : string)       (* "Scraping doctors for alphabet: {}" *)
| ScrapedAlphabet (alphabet : string)        (* "Scraped data for alphabet: {}" *)
| AlphabetError (alphabet : string) (e : exn)(* "Error while scraping alphabet {}: {e}" *)
| ScrapingCompleted.                         (* "Scraping completed. All doctor and specialist data has been saved." *)

Record site : Type := Site {
  responses : list (outcome response);  (* the answers still to come *)
  requested : list string;              (* the URLs requested, oldest first *)
  scrape_log : list scrape_entry;       (* what was logged, oldest first *)
  cpu_count : option nat;               (* [os.cpu_count()] *)
}.

(** [int(s)] for a text; [None] stands for [ValueError]. *)
Class PyInt : Type := {
  int_of_string : string -> option Z;
}.

Section Fetching.
Context `{PyInt}.

(** [session.get(url)] *)
Definition session_get (url : string) : M site response :=
  fun st =>
    match responses st with
    | [] =>
        (Raise LibraryError,
         Site [] (requested st ++ [url]) (scrape_log st) (cpu_count st))
    | r :: rest =>
        (r, Site rest (requested st ++ [url]) (scrape_log st) (cpu_count st))
    end.

Definition scrape_logging (l : scrape_entry) : M site unit :=
  mmodify (fun st =>
    Site (responses st) (requested st) (scrape_log st ++ [l]) (cpu_count st)).

(** [needle in text] for two texts *)
Definition text_contains (needle text : string) : bool :=
  match index 0 needle text with
  | Some _ => true
  | None => false
  end.

(** [l[-2]] *)
Definition py_second_last {A} (l : list A) : outcome A :=
  match length l with
  | S (S n) => list_getitem l n
  | _ => Raise IndexError
  end.

(** *** clinic_scrapper.py *)

Definition BASE_URL : string := "https://www.medpages.info/sf/".

Definition get_max_page_number (url : string) : M site Z :=
  scrape_logging (FetchingMaxPage url) ;;
  mtry (response <- session_get url ;;
        if negb (status_code response =? 200) then
          scrape_logging (RetrieveFailed url (status_code response)) ;;
          mret 1
        else
          links <- mlift (match pagination_links (soup response) with
                          | Some links => Ret links
                          | None => Raise AttributeError
                          end) ;;
          last_page_link <- mlift (py_second_last links) ;;
          max_page_number <-
            mlift (match int_of_string last_page_link with
                   | Some n => Ret n
                   | None => Raise (ValueError last_page_link)
                   end) ;;
          scrape_logging (MaxPageNumber max_page_number) ;;
          mret max_page_number)
       (fun e => scrape_logging (MaxPageError e) ;; mret 1).

(** Line 70: the address a link is recorded under. *)
Definition full_url (href : string) : string :=
  if Stdlib.Strings.String.prefix "index.php" href
  then BASE_URL +:+ "/" +:+ href
  else href.

(** Lines 63-71: the loop that fills the set of links. *)
Definition page_links (tags : list (string * bool)) : gset string :=
  foldl (fun (links : gset string) (a_tag : string * bool) =>
           if snd a_tag then {[ full_url (fst a_tag) ]} ∪ links else links)
        ∅ tags.

(** The list a set is turned into holds its elements once each, in an
    order the code does not control; the model takes the order of
    [elements]. *)
Definition fetch_hospital_links_from_page (url : string)
    : M site (list string) :=
  scrape_logging (FetchingLinks url) ;;
  mtry (response <- session_get url ;;
        if negb (status_code response =? 200) then
          scrape_logging (RetrieveFailed url (status_code response)) ;;
          mret []
        else
          let links := page_links (anchors (soup response)) in
          scrape_logging (LinksFound (size links)) ;;
          mret (elements links))
       (fun e => scrape_logging (LinksError url e) ;; mret []).

(** Lines 105-115: one row of the contact table. *)
Definition contact_step
    (found : option string * option string * option string)
    (cells : list string) : option string * option string * option string :=
  match cells with
  | [label; value] =>
      let '(telephone, address, location) := found in
      if text_contains "Telephone" label then (Some value, address, location)
      else if text_contains "Address" label then
             (telephone, Some value, location)
      else if text_contains "Location" label then
             (telephone, address, Some value)
      else found
  | _ => found
  end.

(** Lines 99-115: telephone, address and location of a page. *)
Definition contact_fields (page : html)
    : option string * option string * option string :=
  match contact_info page with
  | Some (Some rows) => foldl contact_step (None, None, None) rows
  | Some None | None => (None, None, None)
  end.

Definition fetch_hospital_details (hospital_url : string)
    : M site (option record) :=
  scrape_logging (ScrapingDetails hospital_url) ;;
  mtry (response <- session_get hospital_url ;;
        scrape_logging (ResponseStatus hospital_url (status_code response)) ;;
        if negb (status_code response =? 200) then
          scrape_logging
            (RetrieveFailed hospital_url (status_code response)) ;;
          mret None
        else
          let name := main_name (soup response) in
          let field := main_field (soup response) in
          let '(telephone, address, location) :=
            contact_fields (soup response) in
          mret (Some [("name", name); ("field", field);
                      ("telephone", telephone); ("address", address);
                      ("location", location)]))
       (fun e => scrape_logging (DetailsError hospital_url e) ;; mret None).

(** The tasks handed to a pool, run one after the other in the order of
    submission; [future.result()] hands on what a task raised. *)
Fixpoint pool_map {A B} (task : A -> M site B) (arguments : list A)
    : M site (list B) :=
  match arguments with
  | [] => mret []
  | a :: rest =>
      b <- task a ;; bs <- pool_map task rest ;; mret (b :: bs)
  end.

(** [base_url.format(i)] *)
Definition search_url (i : Z) : string :=
  "https://www.medpages.info/sf/index.php?page=newsearchresults&q=mauritius&sp=no&lat=&long=&pageno="
  +:+ pretty i.

(** Lines 131-167 of [scrape_hospitals]: what the second pool hands
    back. *)
Definition collect_hospital_details : M site (list (option record)) :=
  max_page <- get_max_page_number (search_url 1) ;;
  st <- mget ;;
  let num_threads :=
    match cpu_count st with
    | Some (S n) => S n
    | Some O | None => 4%nat
    end in
  scrape_logging (UsingThreads (Some num_threads)) ;;
  let page_urls := search_url <$> seqZ 1 max_page in
  results <- pool_map fetch_hospital_links_from_page page_urls ;;
  let all_hospital_links := concat results in
  scrape_logging (TotalLinks (length all_hospital_links)) ;;
  details <- pool_map fetch_hospital_details all_hospital_links ;;
  scrape_logging (TotalDetails (length (omap id details))) ;;
  mret details.

(** *** doctor_scrapper.py *)

(** Lines 38-43: what a row of the table contributes. *)
Definition doctor_row (columns : list string) : option (list string) :=
  match columns with
  | doctor_name :: specialty :: _ =>
      if negb (String.eqb doctor_name "") && negb (String.eqb specialty "")
      then Some [doctor_name; specialty]
      else None
  | _ => None
  end.

Definition fetch_doctors_data (url : string) : M site (list (list string)) :=
  scrape_logging (FetchingData url) ;;
  mtry (response <- session_get url ;;
        if negb (status_code response =? 200) then
          scrape_logging (RetrieveFailed url (status_code response)) ;;
          mret []
        else
          scrape_logging (Retrieved url) ;;
          match doctor_list_result (soup response) with
          | None => scrape_logging (TableNotFound url) ;; mret []
          | Some table =>
              let rows := drop 1 table in
              let doctor_data := omap doctor_row rows in
              scrape_logging (DoctorsFound (length doctor_data) url) ;;
              mret doctor_data
          end)
       (fun e => scrape_logging (FetchError url e) ;; mret []).






End Fetching.

(** A computation on the site, run where the state pairs the world with
    the site. *)
Definition on_site {A} (m : M site A) : M (world * site) A :=
  fun s =>
    match m (snd s) with
    | (r, st') => (r, (fst s, st'))
    end.

Section Scripts.
Context `{Runtime} `{PyInt}.

(** [scrape_hospitals] as a whole *)
Definition scrape_hospitals_script : M (world * site) unit :=
  results <- on_site collect_hospital_details ;;
  on_world (scrape_hospitals results).


End Scripts.

(** ** Notions the properties are stated with *)

(** Running [m] relates the state before to the state after by [R],
    whether [m] returns or raises. *)
Definition preserves {St A} (R : St -> St -> Prop) (m : M St A) : Prop :=
  forall s, R s (snd (m s)).

(** A relation on worlds, read on the world of a paired state. *)
Definition on_fst {C} (R : world -> world -> Prop)
    : world * C -> world * C -> Prop :=
  fun s s' => R (fst s) (fst s').

(** A computation on the executor queues at most one task, and a task it
    queues satisfies [P]. *)
Definition appends_at_most `{PyFloat} {A} (P : task -> Prop)
    (m : M (world * list task) A) : Prop :=
  forall s,
    snd (snd (m s)) = snd s
    \/ exists t, snd (snd (m s)) = (snd s ++ [t])%list /\ P t.

(** The local part of a paired state is as before. *)
Definition keeps_queue {C} : world * C -> world * C -> Prop :=
  fun s s' => snd s' = snd s.

(** "With no records the write is skipped and a warning is emitted": the
    file at [path] is left as it was and a warning is logged. *)
Definition skips_write_with_warning (save : M world unit) (path : string)
    (w : world) : Prop :=
  fs (snd (save w)) !! path = fs w !! path
  /\ exists l, In l (log (snd (save w))) /\ level_of l = WARNING.

(** The characters a sanitized file name is free of: the control
    characters, the two path separators, and the characters that file
    systems reserve or shells expand (colon, star, question mark, angle
    brackets, bar and the double quote). *)
Definition unsafe_in_file_name (c : ascii) : bool :=
  Nat.ltb (nat_of_ascii c) 32
  || Nat.eqb (nat_of_ascii c) 127
  || Nat.eqb (nat_of_ascii c) 34
  || existsb (Ascii.eqb c) (list_ascii_of_string "/\:*?<>|").

(** A text that can serve as a sanitized key: none of its characters is
    unsafe in a file name. *)
Definition sanitized (s : string) : bool :=
  negb (existsb unsafe_in_file_name (list_ascii_of_string s)).

(** "The logo image persisted by the call is stored under a file name
    keyed by the sanitized clinic name": a file that is there after the
    call and was not there before, the destination aside, sits in the
    logo directory under a file name built from a sanitized key. *)
Definition logo_keyed_by_sanitized_name (output_pdf : string)
    (w w' : world) : Prop :=
  forall p,
    p <> output_pdf -> fs w !! p = None -> is_Some (fs w' !! p) ->
    exists key,
      sanitized key = true
      /\ p = os_path_join logos_dir ("logo_" +:+ key +:+ ".png").

Section Notions.
Context `{Runtime}.

(** A design record as the design store has it: an object with the two
    colours and the font. *)
Definition well_formed_design (design : value) : bool :=
  match design with
  | VDict d =>
      bool_decide (is_Some (d !! "primary_color"))
      && bool_decide (is_Some (d !! "secondary_color"))
      && bool_decide (is_Some (d !! "font"))
  | _ => false
  end.

(** The files are as before, except that the logo of the clinic may have
    been generated. *)
Definition logo_only (clinic : gmap string string) (w w' : world) : Prop :=
  fs w' = fs w
  \/ exists name, clinic !! "name" = Some name
       /\ fs w' = <[logo_path name := png_encode (substring 0 20 name)]>
                    (fs w).

(** The calls a page consists of when it is drawn to the end, after the
    logo. *)
Definition layout_ops (name address telephone email : string)
    (doctor : string * string) (diagnosis : value)
    (billing_items : list (list value))
    (patient_name : string) (patient_id : Z) (date : string)
    (primary_color secondary_color font_name : value) (total : pyfloat)
    : list canvas_op :=
  [ SetFont font_name 16;
    SetFillColor (DesignColour primary_color);
    DrawString 170 730 name;
    SetFont font_name 12;
    SetFillColor Black;
    DrawString 170 710 address;
    DrawString 170 690 ("Phone: " +:+ telephone);
    DrawString 170 670 ("Email: " +:+ email);
    SetFont font_name 14;
    SetFillColor (DesignColour primary_color);
    DrawString 50 640 "Medical Bill Receipt";
    DrawLine 50 635 550 635;
    SetFont font_name 12;
    DrawString 50 610 ("Patient Name: " +:+ patient_name);
    DrawString 50 590 ("Patient ID: " +:+ pretty patient_id);
    DrawString 50 570 ("Date of Service: " +:+ date);
    DrawString 50 540
      ("Doctor: " +:+ fst doctor +:+ " (" +:+ snd doctor +:+ ")");
    DrawString 50 520 ("Diagnosis: " +:+ py_str diagnosis);
    DrawTable (table_header :: billing_items)
      primary_color secondary_color font_name 50 400;
    SetFont font_name 12;
    SetFillColor (DesignColour primary_color);
    DrawString 400 370 ("Total Amount: Rs " +:+ format_2f total);
    SetFont font_name 10;
    SetFillColor Black;
    DrawString 50 50 ("Thank you for choosing " +:+ name +:+ "!");
    DrawString 50 35
      ("For any queries, please contact us at " +:+ telephone
       +:+ " or " +:+ email) ].

(** The world once the patient name and number were drawn. *)
Definition after_patient (w : world) : world :=
  snd (fake_random_int 100000 999999 (snd (fake_name w))).

(** The world once the logo of the clinic was checked and, when missing or
    not decodable, generated again (lines 205-207). *)
Definition after_logo_check (name : string) (w : world) : world :=
  let logo_file := logo_path name in
  match fs w !! logo_file with
  | Some bytes =>
      if image_ok bytes then w
      else snd (generate_logo name logo_file
                  (add_log (LogoVerifyError logo_file LibraryError) w))
  | None => snd (generate_logo name logo_file w)
  end.

(** "The call returns a non-empty list." *)
Definition returns_billing_lines (diagnosis : string)
    (table : gmap string value) : Prop :=
  exists rows,
    get_billing_items_for_diagnosis (VStr diagnosis) (VDict table) = Ret rows
    /\ rows <> [].

(** A design record whose colours and font come from the palettes. *)
Definition palette_design (d : value) : Prop :=
  exists p s f,
    d = design_record p s f
    /\ In p primary_palette /\ In s secondary_palette /\ In f font_palette.

(** The input files of the claim generator. *)
Definition input_files : list string :=
  [clinics_csv; doctors_csv; specialties_json; billing_json].

(** "A missing input file aborts the run with a raised error": nothing is
    queued, and the run ends on the record of the fatal error. *)
Definition missing_input_file_aborts (legitimate_count fraudulent_count : nat)
    (w : world) : Prop :=
  forall path,
    In path input_files -> fs w !! path = None ->
    exists e s,
      main_submit legitimate_count fraudulent_count (w, []) = (Raise e, s)
      /\ snd s = []
      /\ last (log (snd (main_program legitimate_count fraudulent_count w)))
         = Some (FatalError e).

End Notions.

(** The world [w'] comes after [w] in a computation that may log and write
    files and does nothing else: the log of [w] is the beginning of the log
    of [w'], and the draws of [random] and of Faker and the date are the
    same. *)
Definition only_logs_and_writes (w w' : world) : Prop :=
  (exists l, log w' = (log w ++ l)%list)
  /\ rnd w' = rnd w /\ fake_rnd w' = fake_rnd w /\ today w' = today w.

(** What is known of the task queued by slot [i] of a loop: its path and
    kind are those of the slot, its clinic and doctor are loaded ones, the
    specialty of the doctor is in the table and the diagnosis comes from
    its list, the billing rows are those of the diagnosis, and the design
    is the one stored under the name of the clinic. *)
Definition queued_for `{Runtime} (kind stem : string)
    (clinics_info : list (gmap string string))
    (doctors_info : list (string * string))
    (specialties_diseases designs billing_items_data : value)
    (i : nat) (t : task) : Prop :=
  t_output t = claim_path stem i
  /\ t_kind t = kind
  /\ In (t_clinic t) clinics_info
  /\ In (t_doctor t) doctors_info
  /\ py_contains specialties_diseases (snd (t_doctor t)) = Ret true
  /\ (exists diagnoses,
        py_getitem specialties_diseases (snd (t_doctor t)) = Ret diagnoses
        /\ forall l, diagnoses = VList l -> In (t_diagnosis t) l)
  /\ get_billing_items_for_diagnosis (t_diagnosis t) billing_items_data
     = Ret (t_billing t)
  /\ exists name,
       t_clinic t !! "name" = Some name
       /\ py_getitem designs name = Ret (t_design t).

(** Line 22 of claimgenerator.py: the file the log records of the claim
    generator go to.  The model keeps these records in [log]; [fs] holds
    the other files. *)
Definition log_file : string := "claim_generation.log".

(** The files of [w'] are those of [w], except perhaps the one at
    [path]. *)
Definition keeps_files_but (path : string) (w w' : world) : Prop :=
  forall p, p <> path -> fs w' !! p = fs w !! p.

(** The site once the given URLs were requested, one answer consumed for
    each, and the given records logged. *)
Definition site_after (urls : list string) (entries : list scrape_entry)
    (st : site) : site :=
  Site (drop (length urls) (responses st)) (requested st ++ urls)
       (scrape_log st ++ entries) (cpu_count st).

(** The columns of a scraped clinic. *)
Definition clinic_columns : list string :=
  ["name"; "field"; "telephone"; "address"; "location"].

(** A row of the doctor CSV: a name and a specialty, neither empty. *)
Definition doctor_pair (row : list string) : Prop :=
  exists doctor_name specialty,
    row = [doctor_name; specialty] /\ doctor_name <> "" /\ specialty <> "".

(** The answer a request gets next: a page delivered with status 200. *)
Definition next_page (st : site) (page : html) : Prop :=
  exists rest, responses st = Ret (Response 200 page) :: rest.

(** The rows the doctor scraper takes from an answer: those of the table
    of a page delivered with status 200, the first row of the table left
    out; none from any other answer, nor from a request that raised. *)
Definition answer_rows (answer : option (outcome response))
    : list (list string) :=
  match answer with
  | Some (Ret r) =>
      if status_code r =? 200 then
        match doctor_list_result (soup r) with
        | Some table => omap doctor_row (drop 1 table)
        | None => []
        end
      else []
  | Some (Raise _) | None => []
  end.

(** The row of the clinic CSV for a record: its five fields, a field that
    is [None] as the empty text. *)
Definition clinic_row (r : record) : list string :=
  (fun k => default "" (record_get r k)) <$> clinic_columns.

(** ** A runtime to run the model on

    Amounts are counted in hundredths, which is exact on the whole-number
    amounts of the billing tables; the codecs are small stand-ins, the JSON
    and CSV readers know the documents listed below.  The theorems hold for
    every runtime; this one evaluates the model on concrete inputs. *)

Module Sample.

Fixpoint parse_digits (acc : Z) (s : string) : option Z :=
  match s with
  | EmptyString => Some acc
  | String c s' =>
      match Ascii.is_nat c with
      | Some d => parse_digits (10 * acc + Z.of_nat d) s'
      | None => None
      end
  end.

Definition parse_amount (s : string) : option Z :=
  match s with
  | EmptyString => None
  | _ => (fun n => 100 * n) <$> parse_digits 0 s
  end.

Definition two_digits (n : Z) : string :=
  if n <? 10 then "0" +:+ pretty n else pretty n.

Definition show_2f (x : Z) : string :=
  (if x <? 0 then "-" else "")
  +:+ pretty (Z.abs x / 100) +:+ "." +:+ two_digits (Z.abs x mod 100).

Definition show_float (x : Z) : string :=
  let frac := Z.abs x mod 100 in
  (if x <? 0 then "-" else "")
  +:+ pretty (Z.abs x / 100) +:+ "."
  +:+ (if frac mod 10 =? 0 then pretty (frac / 10) else two_digits frac).

#[export] Instance hundredths : PyFloat := {|
  pyfloat := Z;
  float_of_string := parse_amount;
  float_of_int := fun n => Some (100 * n);
  py_sum := fun xs => foldr Z.add 0 xs;
  format_2f := show_2f;
  float_str := show_float;
  float_truthy := fun x => negb (x =? 0);
|}.

Definition flu_item : value :=
  VDict (<["Item" := VStr "Consult"]>
         (<["Description" := VStr "GP visit"]>
          (<["Quantity" := VInt 1]>
           (<["Unit Price" := VInt 800]>
            (<["Total" := VInt 800]> ∅))))).

Definition billing_map : gmap string value :=
  <["Flu" := VDict (<["billing_items" := VList [flu_item]]> ∅)]>
  (<["Cold" := VDict (<["billing_items" := VList []]> ∅)]> ∅).

Definition billing_table : value := VDict billing_map.

Definition specialty_map : gmap string value :=
  <["GP" := VList [VStr "Flu"]]> ∅.

Definition specialties : value := VDict specialty_map.

Definition city_design : value :=
  VDict (<["primary_color" := VStr "#1f77b4"]>
         (<["secondary_color" := VStr "#aec7e8"]>
          (<["font" := VStr "Courier"]> ∅))).

Definition design_store : value :=
  VDict (<["City Clinic" := city_design]> ∅).

Definition city_clinic : gmap string string :=
  <["name" := "City Clinic"]>
  (<["address" := "1 Main Road"]>
   (<["telephone" := "555 0100"]>
    (<["location" := "Port Louis"]>
     (<["email" := "N/A"]> ∅)))).

Definition city_row : gmap string string :=
  <["name" := "City Clinic"]>
  (<["address" := "1 Main Road"]>
   (<["telephone" := "555 0100"]>
    (<["location" := "Port Louis"]> ∅))).

(** The JSON and CSV documents the stand-in readers know, by their text. *)
Definition json_documents : list (string * value) :=
  [("(billing)", VDict (<["diagnoses" := billing_table]> ∅));
   ("(specialties)", specialties);
   ("(designs)", design_store)].

Definition csv_documents : list (string * list (gmap string string)) :=
  [("name,address,telephone,location", []);
   ("(clinics)", [city_row]);
   ("(doctors)",
    [<["Doctor Name" := "Dr A"]> (<["Specialty" := "GP"]> ∅);
     <["Doctor Name" := "Dr B"]> (<["Specialty" := "Urology"]> ∅)])].

Definition lookup_text {A} (s : string) (l : list (string * A)) : option A :=
  snd <$> find (fun kv => String.eqb (fst kv) s) l.

Definition join_with (sep : string) (l : list string) : string :=
  String.concat sep l.

(** A file can be created in the working directory and in the two
    directories that lines 32-33 make, not below a directory that was
    never made. *)
Definition no_separator (s : string) : bool :=
  negb (existsb (Ascii.eqb "/") (list_ascii_of_string s)).

Definition file_name_in (dir path : string) : option string :=
  if Stdlib.Strings.String.prefix dir path
  then Some (substring (String.length dir) (String.length path) path)
  else None.

Definition creatable (path : string) : bool :=
  match file_name_in "logos/" path, file_name_in "output/" path with
  | Some name, _ | None, Some name =>
      negb (String.eqb name "") && no_separator name
  | None, None => negb (String.eqb path "") && no_separator path
  end.

#[export] Instance runtime : Runtime := {|
  container_repr := fun v =>
    match v with VList _ => "[...]" | _ => "{...}" end;
  json_decode := fun s => lookup_text s json_documents;
  json_encode := fun _ => "(json)";
  csv_dictreader := fun s => default [] (lookup_text s csv_documents);
  csv_encode := fun rows => join_with ";" (join_with "," <$> rows);
  pil_draws := fun _ => true;
  png_encode := fun text => "PNG:" +:+ text;
  image_ok := fun bytes => Stdlib.Strings.String.prefix "PNG:" bytes;
  pdf_encode := fun ops => "PDF:" +:+ pretty (length ops);
  rl_accepts := fun _ => true;
  writable := creatable;
  faker_name := fun r => "Patient " +:+ pretty r;
|}.

Definition empty_world : world := World ∅ [] [] [] "2025-01-01".

(** The three inputs of [load_data] and the design store in place, the
    billing-items file missing. *)
Definition world_without_billing : world :=
  World (<[clinics_csv := "(clinics)"]>
         (<[doctors_csv := "(doctors)"]>
          (<[specialties_json := "(specialties)"]>
           (<[design_file := "(designs)"]> ∅))))
        [] [0; 0; 0; 0; 1]%nat [] "2025-01-01".

(** A billing table whose only item has no "Description". *)
Definition incomplete_billing_map : gmap string value :=
  <["Flu" := VDict (<["billing_items" :=
                        VList [VDict (<["Item" := VStr "Consult"]> ∅)]]> ∅)]>
  ∅.

Definition dr_a : string * string := ("Dr A", "GP").
Definition dr_b : string * string := ("Dr B", "Urology").

(** A clinic whose name holds a colon. *)
Definition north_clinic : gmap string string :=
  <["name" := "City Clinic: North"]>
  (<["address" := "1 Main Road"]>
   (<["telephone" := "555 0100"]>
    (<["email" := "N/A"]> ∅))).

(** A clinic record that lacks its address. *)
Definition nameless_street_clinic : gmap string string :=
  <["name" := "City Clinic"]> (<["telephone" := "555 0100"]> ∅).

Definition flu_lines : list (list value) :=
  [[VStr "Consult"; VStr "GP visit"; VStr "1"; VStr "800"; VStr "800"]].

(** A world whose first two draws pick the only clinic and then Dr B. *)
Definition urology_world : world :=
  World ∅ [] [0; 1; 0; 0; 0]%nat [] "2025-01-01".


(** A world whose clinic CSV holds a header and no data row. *)
Definition headers_only_world : world :=
  World (<[clinics_csv := "name,address,telephone,location"]> ∅)
        [] [] [] "2025-01-01".

Definition scraped_records : list record :=
  [ [("name", Some "City Clinic"); ("field", Some "Clinic");
     ("telephone", Some "555 0100"); ("address", None);
     ("location", Some "Port Louis")];
    [("name", Some "Lake Hospital"); ("field", None);
     ("telephone", None); ("address", Some "2 Lake Road");
     ("location", Some "Curepipe")] ].

(** [int] on the decimal digits. *)
#[export] Instance decimal : PyInt := {|
  int_of_string := fun s =>
    match s with
    | EmptyString => None
    | _ => parse_digits 0 s
    end;
|}.

Definition result_page : html :=
  Html (Some ["1"; "1"; "Next"])
       [("index.php?page=clinic&id=1", true); ("about.html", false)]
       None None None None.

Definition clinic_page : html :=
  Html None [] (Some "City Clinic") (Some "Clinic")
       (Some (Some [["Telephone:"; "555 0100"]; ["Fax:"; "555 0199"];
                    ["Location:"; "Port Louis"]]))
       None.

(** A site with one result page that links to one clinic. *)
Definition clinic_site : site :=
  Site [Ret (Response 200 result_page); Ret (Response 200 result_page);
        Ret (Response 200 clinic_page)]
       [] [] (Some 2%nat).




(** A design file that is not JSON. *)
Definition corrupt_design_world : world :=
  World (<[clinics_csv := "(clinics)"]>
         (<[doctors_csv := "(doctors)"]>
          (<[specialties_json := "(specialties)"]>
           (<[design_file := "{"]> ∅))))
        [] [] [] "2025-01-01".

(** A world whose first three draws pick the only clinic, Dr A and the
    only diagnosis of Dr A. *)
Definition gp_world : world :=
  World ∅ [] [0; 0; 0]%nat [] "2025-01-01".

End Sample.

(** * Properties *)

(** ** Generic facts about the monad *)

Lemma omapM_length {A B} (f : A -> outcome B) (l : list A) (ys : list B) :
  omapM f l = Ret ys -> length ys = length l.
Proof.
  revert ys. induction l as [|x l IH]; intros ys; simpl.
  - intros [= <-]. reflexivity.
  - destruct (f x) as [y|e]; simpl; [|discriminate].
    destruct (omapM f l) as [ys'|e]; simpl; [|discriminate].
    intros [= <-]. simpl. f_equal. apply IH. reflexivity.
Qed.

Lemma omapM_total {A B} (f : A -> outcome B) (l : list A) :
  Forall (fun x => exists y, f x = Ret y) l ->
  exists ys, omapM f l = Ret ys.
Proof.
  induction 1 as [|x l [y Hy] _ [ys Hys]]; simpl.
  - eexists. reflexivity.
  - rewrite Hy. simpl. rewrite Hys. simpl. eexists. reflexivity.
Qed.

(** ** Stepping through a computation *)

Section MonadFacts.
Context {St : Type}.

Lemma mbind_ret_inv {A B} (m : M St A) (f : A -> M St B) s b s' :
  mbind m f s = (Ret b, s') ->
  exists a s1, m s = (Ret a, s1) /\ f a s1 = (Ret b, s').
Proof.
  unfold mbind. destruct (m s) as [[a|e] s1]; [eauto|discriminate].
Qed.

Lemma preserves_mlift {A} (R : St -> St -> Prop) `{!Reflexive R}
    (x : outcome A) :
  preserves R (mlift x).
Proof. intros s. simpl. reflexivity. Qed.

Lemma preserves_mget (R : St -> St -> Prop) `{!Reflexive R} :
  preserves R mget.
Proof. intros s. simpl. reflexivity. Qed.

Lemma preserves_mbind {A B} (R : St -> St -> Prop) `{!Transitive R}
    (m : M St A) (f : A -> M St B) :
  preserves R m -> (forall a, preserves R (f a)) -> preserves R (mbind m f).
Proof.
  intros Hm Hf s. unfold mbind. specialize (Hm s).
  destruct (m s) as [[a|e] s1]; simpl in *; [|exact Hm].
  transitivity s1; [exact Hm|apply Hf].
Qed.

End MonadFacts.

(** ** The logo of a clinic *)

Ltac case_split :=
  match goal with
  | |- context [match ?x with _ => _ end] =>
      lazymatch x with
      | context [match _ with _ => _ end] => fail
      | _ => destruct x eqn:?
      end
  end.

Section LogoFacts.
Context `{Runtime}.

Lemma verify_logo_eq (logo_file : string) (w : world) :
  verify_logo logo_file w =
  match fs w !! logo_file with
  | Some bytes =>
      if image_ok bytes then (Ret true, w)
      else (Ret false, add_log (LogoVerifyError logo_file LibraryError) w)
  | None => (Ret false, w)
  end.
Proof.
  cbv beta iota delta [verify_logo mtry mbind path_exists read_file mget
    mret mraise logging mmodify].
  destruct (fs w !! logo_file) as [bytes|] eqn:Hfile; simpl;
    rewrite ?Hfile; simpl.
  - destruct (image_ok bytes); reflexivity.
  - reflexivity.
Qed.

Lemma generate_logo_eq (provider_name logo_file : string) (w : world) :
  generate_logo provider_name logo_file w =
  if pil_draws (substring 0 20 provider_name) then
    if writable logo_file then
      (Ret true,
       add_log (LogoGenerated provider_name logo_file)
         (set_fs (<[logo_file := png_encode (substring 0 20 provider_name)]>
                    (fs w)) w))
    else (Ret false, add_log (LogoError provider_name (OSError logo_file)) w)
  else (Ret false, add_log (LogoError provider_name LibraryError) w).
Proof.
  unfold generate_logo, mtry, mbind, write_file, logging, mmodify, mret,
    mraise.
  destruct (pil_draws _); [|reflexivity].
  destruct (writable logo_file); reflexivity.
Qed.

Lemma verify_logo_fs (logo_file : string) (w : world) :
  fs (snd (verify_logo logo_file w)) = fs w.
Proof.
  rewrite verify_logo_eq. destruct (fs w !! logo_file) as [bytes|];
    [destruct (image_ok bytes)|]; reflexivity.
Qed.

Lemma generate_logo_fs (provider_name logo_file : string) (w : world) :
  fs (snd (generate_logo provider_name logo_file w)) = fs w
  \/ fs (snd (generate_logo provider_name logo_file w))
     = <[logo_file := png_encode (substring 0 20 provider_name)]> (fs w).
Proof.
  rewrite generate_logo_eq.
  destruct (pil_draws _); [|left; reflexivity].
  destruct (writable logo_file); [right|left]; reflexivity.
Qed.

Lemma after_logo_check_fs (name : string) (w : world) :
  fs (after_logo_check name w) = fs w
  \/ fs (after_logo_check name w)
     = <[logo_path name := png_encode (substring 0 20 name)]> (fs w).
Proof.
  unfold after_logo_check.
  destruct (fs w !! logo_path name) as [bytes|].
  - destruct (image_ok bytes); [left; reflexivity|].
    apply (generate_logo_fs name (logo_path name)
             (add_log (LogoVerifyError (logo_path name) LibraryError) w)).
  - apply generate_logo_fs.
Qed.

(** The logo step, as an equation: the world goes through the check and
    the second verification, the page gains the image when the latter
    succeeds. *)
Lemma add_clinic_logo_eq (clinic : gmap string string) (name : string)
    (w : world) (page : list canvas_op) :
  clinic !! "name" = Some name ->
  let logo_file := logo_path name in
  let w2 := after_logo_check name w in
  add_clinic_logo clinic (w, page) =
  match verify_logo logo_file w2 with
  | (Ret true, w3) => draw (DrawImage logo_file 50 700 100 50) (w3, page)
  | (Ret false, w3) => (Ret tt, (w3, page))
  | (Raise e, w3) => (Raise e, (w3, page))
  end.
Proof.
  intros Hname logo_file w2. subst w2 logo_file.
  assert (Hend : forall w2,
    (ok <- on_world (verify_logo (logo_path name)) ;;
     if ok : bool then draw (DrawImage (logo_path name) 50 700 100 50)
     else mret tt) (w2, page)
    = match verify_logo (logo_path name) w2 with
      | (Ret true, w3) => draw (DrawImage (logo_path name) 50 700 100 50) (w3, page)
      | (Ret false, w3) => (Ret tt, (w3, page))
      | (Raise e, w3) => (Raise e, (w3, page))
      end).
  { intros w2. unfold mbind, on_world. simpl.
    destruct (verify_logo (logo_path name) w2) as [[[|]|e] w3]; reflexivity. }
  rewrite <- Hend. clear Hend.
  unfold add_clinic_logo, after_logo_check.
  unfold mbind at 1, mlift at 1, row_getitem at 1. rewrite Hname.
  unfold mbind at 1, on_world at 1, path_exists, mbind at 1, mget, mret at 1.
  simpl fst; simpl snd.
  destruct (fs w !! logo_path name) as [bytes|] eqn:Hfile.
  - rewrite bool_decide_eq_true_2 by eauto. simpl negb.
    unfold mbind at 1. unfold mbind at 1, on_world at 1.
    simpl fst; simpl snd. rewrite verify_logo_eq, Hfile.
    destruct (image_ok bytes) eqn:Hok.
    + reflexivity.
    + simpl negb. unfold mret at 1. unfold mbind at 1.
      unfold mbind at 1, mlift at 1, row_getitem at 1. rewrite Hname.
      unfold mbind at 1, on_world at 1. simpl fst; simpl snd.
      rewrite generate_logo_eq.
      destruct (pil_draws _); [destruct (writable _)|]; reflexivity.
  - rewrite bool_decide_eq_false_2 by (intros [? ?]; discriminate).
    simpl negb. unfold mbind at 1. unfold mret at 1. unfold mbind at 1.
    unfold mbind at 1, mlift at 1, row_getitem at 1. rewrite Hname.
    unfold mbind at 1, on_world at 1. simpl fst; simpl snd.
    rewrite generate_logo_eq.
    destruct (pil_draws _); [destruct (writable _)|]; reflexivity.
Qed.

End LogoFacts.

(** ** The page of a claim *)

Section PageFacts.
Context `{Runtime}.

Lemma draw_eq (op : canvas_op) (w : world) (page : list canvas_op) :
  draw op (w, page) =
  if rl_accepts op then (Ret tt, (w, (page ++ [op])%list))
  else (Raise LibraryError, (w, page)).
Proof. unfold draw. destruct (rl_accepts op); reflexivity. Qed.

Lemma mbind_draw {A} (op : canvas_op) (k : unit -> M _ A) (w : world)
    (page : list canvas_op) :
  mbind (draw op) k (w, page) =
  if rl_accepts op then k tt (w, (page ++ [op])%list)
  else (Raise LibraryError, (w, page)).
Proof. unfold mbind. rewrite draw_eq. destruct (rl_accepts op); reflexivity. Qed.

Lemma mbind_mlift {St A B} (x : outcome A) (k : A -> M St B) (s : St) :
  mbind (mlift x) k s =
  match x with
  | Ret a => k a s
  | Raise e => (Raise e, s)
  end.
Proof. unfold mbind, mlift. destruct x; reflexivity. Qed.

Lemma mbind_mget {St B} (k : St -> M St B) (s : St) :
  mbind mget k s = k s s.
Proof. reflexivity. Qed.

#[local] Instance on_fst_eq_refl {C} : Reflexive (@on_fst C eq).
Proof. intros s. reflexivity. Qed.

#[local] Instance on_fst_eq_trans {C} : Transitive (@on_fst C eq).
Proof. intros s1 s2 s3. unfold on_fst. congruence. Qed.

Lemma preserves_draw (op : canvas_op) : preserves (on_fst eq) (draw op).
Proof.
  intros [w page]. rewrite draw_eq. destruct (rl_accepts op); reflexivity.
Qed.

(** Drawing the page touches neither the files nor the log. *)
Lemma claim_layout_world clinic doctor diagnosis billing_items patient_name
    patient_id primary_color secondary_color font_name :
  preserves (on_fst eq)
    (claim_layout clinic doctor diagnosis billing_items patient_name
       patient_id primary_color secondary_color font_name).
Proof.
  unfold claim_layout.
  repeat first
    [ apply preserves_draw
    | apply preserves_mlift; typeclasses eauto
    | apply preserves_mget; typeclasses eauto
    | apply preserves_mbind; [typeclasses eauto| |intros ?] ].
Qed.


Lemma row_getitem_ret (row : gmap string string) (k x : string) :
  row_getitem row k = Ret x -> row !! k = Some x.
Proof.
  unfold row_getitem. destruct (row !! k); [|discriminate].
  intros [= ->]. reflexivity.
Qed.

Ltac layout_step H :=
  first
    [ rewrite mbind_draw in H;
      match type of H with
      | (if ?b then _ else _) = _ => destruct b; [|discriminate H]
      end
    | rewrite mbind_mlift in H;
      try match type of H with
          | match ?x with _ => _ end = _ =>
              let E := fresh "E" in destruct x eqn:E; [|discriminate H]
          end
    | rewrite mbind_mget in H ].

(** When the page is drawn to the end, it is the page before followed by
    the calls of [layout_ops], and the world is as it was. *)
Lemma claim_layout_ret clinic doctor diagnosis billing_items patient_name
    patient_id primary_color secondary_color font_name w page s' :
  claim_layout clinic doctor diagnosis billing_items patient_name
    patient_id primary_color secondary_color font_name (w, page)
  = (Ret tt, s') ->
  exists name address telephone email total,
    clinic !! "name" = Some name
    /\ clinic !! "address" = Some address
    /\ clinic !! "telephone" = Some telephone
    /\ clinic !! "email" = Some email
    /\ total_amount billing_items = Ret total
    /\ s' = (w, (page ++ layout_ops name address telephone email doctor
                   diagnosis billing_items patient_name patient_id (today w)
                   primary_color secondary_color font_name total)%list).
Proof.
  unfold claim_layout. intros Hrun.
  repeat layout_step Hrun.
  rewrite draw_eq in Hrun. 
  destruct (rl_accepts _); [|discriminate Hrun].
  apply (f_equal snd) in Hrun. cbn [snd] in Hrun. subst s'.
  apply row_getitem_ret in E, E0, E1, E2.
  exists a, a0, a1, a2, a3.
  repeat split; try assumption.
  unfold layout_ops. simpl fst. rewrite <- !app_assoc. reflexivity.
Qed.
Lemma fake_name_eq (w : world) :
  exists r, fake_name w = (Ret (faker_name r), snd (fake_name w))
            /\ fs (snd (fake_name w)) = fs w
            /\ log (snd (fake_name w)) = log w.
Proof.
  unfold fake_name, mbind, draw_fake, mret.
  destruct (fake_rnd w) as [|r t]; eexists; repeat split; reflexivity.
Qed.

Lemma fake_random_int_eq (lo hi : Z) (w : world) :
  exists n, fake_random_int lo hi w = (Ret n, snd (fake_random_int lo hi w))
            /\ fs (snd (fake_random_int lo hi w)) = fs w
            /\ log (snd (fake_random_int lo hi w)) = log w.
Proof.
  unfold fake_random_int, mbind, draw_fake, mret.
  destruct (fake_rnd w) as [|r t]; eexists; repeat split; reflexivity.
Qed.

Lemma after_patient_fs (w : world) : fs (after_patient w) = fs w.
Proof.
  unfold after_patient.
  destruct (fake_random_int_eq 100000 999999 (snd (fake_name w)))
    as (n & _ & Hfs & _).
  destruct (fake_name_eq w) as (r & _ & Hfs' & _). congruence.
Qed.

(** The page of a claim, once the steps before the logo are through. *)
Lemma claim_page_eq clinic doctor diagnosis design billing_items w page :
  exists patient_name patient_id,
    claim_page clinic doctor diagnosis design billing_items (w, page) =
    (primary_color <- mlift (py_getitem design "primary_color") ;;
     secondary_color <- mlift (py_getitem design "secondary_color") ;;
     font_name <- mlift (py_getitem design "font") ;;
     add_clinic_logo clinic ;;
     claim_layout clinic doctor diagnosis billing_items patient_name
       patient_id primary_color secondary_color font_name)
      (after_patient w, page).
Proof.
  destruct (fake_name_eq w) as (r & Hname & _).
  destruct (fake_random_int_eq 100000 999999 (snd (fake_name w)))
    as (n & Hid & _).
  exists (faker_name r), n. unfold claim_page, after_patient.
  unfold mbind at 1, on_world at 1. simpl fst. rewrite Hname.
  unfold mbind at 1, on_world at 1. simpl fst; simpl snd. rewrite Hid.
  reflexivity.
Qed.

End PageFacts.

(** ** The billing lines of a diagnosis *)

Section Billing.
Context `{Runtime}.

Lemma billing_row_total (item : value) :
  has_billing_fields item = true -> exists row, billing_row item = Ret row.
Proof.
  destruct item as [| | | | |?|m]; simpl; try discriminate.
  rewrite !andb_true_iff, !bool_decide_eq_true.
  intros [[[[[i Hi] [d Hd]] [q Hq]] [u Hu]] [t Ht]].
  unfold billing_row, py_getitem. rewrite Hi, Hd, Hq, Hu, Ht. simpl.
  eexists. reflexivity.
Qed.

Lemma billing_rows_total (items : list value) :
  forallb has_billing_fields items = true ->
  exists rows, omapM billing_row items = Ret rows
               /\ length rows = length items.
Proof.
  intros Hall.
  destruct (omapM_total billing_row items) as [rows Hrows].
  - apply Forall_forall. intros item Hin. apply billing_row_total.
    rewrite forallb_forall in Hall. apply Hall.
    apply list_elem_of_In, Hin.
  - exists rows. split; [exact Hrows|]. eapply omapM_length, Hrows.
Qed.

(** Whatever the table holds, the function never hands back an empty
    list. *)
Lemma billing_items_not_nil (diagnosis table : value) :
  get_billing_items_for_diagnosis diagnosis table <> Ret [].
Proof.
  unfold get_billing_items_for_diagnosis.
  destruct (py_get table diagnosis (VDict ∅)) as [entry|]; simpl;
    [|discriminate].
  destruct (py_get entry (VStr "billing_items") (VList [])) as [items|];
    simpl; [|discriminate].
  destruct (py_truthy items) eqn:Ht; simpl; [|discriminate].
  destruct (py_iter items) as [l|] eqn:Hl; simpl; [|discriminate].
  intros Hnil. apply omapM_length in Hnil. simpl in Hnil.
  destruct l; [|discriminate].
  destruct items as [| | | |s|l'|m]; simpl in Hl, Ht; try discriminate.
  - destruct s; simpl in Hl, Ht; discriminate.
  - destruct l'; simpl in Hl, Ht; discriminate.
  - destruct (map_to_list m); simpl in Hl, Ht; discriminate.
Qed.

(** C1.  For a diagnosis name that is not a key of the billing table,
    [get_billing_items_for_diagnosis] returns exactly the two fallback
    lines: the Consultation row, then the Lab Test row. *)
Theorem billing_fallback_when_absent
    (diagnosis : string) (table : gmap string value) :
  table !! diagnosis = None ->
  get_billing_items_for_diagnosis (VStr diagnosis) (VDict table)
  = Ret [ [VStr "Consultation"; VStr "General Consultation"; VStr "1";
           VStr "1000"; VStr "1000"];
          [VStr "Lab Test"; VStr "General Lab Test"; VStr "1";
           VStr "500"; VStr "500"] ].
Proof.
  intros Habsent. unfold get_billing_items_for_diagnosis. simpl.
  rewrite Habsent. simpl. rewrite lookup_empty. reflexivity.
Qed.

Lemma billing_row_raises (item : value) :
  has_billing_fields item = false -> exists e, billing_row item = Raise e.
Proof.
  destruct item as [| | | | | |m]; simpl;
    try (intros _; eexists; reflexivity).
  unfold billing_row, py_getitem.
  destruct (m !! "Item"); simpl; [|eauto].
  destruct (m !! "Description"); simpl; [|eauto].
  destruct (m !! "Quantity"); simpl; [|eauto].
  destruct (m !! "Unit Price"); simpl; [|eauto].
  destruct (m !! "Total"); simpl; [|eauto].
  intros Hfields. exfalso. revert Hfields.
  repeat (unfold bool_decide at 1; simpl). discriminate.
Qed.

Lemma billing_rows_raise (items : list value) :
  forallb has_billing_fields items = false ->
  exists e, omapM billing_row items = Raise e.
Proof.
  induction items as [|item items IH]; simpl; [discriminate|].
  destruct (has_billing_fields item) eqn:Hitem; simpl.
  - intros Hrest. destruct (IH Hrest) as [e He].
    destruct (billing_row_total item Hitem) as [row ->]. simpl.
    rewrite He. simpl. eauto.
  - intros _. destruct (billing_row_raises item Hitem) as [e ->].
    simpl. eauto.
Qed.

(** C10, as the code has it.  On no table does
    [get_billing_items_for_diagnosis] return an empty list.  On a billing
    table whose entry for the diagnosis is as the input files have it (the
    items carry the five fields), it returns a list with at least one
    line: the two-line fallback when the diagnosis is not a key of the
    table and also when its "billing_items" list is empty.  When an item
    of the list is not an object with the five fields, the call raises and
    returns nothing. *)
Theorem billing_items_never_empty
    (diagnosis : string) (table : gmap string value) :
  get_billing_items_for_diagnosis (VStr diagnosis) (VDict table) <> Ret []
  /\ ((forall entry, table !! diagnosis = Some entry ->
                     well_formed_entry entry = true) ->
      exists rows,
        get_billing_items_for_diagnosis (VStr diagnosis) (VDict table)
        = Ret rows
        /\ (0 < length rows)%nat
        /\ (table !! diagnosis = None -> rows = fallback_billing_items)
        /\ (forall e, table !! diagnosis = Some (VDict e) ->
                      e !! "billing_items" = Some (VList []) ->
                      rows = fallback_billing_items))
  /\ (forall e items,
        table !! diagnosis = Some (VDict e) ->
        e !! "billing_items" = Some (VList items) ->
        forallb has_billing_fields items = false ->
        exists err,
          get_billing_items_for_diagnosis (VStr diagnosis) (VDict table)
          = Raise err).
Proof.
  split; [apply billing_items_not_nil|]. split.
  - intros Hwf. unfold get_billing_items_for_diagnosis. simpl.
    destruct (table !! diagnosis) as [entry|] eqn:Hentry; simpl.
    + specialize (Hwf entry eq_refl).
      destruct entry as [| | | | | |e]; simpl in Hwf; try discriminate.
      simpl. destruct (e !! "billing_items") as [items|] eqn:Hitems; simpl.
      * destruct items as [| | | | |items|]; try discriminate.
        destruct items as [|item items]; simpl.
        -- exists fallback_billing_items. repeat split; auto with lia.
           simpl; lia.
        -- destruct (billing_rows_total (item :: items) Hwf)
             as (rows & Hrows & Hlen).
           simpl in Hrows. rewrite Hrows. exists rows.
           split; [reflexivity|]. split; [rewrite Hlen; simpl; lia|].
           split; [discriminate|].
           intros e' [= <-] Hnil. rewrite Hitems in Hnil. discriminate.
      * exists fallback_billing_items. repeat split; auto. simpl; lia.
    + rewrite lookup_empty. simpl.
      exists fallback_billing_items. repeat split; auto. simpl; lia.
  - intros e items Hentry Hitems Hbad.
    unfold get_billing_items_for_diagnosis. simpl.
    rewrite Hentry. simpl. rewrite Hitems. simpl.
    destruct items as [|item items]; [discriminate|].
    destruct (billing_rows_raise (item :: items) Hbad) as [err Herr].
    exists err. exact Herr.
Qed.

End Billing.

(** The claim of C10 fails on a table with an item that lacks a field: the
    list comprehension raises [KeyError] and nothing is returned. *)
Lemma incomplete_item_raises :
  ~ @returns_billing_lines _ Sample.runtime "Flu"
      Sample.incomplete_billing_map.
Proof.
  intros (rows & Hrun & _).
  change (Raise (KeyError "Description") = Ret rows) in Hrun.
  discriminate Hrun.
Qed.

(** ** What a call of [generate_claim_pdf] leaves behind *)

Section ClaimPdf.
Context `{Runtime}.

#[local] Instance logo_only_refl clinic : Reflexive (logo_only clinic).
Proof. intros w. left. reflexivity. Qed.

#[local] Instance logo_only_trans clinic : Transitive (logo_only clinic).
Proof.
  intros w1 w2 w3 [H12|(n & Hn & H12)] [H23|(n' & Hn' & H23)].
  - left. congruence.
  - right. exists n'. split; [exact Hn'|]. congruence.
  - right. exists n. split; [exact Hn|]. congruence.
  - right. exists n. split; [exact Hn|].
    assert (n' = n) as -> by congruence.
    rewrite H23, H12. apply insert_insert_eq.
Qed.

#[local] Instance on_fst_refl {C} R `{!Reflexive R} : Reflexive (@on_fst C R).
Proof. intros s. unfold on_fst. reflexivity. Qed.

#[local] Instance on_fst_trans {C} R `{!Transitive R}
  : Transitive (@on_fst C R).
Proof. intros s1 s2 s3. unfold on_fst. apply transitivity. Qed.

Lemma preserves_weaken {St A} (R R' : St -> St -> Prop) (m : M St A) :
  (forall s s', R s s' -> R' s s') -> preserves R m -> preserves R' m.
Proof. intros Hsub Hm s. apply Hsub, Hm. Qed.

Lemma add_clinic_logo_frame (clinic : gmap string string) :
  preserves (on_fst (logo_only clinic)) (add_clinic_logo clinic).
Proof.
  intros [w page]. unfold on_fst. simpl fst.
  destruct (clinic !! "name") as [name|] eqn:Hname.
  - rewrite (add_clinic_logo_eq clinic name w page Hname). cbv zeta.
    pose proof (verify_logo_fs (logo_path name) (after_logo_check name w))
      as Hfs.
    destruct (verify_logo (logo_path name) (after_logo_check name w))
      as [[[|]|e] w3]; simpl in Hfs;
      [rewrite draw_eq; destruct (rl_accepts _)| |]; simpl;
      (destruct (after_logo_check_fs name w) as [Heq|Heq];
       [left|right; exists name; split; [exact Hname|]]; congruence).
  - unfold add_clinic_logo, mbind, mlift, row_getitem. rewrite Hname.
    simpl. reflexivity.
Qed.

(** Until [c.save()], the only file a call may write is the logo. *)
Lemma claim_page_frame clinic doctor diagnosis design billing_items w page :
  logo_only clinic w
    (fst (snd (claim_page clinic doctor diagnosis design billing_items
                 (w, page)))).
Proof.
  destruct (claim_page_eq clinic doctor diagnosis design billing_items
              w page) as (pn & pid & ->).
  assert (Hstart : logo_only clinic w (after_patient w)).
  { left. apply after_patient_fs. }
  etransitivity; [exact Hstart|].
  match goal with
  | |- logo_only _ _ (fst (snd (?m ?s))) =>
      change (on_fst (logo_only clinic) s (snd (m s)));
      generalize s; change (preserves (on_fst (logo_only clinic)) m)
  end.
  repeat (apply preserves_mbind;
          [typeclasses eauto|apply preserves_mlift; typeclasses eauto
          |intros ?]).
  apply preserves_mbind; [typeclasses eauto|apply add_clinic_logo_frame|].
  intros _. eapply preserves_weaken; [|apply claim_layout_world].
  intros s s' Heq. unfold on_fst in *. rewrite Heq. reflexivity.
Qed.


Lemma generate_claim_pdf_try_eq clinic doctor diagnosis output_pdf design
    billing_items (s : world * list canvas_op) :
  generate_claim_pdf_try clinic doctor diagnosis output_pdf design
    billing_items s =
  match claim_page clinic doctor diagnosis design billing_items s with
  | (Ret _, (w2, page)) =>
      if writable output_pdf
      then (Ret tt,
            (add_log (ClaimGenerated output_pdf)
               (set_fs (<[output_pdf := pdf_encode page]> (fs w2)) w2),
             page))
      else (Raise (OSError output_pdf), (w2, page))
  | (Raise e, s2) => (Raise e, s2)
  end.
Proof.
  unfold generate_claim_pdf_try. unfold mbind at 1.
  destruct (claim_page clinic doctor diagnosis design billing_items s)
    as [[[]|e] [w2 page]]; [|reflexivity].
  unfold canvas_save, mbind, mget, on_world, write_file, logging, mmodify,
    mraise. simpl.
  destruct (writable output_pdf); reflexivity.
Qed.

(** C3.  For every input, [generate_claim_pdf] returns [None] and raises
    nothing.  When its [try] block fails, the exception is logged as the
    last record, and no document was written: the files are as before the
    call, except for the logo of the clinic, which the call may have
    generated. *)
Theorem generate_claim_pdf_never_raises
    (clinic : gmap string string) (doctor : string * string)
    (diagnosis : value) (fraud_type output_pdf : string) (design : value)
    (billing_items : list (list value)) (w : world) :
  exists w',
    generate_claim_pdf clinic doctor diagnosis fraud_type output_pdf design
      billing_items w = (Ret tt, w')
    /\ forall e s,
         generate_claim_pdf_try clinic doctor diagnosis output_pdf design
           billing_items (w, []) = (Raise e, s) ->
         w' = add_log (ClaimError fraud_type e) (fst s)
         /\ last (log w') = Some (ClaimError fraud_type e)
         /\ (fs w' = fs w
             \/ exists name,
                  clinic !! "name" = Some name
                  /\ fs w' = <[logo_path name :=
                                 png_encode (substring 0 20 name)]> (fs w)).
Proof.
  unfold generate_claim_pdf.
  pose proof (claim_page_frame clinic doctor diagnosis design billing_items
                w []) as Hframe.
  rewrite generate_claim_pdf_try_eq.
  destruct (claim_page clinic doctor diagnosis design billing_items (w, []))
    as [[[]|e] [w2 page]]; simpl in Hframe.
  - destruct (writable output_pdf).
    + eexists. split; [reflexivity|]. intros e s [=].
    + eexists. split; [reflexivity|]. intros e s [= <- <-]. simpl.
      split; [reflexivity|]. split; [apply last_snoc|exact Hframe].
  - eexists. split; [reflexivity|]. intros e' s [= <- <-]. simpl.
    split; [reflexivity|]. split; [apply last_snoc|exact Hframe].
Qed.


Lemma add_clinic_logo_ret (clinic : gmap string string) w page w3 page' :
  add_clinic_logo clinic (w, page) = (Ret tt, (w3, page')) ->
  exists name,
    clinic !! "name" = Some name
    /\ w3 = snd (verify_logo (logo_path name) (after_logo_check name w))
    /\ (page' = page
        \/ page' = (page ++ [DrawImage (logo_path name) 50 700 100 50])%list).
Proof.
  destruct (clinic !! "name") as [name|] eqn:Hname.
  - rewrite (add_clinic_logo_eq clinic name w page Hname). cbv zeta.
    intros Hrun. exists name. split; [reflexivity|].
    destruct (verify_logo (logo_path name) (after_logo_check name w))
      as [[[|]|e] w3']; simpl.
    + rewrite draw_eq in Hrun. destruct (rl_accepts _); [|discriminate].
      injection Hrun as <- <-. auto.
    + injection Hrun as <- <-. auto.
    + discriminate.
  - unfold add_clinic_logo, mbind, mlift, row_getitem. rewrite Hname.
    discriminate.
Qed.

(** A page drawn to the end: the logo when it verifies, then the calls of
    [layout_ops]. *)
Lemma claim_page_ret clinic doctor diagnosis design billing_items w w' ops :
  claim_page clinic doctor diagnosis design billing_items (w, [])
  = (Ret tt, (w', ops)) ->
  exists name address telephone email patient_name patient_id
         primary_color secondary_color font_name total logo,
    clinic !! "name" = Some name
    /\ total_amount billing_items = Ret total
    /\ (logo = [] \/ logo = [DrawImage (logo_path name) 50 700 100 50])
    /\ ops = (logo ++ layout_ops name address telephone email doctor
                        diagnosis billing_items patient_name patient_id
                        (today w') primary_color secondary_color font_name
                        total)%list.
Proof.
  destruct (claim_page_eq clinic doctor diagnosis design billing_items
              w []) as (pn & pid & ->).
  intros Hrun.
  rewrite mbind_mlift in Hrun.
  destruct (py_getitem design "primary_color") as [pc|]; [|discriminate].
  rewrite mbind_mlift in Hrun.
  destruct (py_getitem design "secondary_color") as [sc|]; [|discriminate].
  rewrite mbind_mlift in Hrun.
  destruct (py_getitem design "font") as [fnt|]; [|discriminate].
  apply mbind_ret_inv in Hrun. destruct Hrun as ([] & [w3 page] & Hlogo & Hrun).
  apply add_clinic_logo_ret in Hlogo.
  destruct Hlogo as (name & Hname & _ & Hpage).
  apply claim_layout_ret in Hrun.
  destruct Hrun as (name' & address & telephone & email & total & Hname'
                    & _ & _ & _ & Htotal & Hs).
  assert (name' = name) as -> by congruence.
  injection Hs as <- ->.
  exists name, address, telephone, email, pn, pid, pc, sc, fnt, total, page.
  repeat split; auto.
Qed.

Lemma total_amount_only_reads_totals (b1 b2 : list (list value)) :
  (fun item : list value => item !! 4%nat) <$> b1
  = (fun item : list value => item !! 4%nat) <$> b2 ->
  total_amount b1 = total_amount b2.
Proof.
  unfold total_amount. intros Heq. f_equal.
  revert b2 Heq. induction b1 as [|r1 b1 IH]; intros [|r2 b2] Heq;
    try discriminate; [reflexivity|].
  injection Heq as Hr Hb. simpl. unfold list_getitem at 1 3.
  rewrite Hr. rewrite (IH b2 Hb). reflexivity.
Qed.

(** C2.  When a claim is rendered, the document written to the destination
    shows, at the place of the total, the sum of the fifth field of every
    billing line, each converted with [float] and the sum formatted with
    two decimals; there is no other text at that place, and the amount
    depends on no other field of the lines. *)
Theorem displayed_total_is_sum_of_totals
    (clinic : gmap string string) (doctor : string * string)
    (diagnosis : value) (fraud_type output_pdf : string) (design : value)
    (billing_items : list (list value)) (w w' : world)
    (ops : list canvas_op) :
  generate_claim_pdf_try clinic doctor diagnosis output_pdf design
    billing_items (w, []) = (Ret tt, (w', ops)) ->
  generate_claim_pdf clinic doctor diagnosis fraud_type output_pdf design
    billing_items w = (Ret tt, w')
  /\ fs w' !! output_pdf = Some (pdf_encode ops)
  /\ exists totals,
       omapM (fun item => obind (list_getitem item 4) py_float) billing_items
       = Ret totals
       /\ In (DrawString 400 370
                ("Total Amount: Rs " +:+ format_2f (py_sum totals))) ops
       /\ (forall text, In (DrawString 400 370 text) ops ->
             text = "Total Amount: Rs " +:+ format_2f (py_sum totals))
       /\ (forall other,
             (fun item : list value => item !! 4%nat) <$> other
             = (fun item : list value => item !! 4%nat) <$> billing_items ->
             total_amount other = Ret (py_sum totals)).
Proof.
  intros Hrun. unfold generate_claim_pdf. rewrite Hrun.
  split; [reflexivity|].
  rewrite generate_claim_pdf_try_eq in Hrun.
  destruct (claim_page clinic doctor diagnosis design billing_items (w, []))
    as [[[]|e] [w2 page]] eqn:Hpage; [|discriminate].
  destruct (writable output_pdf); [|discriminate].
  injection Hrun as <- <-. simpl.
  split; [apply lookup_insert_eq|].
  apply claim_page_ret in Hpage.
  destruct Hpage as (name & address & telephone & email & pn & pid & pc & sc
                     & fnt & total & logo & _ & Htotal & Hlogo & ->).
  pose proof Htotal as Hsum. unfold total_amount in Hsum.
  destruct (omapM _ billing_items) as [totals|]; [|discriminate].
  simpl in Hsum. injection Hsum as <-.
  exists totals. split; [reflexivity|]. split; [|split].
  - apply in_or_app. right. unfold layout_ops. simpl. tauto.
  - intros text Hin. apply in_app_or in Hin. destruct Hin as [Hin|Hin].
    + destruct Hlogo as [->| ->]; simpl in Hin; [tauto|].
      destruct Hin as [Hin|[]]. discriminate.
    + unfold layout_ops in Hin. simpl in Hin.
      repeat (destruct Hin as [Hin|Hin]; [try discriminate Hin|]);
        [|destruct Hin].
      injection Hin as <-. reflexivity.
  - intros other Hsame.
    rewrite (total_amount_only_reads_totals other billing_items Hsame).
    exact Htotal.
Qed.


Lemma well_formed_design_fields (design : value) :
  well_formed_design design = true ->
  exists primary_color secondary_color font_name,
    py_getitem design "primary_color" = Ret primary_color
    /\ py_getitem design "secondary_color" = Ret secondary_color
    /\ py_getitem design "font" = Ret font_name.
Proof.
  destruct design as [| | | | | |d]; simpl; try discriminate.
  rewrite !andb_true_iff, !bool_decide_eq_true.
  intros [[[pc Hpc] [sc Hsc]] [fnt Hfnt]].
  exists pc, sc, fnt. rewrite Hpc, Hsc, Hfnt. auto.
Qed.

(** The logo step of a call and what follows it, in one statement. *)
Lemma claim_pdf_logo_step
    (clinic : gmap string string) (name : string)
    (doctor : string * string) (diagnosis : value)
    (fraud_type output_pdf : string) (design : value)
    (billing_items : list (list value)) (w : world) :
  clinic !! "name" = Some name ->
  well_formed_design design = true ->
  let logo_file := logo_path name in
  let w1 := after_patient w in
  exists w2 w',
    generate_claim_pdf clinic doctor diagnosis fraud_type output_pdf design
      billing_items w = (Ret tt, w')
    /\ match fs w !! logo_file with
       | Some bytes =>
           if image_ok bytes then w2 = w1
           else w2 = snd (generate_logo name logo_file
                            (add_log (LogoVerifyError logo_file LibraryError)
                               w1))
       | None => w2 = snd (generate_logo name logo_file w1)
       end
    /\ let w3 := snd (verify_logo logo_file w2) in
       ((exists e, w' = add_log (ClaimError fraud_type e) w3)
        \/ (exists ops,
              w' = add_log (ClaimGenerated output_pdf)
                     (set_fs (<[output_pdf := pdf_encode ops]> (fs w3)) w3)
              /\ (fst (verify_logo logo_file w2) = Ret true ->
                  head ops = Some (DrawImage logo_file 50 700 100 50)))).
Proof.
  intros Hname Hdesign logo_file w1.
  exists (after_logo_check name w1).
  assert (Hcheck :
    match fs w !! logo_file with
    | Some bytes =>
        if image_ok bytes then after_logo_check name w1 = w1
        else after_logo_check name w1
             = snd (generate_logo name logo_file
                      (add_log (LogoVerifyError logo_file LibraryError) w1))
    | None => after_logo_check name w1
              = snd (generate_logo name logo_file w1)
    end).
  { unfold after_logo_check. fold logo_file. subst w1.
    rewrite after_patient_fs.
    destruct (fs w !! logo_file) as [bytes|];
      [destruct (image_ok bytes)|]; reflexivity. }
  unfold generate_claim_pdf. rewrite generate_claim_pdf_try_eq.
  destruct (claim_page_eq clinic doctor diagnosis design billing_items
              w []) as (pn & pid & ->).
  destruct (well_formed_design_fields design Hdesign)
    as (pc & sc & fnt & Hpc & Hsc & Hfnt).
  rewrite mbind_mlift, Hpc, mbind_mlift, Hsc, mbind_mlift, Hfnt.
  unfold mbind at 1. fold w1.
  rewrite (add_clinic_logo_eq clinic name w1 [] Hname). cbv zeta.
  fold logo_file.
  pose proof (claim_layout_world clinic doctor diagnosis billing_items pn
                pid pc sc fnt) as Hworld.
  assert (Hret : forall w0 page s',
    claim_layout clinic doctor diagnosis billing_items pn pid pc sc fnt
      (w0, page) = (Ret tt, s') ->
    exists ops, s' = (w0, (page ++ ops)%list)).
  { intros w0 page s' Hrun. apply claim_layout_ret in Hrun.
    destruct Hrun as (? & ? & ? & ? & ? & _ & _ & _ & _ & _ & ->). eauto. }
  set (layout := claim_layout clinic doctor diagnosis billing_items pn pid
                   pc sc fnt) in *.
  clearbody layout.
  assert (Hfinish : forall page,
    (page = [] \/ page = [DrawImage logo_file 50 700 100 50]) ->
    forall w3,
    exists w',
      (let (o, s) :=
         let (o, s2) := layout (w3, page) in
         match o with
         | Ret _ =>
             let (w4, page') := s2 in
             if writable output_pdf
             then (Ret (),
                   (add_log (ClaimGenerated output_pdf)
                      (set_fs (<[output_pdf := pdf_encode page']> (fs w4))
                         w4), page'))
             else (Raise (OSError output_pdf), (w4, page'))
         | Raise e => (Raise e, s2)
         end in
       match o with
       | Ret _ => let (w', _) := s in (Ret (), w')
       | Raise e =>
           let (w', _) := s in
           (Ret (), add_log (ClaimError fraud_type e) w')
       end) = (Ret (), w')
      /\ ((exists e, w' = add_log (ClaimError fraud_type e) w3)
          \/ (exists ops,
                w' = add_log (ClaimGenerated output_pdf)
                       (set_fs (<[output_pdf := pdf_encode ops]> (fs w3)) w3)
                /\ exists rest, ops = (page ++ rest)%list))).
  { intros page _ w3. specialize (Hworld (w3, page)).
    specialize (Hret w3 page). unfold on_fst in Hworld.
    destruct (layout (w3, page)) as [[[]|e] [w4 page']];
      simpl in Hworld; subst w4.
    - destruct (Hret _ eq_refl) as (ops & [= ->]).
      destruct (writable output_pdf); eexists; (split; [reflexivity|]);
        [right|left]; eauto.
    - eexists. split; [reflexivity|]. left. eauto. }
  destruct (verify_logo logo_file (after_logo_check name w1))
    as [[ok|e] w3]; simpl snd; simpl fst.
  - destruct ok.
    + rewrite draw_eq. destruct (rl_accepts _).
      * destruct (Hfinish [DrawImage logo_file 50 700 100 50]
                    ltac:(auto) w3) as (w' & Hw' & Hcases).
        exists w'. split; [exact Hw'|]. split; [exact Hcheck|].
        destruct Hcases as [Herr|(ops & -> & rest & ->)]; [left; exact Herr|].
        right. eexists. split; [reflexivity|]. intros _. reflexivity.
      * eexists. split; [reflexivity|]. split; [exact Hcheck|].
        left. eauto.
    + destruct (Hfinish [] ltac:(auto) w3) as (w' & Hw' & Hcases).
      exists w'. split; [exact Hw'|]. split; [exact Hcheck|].
      destruct Hcases as [Herr|(ops & -> & _)]; [left; exact Herr|].
      right. eexists. split; [reflexivity|]. discriminate.
  - eexists. split; [reflexivity|]. split; [exact Hcheck|]. left. eauto.
Qed.

(** C7.  For a clinic with a name and a design record with its three
    fields: when the logo file exists and passes the verification, the
    call goes on with the world as it is, nothing is generated; when the
    file is missing, or is there and fails the verification (which logs
    the failure), [generate_logo] is run for the clinic and its logo path.
    The document is rendered after that: the call ends with the world of
    the logo step, verified once more, plus either the error record or
    the saved document, whose page starts with the logo when that last
    verification succeeds. *)
Theorem logo_reused_or_regenerated
    (clinic : gmap string string) (name : string)
    (doctor : string * string) (diagnosis : value)
    (fraud_type output_pdf : string) (design : value)
    (billing_items : list (list value)) (w : world) :
  clinic !! "name" = Some name ->
  well_formed_design design = true ->
  let logo_file := logo_path name in
  let w1 := after_patient w in
  exists w2 w',
    generate_claim_pdf clinic doctor diagnosis fraud_type output_pdf design
      billing_items w = (Ret tt, w')
    /\ match fs w !! logo_file with
       | Some bytes =>
           if image_ok bytes then w2 = w1
           else w2 = snd (generate_logo name logo_file
                            (add_log (LogoVerifyError logo_file LibraryError)
                               w1))
       | None => w2 = snd (generate_logo name logo_file w1)
       end
    /\ let w3 := snd (verify_logo logo_file w2) in
       ((exists e, w' = add_log (ClaimError fraud_type e) w3)
        \/ (exists ops,
              w' = add_log (ClaimGenerated output_pdf)
                     (set_fs (<[output_pdf := pdf_encode ops]> (fs w3)) w3)
              /\ (fst (verify_logo logo_file w2) = Ret true ->
                  head ops = Some (DrawImage logo_file 50 700 100 50)))).
Proof.
  intros Hname Hdesign.
  exact (claim_pdf_logo_step clinic name doctor diagnosis fraud_type
           output_pdf design billing_items w Hname Hdesign).
Qed.

End ClaimPdf.

(** ** The batch *)

Section Strings.

Lemma string_app_length (s t : string) :
  String.length (s +:+ t) = (String.length s + String.length t)%nat.
Proof. induction s as [|c s IH]; simpl; [reflexivity|]. now rewrite IH. Qed.

Lemma string_app_inj_r (s1 s2 t : string) :
  s1 +:+ t = s2 +:+ t -> s1 = s2.
Proof.
  revert s2. induction s1 as [|c s1 IH]; intros [|c' s2] Heq; simpl in Heq.
  - reflexivity.
  - apply (f_equal String.length) in Heq. simpl in Heq.
    rewrite !string_app_length in Heq. simpl in Heq. lia.
  - apply (f_equal String.length) in Heq. simpl in Heq.
    rewrite !string_app_length in Heq. simpl in Heq. lia.
  - injection Heq as -> Heq. f_equal. apply IH, Heq.
Qed.

End Strings.

Section Batch.
Context `{Runtime}.

Lemma claim_path_inj (stem : string) (i j : nat) :
  stem <> "" -> claim_path stem i = claim_path stem j -> i = j.
Proof.
  intros Hstem. destruct stem as [|c stem]; [congruence|].
  unfold claim_path, os_path_join, output_dir. simpl.
  destruct (Ascii.eqb c "/"); intros Heq.
  - injection Heq as Heq. apply String.app_inj in Heq.
    apply string_app_inj_r in Heq. apply (inj pretty) in Heq. exact Heq.
  - injection Heq as Heq. apply String.app_inj in Heq.
    apply string_app_inj_r in Heq. apply (inj pretty) in Heq. exact Heq.
Qed.


#[local] Instance keeps_queue_refl {C} : Reflexive (@keeps_queue C).
Proof. intros s. reflexivity. Qed.

#[local] Instance keeps_queue_trans {C} : Transitive (@keeps_queue C).
Proof. intros s1 s2 s3. unfold keeps_queue. congruence. Qed.

Lemma keeps_queue_on_world {C A} (m : M world A) :
  preserves (@keeps_queue C) (on_world m).
Proof.
  intros [w q]. unfold keeps_queue, on_world. simpl.
  destruct (m w). reflexivity.
Qed.

Lemma appends_mbind {A B} (P : task -> Prop) (m : M _ A) (f : A -> M _ B) :
  preserves keeps_queue m ->
  (forall a, appends_at_most P (f a)) ->
  appends_at_most P (mbind m f).
Proof.
  intros Hm Hf s. unfold mbind. specialize (Hm s). unfold keeps_queue in Hm.
  destruct (m s) as [[a|e] s1]; simpl in *.
  - rewrite <- Hm. apply Hf.
  - left. exact Hm.
Qed.

Lemma appends_mret {A} (P : task -> Prop) (a : A) :
  appends_at_most P (mret a).
Proof. intros s. left. reflexivity. Qed.

Lemma appends_submit (P : task -> Prop) (t : task) :
  P t -> appends_at_most P (submit t).
Proof. intros Ht s. right. exists t. split; [reflexivity|exact Ht]. Qed.

(** A slot queues at most one task, and that task writes to the path of
    the slot. *)
Lemma claim_slot_appends kind stem clinics_info doctors_info
    specialties_diseases designs billing_items_data i :
  appends_at_most
    (fun t => t_output t = claim_path stem i /\ t_kind t = kind)
    (claim_slot kind stem clinics_info doctors_info specialties_diseases
       designs billing_items_data i).
Proof.
  unfold claim_slot.
  apply appends_mbind; [apply keeps_queue_on_world|intros clinic].
  apply appends_mbind; [apply keeps_queue_on_world|intros doctor].
  apply appends_mbind; [apply preserves_mlift; typeclasses eauto|].
  intros [|]; [|apply appends_mret].
  apply appends_mbind; [apply preserves_mlift; typeclasses eauto|intros ?].
  apply appends_mbind; [apply keeps_queue_on_world|intros ?].
  apply appends_mbind; [apply preserves_mlift; typeclasses eauto|intros ?].
  apply appends_mbind; [apply preserves_mlift; typeclasses eauto|intros ?].
  apply appends_mbind; [apply preserves_mlift; typeclasses eauto|intros ?].
  apply appends_submit. split; reflexivity.
Qed.

(** A slot whose doctor has a specialty that is not in the table ends
    after the two draws, with the queue as it was. *)
Lemma claim_slot_skips kind stem clinics_info doctors_info
    (table : gmap string value) designs billing_items_data i
    (s : world * list task) clinic doctor w1 w2 :
  random_choice clinics_info (fst s) = (Ret clinic, w1) ->
  random_choice doctors_info w1 = (Ret doctor, w2) ->
  table !! snd doctor = None ->
  claim_slot kind stem clinics_info doctors_info (VDict table) designs
    billing_items_data i s = (Ret tt, (w2, snd s)).
Proof.
  intros Hclinic Hdoctor Habsent. unfold claim_slot.
  unfold mbind at 1, on_world at 1. rewrite Hclinic.
  unfold mbind at 1, on_world at 1. simpl fst; simpl snd. rewrite Hdoctor.
  rewrite mbind_mlift. simpl py_contains. rewrite Habsent.
  rewrite bool_decide_eq_false_2 by (intros [? ?]; discriminate).
  reflexivity.
Qed.

(** The tasks a loop queues: at most one per slot, each on the path of a
    slot of the loop. *)
Lemma for_range_from_appends (P : nat -> task -> Prop)
    (body : nat -> M (world * list task) unit) :
  (forall i, appends_at_most (P i) (body i)) ->
  forall n start s,
  exists new,
    snd (snd (for_range_from start n body s)) = (snd s ++ new)%list
    /\ (length new <= n)%nat
    /\ Forall (fun t => exists i, (start <= i < start + n)%nat /\ P i t) new.
Proof.
  intros Hbody. induction n as [|n IH]; intros start s; simpl.
  - exists []. rewrite app_nil_r. repeat split; auto.
  - unfold mbind. specialize (Hbody start s).
    destruct (body start s) as [[[]|e] s1]; simpl in Hbody.
    + destruct (IH (S start) s1) as (new & Hnew & Hlen & Hall).
      destruct Hbody as [Hq|(t & Hq & Ht)].
      * exists new. rewrite Hnew, Hq. split; [reflexivity|].
        split; [lia|]. eapply Forall_impl; [exact Hall|]. simpl.
        intros t (j & Hj & HP). exists j. split; [lia|exact HP].
      * exists (t :: new). rewrite Hnew, Hq, <- app_assoc.
        split; [reflexivity|]. split; [simpl; lia|].
        constructor; [exists start; split; [lia|exact Ht]|].
        eapply Forall_impl; [exact Hall|]. simpl.
        intros t' (j & Hj & HP). exists j. split; [lia|exact HP].
    + simpl. destruct Hbody as [Hq|(t & Hq & Ht)].
      * exists []. rewrite app_nil_r. repeat split; auto. simpl. lia.
      * exists [t]. split; [exact Hq|]. split; [simpl; lia|].
        constructor; [|constructor]. exists start. split; [lia|exact Ht].
Qed.

Lemma for_range_from_split {St} (body : nat -> M St unit) (a b start : nat)
    (s : St) :
  for_range_from start (a + b) body s =
  mbind (for_range_from start a body)
        (fun _ => for_range_from (start + a) b body) s.
Proof.
  revert start s. induction a as [|a IH]; intros start s; simpl.
  - unfold mbind, mret. rewrite Nat.add_0_r. reflexivity.
  - unfold mbind. destruct (body start s) as [[[]|e] s1]; [|reflexivity].
    rewrite IH. unfold mbind.
    replace (S start + a)%nat with (start + S a)%nat by lia. reflexivity.
Qed.


Lemma logo_path_eq (name : string) :
  logo_path name = "logos/logo_" +:+ name +:+ ".png".
Proof. reflexivity. Qed.

Lemma claim_path_not_logo (stem : string) (i : nat) (name : string) :
  stem <> "" -> claim_path stem i <> logo_path name.
Proof.
  intros Hstem. destruct stem as [|c stem]; [congruence|].
  rewrite logo_path_eq. unfold claim_path, os_path_join, output_dir.
  simpl. destruct (Ascii.eqb c "/") eqn:Hc.
  - apply Ascii.eqb_eq in Hc. subst c. discriminate.
  - discriminate.
Qed.

(** A call writes at most two files: the destination and the logo. *)
Lemma generate_claim_pdf_frame clinic doctor diagnosis fraud_type output_pdf
    design billing_items (w : world) (p : string) :
  p <> output_pdf ->
  (forall name, clinic !! "name" = Some name -> p <> logo_path name) ->
  fs (snd (generate_claim_pdf clinic doctor diagnosis fraud_type output_pdf
             design billing_items w)) !! p = fs w !! p.
Proof.
  intros Hdest Hlogo. unfold generate_claim_pdf.
  pose proof (claim_page_frame clinic doctor diagnosis design billing_items
                w []) as Hframe.
  rewrite generate_claim_pdf_try_eq.
  assert (Hp : forall w2, logo_only clinic w w2 -> fs w2 !! p = fs w !! p).
  { intros w2 [->|(name & Hname & ->)]; [reflexivity|].
    apply lookup_insert_ne. intros Heq.
    exact (Hlogo name Hname (eq_sym Heq)). }
  destruct (claim_page clinic doctor diagnosis design billing_items (w, []))
    as [[[]|e] [w2 page]]; simpl in Hframe.
  - destruct (writable output_pdf); simpl.
    + rewrite lookup_insert_ne by congruence. apply Hp, Hframe.
    + apply Hp, Hframe.
  - simpl. apply Hp, Hframe.
Qed.

Lemma generate_claim_pdf_returns clinic doctor diagnosis fraud_type
    output_pdf design billing_items (w : world) :
  exists w',
    generate_claim_pdf clinic doctor diagnosis fraud_type output_pdf design
      billing_items w = (Ret tt, w').
Proof.
  unfold generate_claim_pdf.
  destruct (generate_claim_pdf_try clinic doctor diagnosis output_pdf design
              billing_items (w, [])) as [[[]|e] [w' page]]; eauto.
Qed.

Lemma run_tasks_frame (ts : list task) (w : world) (p : string) :
  Forall (fun t => t_output t <> p) ts ->
  (forall name, p <> logo_path name) ->
  fs (snd (run_tasks ts w)) !! p = fs w !! p.
Proof.
  intros Hts Hlogo. revert w. induction Hts as [|t ts Ht _ IH]; intros w.
  - reflexivity.
  - simpl. unfold mbind.
    pose proof (generate_claim_pdf_frame (t_clinic t) (t_doctor t)
                  (t_diagnosis t) (t_kind t) (t_output t) (t_design t)
                  (t_billing t) w p ltac:(congruence)
                  (fun name _ => Hlogo name)) as Hstep.
    fold (run_task t) in Hstep.
    destruct (generate_claim_pdf_returns (t_clinic t) (t_doctor t)
                (t_diagnosis t) (t_kind t) (t_output t) (t_design t)
                (t_billing t) w) as (w' & Hrun).
    fold (run_task t) in Hrun. rewrite Hrun in Hstep |- *. simpl in Hstep.
    rewrite IH. exact Hstep.
Qed.

(** C4.  A loop queues at most as many tasks as it has slots.  When the
    loop reaches slot [i] and the doctor drawn there has a specialty that is
    not a key of the specialty table, the slot ends after its two draws
    with nothing queued; it is not tried again and not made up for: the
    loop queues fewer tasks than it has slots, none of them writes to the
    path of slot [i], and, in whatever order the queued tasks run, the
    file at that path is left as it was. *)
Theorem unknown_specialty_slot_is_skipped
    (kind stem : string) (count : nat)
    (clinics_info : list (gmap string string))
    (doctors_info : list (string * string))
    (table : gmap string value) (designs billing_items_data : value) :
  let slot :=
    claim_slot kind stem clinics_info doctors_info (VDict table) designs
      billing_items_data in
  let loop :=
    claim_loop kind stem count clinics_info doctors_info (VDict table)
      designs billing_items_data in
  (forall s, exists new,
     snd (snd (loop s)) = (snd s ++ new)%list /\ (length new <= count)%nat)
  /\ (forall (i : nat) (s s_i : world * list task)
             (clinic : gmap string string) (doctor : string * string)
             (w1 w2 : world),
        stem <> "" ->
        (i < count)%nat ->
        for_range i slot s = (Ret tt, s_i) ->
        random_choice clinics_info (fst s_i) = (Ret clinic, w1) ->
        random_choice doctors_info w1 = (Ret doctor, w2) ->
        table !! snd doctor = None ->
        slot i s_i = (Ret tt, (w2, snd s_i))
        /\ exists new,
             snd (snd (loop s)) = (snd s ++ new)%list
             /\ (length new < count)%nat
             /\ Forall (fun t => t_output t <> claim_path stem i) new
             /\ forall order w0,
                  (forall t, In t order -> In t new) ->
                  fs (snd (run_tasks order w0)) !! claim_path stem i
                  = fs w0 !! claim_path stem i).
Proof.
  intros slot loop.
  pose proof (claim_slot_appends kind stem clinics_info doctors_info
                (VDict table) designs billing_items_data) as Hslot.
  fold slot in Hslot.
  split.
  - intros s. subst loop. unfold claim_loop, for_range. fold slot.
    destruct (for_range_from_appends _ slot Hslot count 0%nat s)
      as (new & Hnew & Hlen & _).
    exists new. auto.
  - intros i s s_i clinic doctor w1 w2 Hstem Hi Hreach Hclinic Hdoctor
           Habsent.
    pose proof (claim_slot_skips kind stem clinics_info doctors_info table
                  designs billing_items_data i s_i clinic doctor w1 w2
                  Hclinic Hdoctor Habsent) as Hskip.
    fold slot in Hskip. split; [exact Hskip|].
    subst loop. unfold claim_loop, for_range. fold slot.
    replace count with (i + S (count - S i))%nat by lia.
    rewrite for_range_from_split. unfold mbind at 1.
    unfold for_range in Hreach.
    destruct (for_range_from_appends _ slot Hslot i 0%nat s)
      as (new1 & Hnew1 & Hlen1 & Hall1).
    rewrite Hreach in Hnew1 |- *. simpl in Hnew1.
    simpl for_range_from. unfold mbind at 1. simpl Nat.add. rewrite Hskip.
    destruct (for_range_from_appends _ slot Hslot (count - S i) (S i)
                (w2, snd s_i)) as (new2 & Hnew2 & Hlen2 & Hall2).
    cbn [snd] in Hnew2.
    assert (Hother : forall lo n l,
      Forall (fun t => exists j, (lo <= j < lo + n)%nat
                /\ t_output t = claim_path stem j /\ t_kind t = kind) l ->
      (i < lo \/ lo + n <= i)%nat ->
      Forall (fun t => t_output t <> claim_path stem i) l).
    { intros lo n l Hl Hrange. eapply Forall_impl; [exact Hl|]. simpl.
      intros t (j & Hj & Hout & _) Heq. rewrite Hout in Heq.
      apply (claim_path_inj stem j i Hstem) in Heq. lia. }
    exists (new1 ++ new2)%list. rewrite Hnew2, Hnew1, <- app_assoc.
    split; [reflexivity|].
    split; [rewrite length_app; lia|].
    assert (Hnone : Forall (fun t => t_output t <> claim_path stem i)
                      (new1 ++ new2)%list).
    { apply Forall_app. split.
      - apply (Hother 0%nat i new1 Hall1). lia.
      - apply (Hother (S i) (count - S i)%nat new2 Hall2). lia. }
    split; [exact Hnone|].
    intros order w0 Horder. apply run_tasks_frame.
    + apply Forall_forall. intros t Ht.
      rewrite Forall_forall in Hnone. apply Hnone.
      apply list_elem_of_In, Horder, list_elem_of_In, Ht.
    + intros name. apply claim_path_not_logo, Hstem.
Qed.

End Batch.

(** ** The design store *)

Section Designs.
Context `{Runtime}.

Lemma random_choice_in {A} (l : list A) (w : world) :
  l <> [] ->
  exists x w',
    random_choice l w = (Ret x, w')
    /\ In x l /\ fs w' = fs w /\ log w' = log w.
Proof.
  intros Hne. destruct l as [|x0 l]; [congruence|].
  unfold random_choice, mbind, draw_rnd, mret.
  assert (Hnth : forall r, In (nth (r mod length (x0 :: l))%nat (x0 :: l) x0)
                              (x0 :: l)).
  { intros r. apply nth_In.
    apply Nat.mod_upper_bound. simpl. lia. }
  destruct (rnd w) as [|r t]; eexists; eexists;
    (split; [reflexivity|]); (split; [apply Hnth|]); split; reflexivity.
Qed.

Lemma new_design_spec (c : gmap string string) (name : string)
    (designs : gmap string value) (w : world) :
  c !! "name" = Some name ->
  exists d w',
    new_design c designs w = (Ret (<[name := d]> designs), w')
    /\ palette_design d /\ fs w' = fs w /\ log w' = log w.
Proof.
  intros Hname. unfold new_design.
  rewrite mbind_mlift. unfold row_getitem. rewrite Hname.
  destruct (random_choice_in primary_palette w ltac:(discriminate))
    as (p & w1 & Hp & Hpin & Hfs1 & Hlog1).
  destruct (random_choice_in secondary_palette w1 ltac:(discriminate))
    as (s & w2 & Hs & Hsin & Hfs2 & Hlog2).
  destruct (random_choice_in font_palette w2 ltac:(discriminate))
    as (f & w3 & Hf & Hfin & Hfs3 & Hlog3).
  unfold mbind. rewrite Hp, Hs, Hf. unfold mret.
  exists (design_record p s f), w3. split; [reflexivity|].
  split; [exists p, s, f; auto|]. split; congruence.
Qed.



End Designs.

(** ** Loading the inputs *)

Section Load.
Context `{Runtime}.

Lemma read_file_eq (path : string) (w : world) :
  read_file path w =
  match fs w !! path with
  | Some text => (Ret text, w)
  | None => (Raise (FileNotFoundError path), w)
  end.
Proof.
  unfold read_file. rewrite mbind_mget.
  destruct (fs w !! path); reflexivity.
Qed.

Lemma read_json_eq (path : string) (w : world) :
  read_json path w =
  match fs w !! path with
  | Some text =>
      match json_decode text with
      | Some v => (Ret v, w)
      | None => (Raise JSONDecodeError, w)
      end
  | None => (Raise (FileNotFoundError path), w)
  end.
Proof.
  unfold read_json, mbind. rewrite read_file_eq.
  destruct (fs w !! path) as [text|]; [|reflexivity].
  destruct (json_decode text); reflexivity.
Qed.

(** The [try] block of [load_data], as a case analysis on the files. *)
Lemma load_data_try_eq (w : world) :
  load_data_try w =
  match fs w !! clinics_csv with
  | None => (Raise (FileNotFoundError clinics_csv), w)
  | Some text =>
      match clinic_of_row <$> csv_dictreader text with
      | [] =>
          (Raise (ValueError "No data found in hospitals_and_clinics.csv"), w)
      | c :: cs =>
          match fs w !! doctors_csv with
          | None => (Raise (FileNotFoundError doctors_csv), w)
          | Some text' =>
              match omapM doctor_of_row (csv_dictreader text') with
              | Raise e => (Raise e, w)
              | Ret [] =>
                  (Raise (ValueError
                     "No data found in doctors_and_specialists_list.csv"), w)
              | Ret (d :: ds) =>
                  match read_json specialties_json w with
                  | (Ret sd, _) =>
                      if py_truthy sd then (Ret (c :: cs, d :: ds, sd), w)
                      else (Raise (ValueError
                              "No data found in specialities_diseases.json"),
                            w)
                  | (Raise e, _) => (Raise e, w)
                  end
              end
          end
      end
  end.
Proof.
  unfold load_data_try. unfold mbind at 1. rewrite read_file_eq.
  destruct (fs w !! clinics_csv) as [text|]; [|reflexivity].
  destruct (clinic_of_row <$> csv_dictreader text) as [|c cs]; [reflexivity|].
  unfold mbind at 1. rewrite read_file_eq.
  destruct (fs w !! doctors_csv) as [text'|]; [|reflexivity].
  rewrite mbind_mlift.
  destruct (omapM doctor_of_row (csv_dictreader text')) as [[|d ds]|e];
    try reflexivity.
  unfold mbind at 1. rewrite read_json_eq.
  destruct (fs w !! specialties_json) as [text''|]; [|reflexivity].
  destruct (json_decode text'') as [sd|]; [|reflexivity].
  destruct (py_truthy sd); reflexivity.
Qed.

Lemma load_data_try_world (w : world) : snd (load_data_try w) = w.
Proof.
  rewrite load_data_try_eq.
  repeat match goal with
         | |- context [match ?x with _ => _ end] => destruct x
         end; reflexivity.
Qed.

Lemma load_data_raise (w : world) (e : exn) :
  fst (load_data_try w) = Raise e ->
  load_data w = (Raise e, add_log (LoadDataError e) w).
Proof.
  intros Hraise. unfold load_data, mtry.
  pose proof (load_data_try_world w) as Hw.
  destruct (load_data_try w) as [r w']. simpl in *. subst r w'.
  reflexivity.
Qed.


Lemma main_submit_load_raise (n m : nat) (w w' : world) (e : exn) :
  load_data w = (Raise e, w') ->
  main_submit n m (w, []) = (Raise e, (w', [])).
Proof.
  intros Hload. unfold main_submit. unfold mbind at 1, on_world at 1.
  simpl fst. rewrite Hload. reflexivity.
Qed.

Lemma main_program_load_raise (n m : nat) (w w' : world) (e : exn) :
  load_data w = (Raise e, w') ->
  main_program n m w = (Ret tt, add_log (FatalError e) w').
Proof.
  intros Hload. unfold main_program.
  rewrite (main_submit_load_raise n m w w' e Hload). reflexivity.
Qed.

Lemma load_billing_items_missing (w : world) :
  fs w !! billing_json = None ->
  load_billing_items w
  = (Ret (VDict ∅),
     add_log (BillingLoadError (FileNotFoundError billing_json)) w).
Proof.
  intros Hfile. unfold load_billing_items, mtry, mbind.
  rewrite read_json_eq, Hfile. reflexivity.
Qed.

(** C6, as the code has it.  A clinic CSV without data rows makes
    [load_data] log and raise [ValueError]; a missing clinic CSV, doctor
    CSV or specialty JSON makes it log and raise as well; in both cases
    the main program stops there with nothing queued and ends on the
    record of the fatal error.  A missing billing-items JSON is not fatal:
    [load_billing_items] logs the error and returns the empty table. *)
Theorem load_data_fatal_inputs (w : world) :
  (forall text,
     fs w !! clinics_csv = Some text ->
     csv_dictreader text = [] ->
     let e := ValueError "No data found in hospitals_and_clinics.csv" in
     load_data w = (Raise e, add_log (LoadDataError e) w)
     /\ forall n m,
          main_submit n m (w, [])
          = (Raise e, (add_log (LoadDataError e) w, []))
          /\ main_program n m w
             = (Ret tt, add_log (FatalError e) (add_log (LoadDataError e) w)))
  /\ (forall path,
        In path [clinics_csv; doctors_csv; specialties_json] ->
        fs w !! path = None ->
        exists e,
          load_data w = (Raise e, add_log (LoadDataError e) w)
          /\ forall n m,
               main_submit n m (w, [])
               = (Raise e, (add_log (LoadDataError e) w, []))
               /\ main_program n m w
                  = (Ret tt,
                     add_log (FatalError e) (add_log (LoadDataError e) w)))
  /\ (fs w !! billing_json = None ->
      load_billing_items w
      = (Ret (VDict ∅),
         add_log (BillingLoadError (FileNotFoundError billing_json)) w)).
Proof.
  split; [|split].
  - intros text Hfile Hrows e.
    assert (Hload : load_data w = (Raise e, add_log (LoadDataError e) w)).
    { apply load_data_raise. rewrite load_data_try_eq, Hfile, Hrows.
      reflexivity. }
    split; [exact Hload|]. intros n m. split.
    + apply main_submit_load_raise, Hload.
    + apply main_program_load_raise, Hload.
  - intros path Hin Hmissing.
    assert (Hraise : exists e, fst (load_data_try w) = Raise e).
    { rewrite load_data_try_eq, read_json_eq.
      simpl in Hin. destruct Hin as [<-|[<-|[<-|[]]]]; rewrite ?Hmissing;
        repeat case_split; simpl; eauto. }
    destruct Hraise as [e He]. exists e.
    pose proof (load_data_raise w e He) as Hload.
    split; [exact Hload|]. intros n m. split.
    + apply main_submit_load_raise, Hload.
    + apply main_program_load_raise, Hload.
  - apply load_billing_items_missing.
Qed.

End Load.

(** The claim of C6 fails for the billing-items file: with the three other
    inputs in place and [disease_consultation.json] missing, the run goes
    on, queues its claims and ends on the record of success. *)
Lemma missing_billing_file_does_not_abort :
  ~ @missing_input_file_aborts _ Sample.runtime 1 1
      Sample.world_without_billing.
Proof.
  intros Habort.
  assert (Hmissing : fs Sample.world_without_billing !! billing_json = None)
    by reflexivity.
  assert (Hreturns :
    fst (@main_submit _ Sample.runtime 1 1
           (Sample.world_without_billing, [])) = Ret tt)
    by reflexivity.
  destruct (Habort billing_json) as (e & s & Hrun & _).
  - simpl. tauto.
  - exact Hmissing.
  - rewrite Hrun in Hreturns. discriminate Hreturns.
Qed.

(** ** Saving the scraped records *)

Section ScraperFacts.
Context `{Runtime}.

Lemma write_dict_rows_ok (path : string) (fieldnames : list string)
    (details : list record) (rows : list (list string)) :
  omapM (dict_to_row fieldnames) details = Ret rows ->
  forall written (w : world),
    fs w !! path = Some (csv_encode written) ->
    exists w',
      write_dict_rows path fieldnames written details w = (Ret tt, w')
      /\ fs w' = <[path := csv_encode (written ++ rows)%list]> (fs w)
      /\ log w' = log w.
Proof.
  revert rows. induction details as [|d details IH]; intros rows Hrows
    written w Hfile; simpl in *.
  - injection Hrows as <-. exists w. rewrite app_nil_r.
    split; [reflexivity|]. split; [|reflexivity].
    symmetry. apply insert_id, Hfile.
  - rewrite mbind_mlift.
    destruct (dict_to_row fieldnames d) as [row|]; [|discriminate].
    simpl in Hrows.
    destruct (omapM (dict_to_row fieldnames) details) as [rows'|];
      [|discriminate].
    injection Hrows as <-. unfold mbind at 1, mmodify at 1.
    destruct (IH rows' eq_refl (written ++ [row])%list
                (set_fs (<[path := csv_encode (written ++ [row])%list]>
                           (fs w)) w))
      as (w' & Hrun & Hfs & Hlog).
    { simpl. apply lookup_insert_eq. }
    exists w'. split; [exact Hrun|]. split; [|exact Hlog].
    rewrite Hfs. simpl. rewrite insert_insert_eq, <- app_assoc. reflexivity.
Qed.

(** C8, as the code has it.  The clinic scraper writes nothing and logs a
    warning when it has no record, and otherwise writes, under the keys of
    the first record as header, one row per record.  The doctor scraper
    always writes: the fixed header "Doctor Name", "Specialty" and then
    the records, so that with no record it leaves a file holding the
    header alone, and it logs no warning. *)
Theorem scrapers_write_results (w : world) :
  save_to_csv [] w = (Ret tt, add_log NoHospitalDetails w)
  /\ level_of NoHospitalDetails = WARNING
  /\ (forall first rest rows,
        writable clinics_csv = true ->
        omapM (dict_to_row (record_keys first)) (first :: rest) = Ret rows ->
        exists w',
          save_to_csv (first :: rest) w = (Ret tt, w')
          /\ fs w' = <[clinics_csv := csv_encode (record_keys first :: rows)]>
                       (fs w)
          /\ log w' = (log w ++ [HospitalsSaved])%list)
  /\ (forall doctor_data filename,
        writable filename = true ->
        exists w',
          save_doctors_to_csv doctor_data filename w = (Ret tt, w')
          /\ fs w' = <[filename :=
                         csv_encode (["Doctor Name"; "Specialty"]
                                     :: doctor_data)]> (fs w)
          /\ log w' = (log w ++ [SavingDoctors (length doctor_data);
                                 DoctorsSaved filename])%list).
Proof.
  split; [reflexivity|]. split; [reflexivity|]. split.
  - intros first rest rows Hwrite Hrows.
    set (keys := record_keys first) in *.
    set (w1 := set_fs (<[clinics_csv := csv_encode [keys]]>
                         (<[clinics_csv := csv_encode []]> (fs w))) w).
    destruct (write_dict_rows_ok clinics_csv keys (first :: rest) rows Hrows
                [keys] w1) as (w' & Hrun & Hfs & Hlog).
    { apply lookup_insert_eq. }
    exists (add_log HospitalsSaved w'). split; [|split].
    + unfold save_to_csv. fold keys. unfold mtry, write_file.
      rewrite Hwrite. unfold mbind at 1, mmodify at 1.
      unfold mbind at 1, mmodify at 1.
      change (set_fs _ (set_fs _ w)) with w1.
      unfold mbind at 1. rewrite Hrun. reflexivity.
    + simpl. rewrite Hfs. subst w1. simpl.
      rewrite !insert_insert_eq. reflexivity.
    + simpl. rewrite Hlog. reflexivity.
  - intros doctor_data filename Hwrite. eexists. split; [|split].
    + unfold save_doctors_to_csv, mbind, logging, mmodify, write_file.
      rewrite Hwrite. reflexivity.
    + reflexivity.
    + simpl. rewrite <- app_assoc. reflexivity.
Qed.

End ScraperFacts.

(** The claim of C8 fails for the doctor scraper: with no record it still
    writes its file, and it logs no warning. *)
Lemma doctor_scraper_writes_without_records :
  ~ skips_write_with_warning (@doctor_main _ Sample.runtime [])
      doctors_csv Sample.empty_world.
Proof.
  intros [Hfile _].
  change (Some (@csv_encode _ Sample.runtime [["Doctor Name"; "Specialty"]])
          = None) in Hfile.
  discriminate Hfile.
Qed.

(** ** Where the logo of a clinic is stored *)

Section LogoName.
Context `{Runtime}.

Lemma logo_path_inj (name name' : string) :
  logo_path name' = logo_path name -> name' = name.
Proof.
  rewrite !logo_path_eq. intros Heq.
  apply String.app_inj in Heq. apply string_app_inj_r in Heq. exact Heq.
Qed.

(** C9, as the code has it.  The logo of a clinic is stored under the
    clinic name as it is, not sanitized: the path is "logos/logo_", the
    name, ".png", and different names give different paths.  A call for a
    clinic whose logo is missing stores the generated image at exactly
    that path (when PIL draws the text and the path can be written) and
    writes no other file but its destination. *)
Theorem logo_file_keyed_by_raw_name (name : string) :
  logo_path name = "logos/logo_" +:+ name +:+ ".png"
  /\ (forall name', logo_path name' = logo_path name -> name' = name)
  /\ forall (clinic : gmap string string) (doctor : string * string)
            (diagnosis : value) (fraud_type output_pdf : string)
            (design : value) (billing_items : list (list value))
            (w : world),
       clinic !! "name" = Some name ->
       well_formed_design design = true ->
       fs w !! logo_path name = None ->
       pil_draws (substring 0 20 name) = true ->
       writable (logo_path name) = true ->
       output_pdf <> logo_path name ->
       exists w',
         generate_claim_pdf clinic doctor diagnosis fraud_type output_pdf
           design billing_items w = (Ret tt, w')
         /\ fs w' !! logo_path name
            = Some (png_encode (substring 0 20 name))
         /\ forall p, p <> logo_path name -> p <> output_pdf ->
                      fs w' !! p = fs w !! p.
Proof.
  split; [reflexivity|]. split; [apply logo_path_inj|].
  intros clinic doctor diagnosis fraud_type output_pdf design billing_items
         w Hname Hdesign Hmissing Hdraws Hwrite Hdest.
  destruct (claim_pdf_logo_step clinic name doctor diagnosis fraud_type
              output_pdf design billing_items w Hname Hdesign)
    as (w2 & w' & Hrun & Hstep & Hend).
  cbv zeta in Hstep, Hend. rewrite Hmissing in Hstep.
  exists w'. split; [exact Hrun|]. split.
  - assert (Hfs2 : fs w2 = <[logo_path name :=
                               png_encode (substring 0 20 name)]> (fs w)).
    { rewrite Hstep, generate_logo_eq, Hdraws, Hwrite. simpl.
      rewrite after_patient_fs. reflexivity. }
    assert (Hfs3 : fs (snd (verify_logo (logo_path name) w2))
                   = <[logo_path name :=
                         png_encode (substring 0 20 name)]> (fs w)).
    { rewrite verify_logo_fs. exact Hfs2. }
    destruct Hend as [[e ->]|(ops & -> & _)]; simpl; rewrite Hfs3.
    + apply lookup_insert_eq.
    + rewrite lookup_insert_ne by congruence. apply lookup_insert_eq.
  - intros p Hp Hp'.
    pose proof (generate_claim_pdf_frame clinic doctor diagnosis fraud_type
                  output_pdf design billing_items w p Hp') as Hframe.
    rewrite Hrun in Hframe. apply Hframe.
    intros name' Hname'. congruence.
Qed.

End LogoName.

(** The claim of C9 fails for a clinic whose name holds a colon: the call
    stores the logo under the name as it is, in the logo directory that
    line 32 made, and that file name is built from no sanitized key. *)
Lemma logo_name_is_not_sanitized :
  let w' :=
    snd (@generate_claim_pdf _ Sample.runtime Sample.north_clinic
           Sample.dr_a (VStr "Flu") "legitimate" "output/legit_claim_0.pdf"
           Sample.city_design Sample.flu_lines Sample.empty_world) in
  fs w' !! "logos/logo_City Clinic: North.png"
  = Some (@png_encode _ Sample.runtime "City Clinic: North")
  /\ ~ logo_keyed_by_sanitized_name "output/legit_claim_0.pdf"
        Sample.empty_world w'.
Proof.
  cbv zeta.
  set (w' := snd (@generate_claim_pdf _ Sample.runtime Sample.north_clinic
                    Sample.dr_a (VStr "Flu") "legitimate"
                    "output/legit_claim_0.pdf" Sample.city_design
                    Sample.flu_lines Sample.empty_world)).
  assert (Hfile : fs w' !! "logos/logo_City Clinic: North.png"
                  = Some (@png_encode _ Sample.runtime "City Clinic: North"))
    by reflexivity.
  split; [exact Hfile|]. intros Hclaim.
  destruct (Hclaim "logos/logo_City Clinic: North.png")
    as (key & Hkey & Hpath).
  - discriminate.
  - reflexivity.
  - rewrite Hfile. eexists. reflexivity.
  - assert (Hjoin : os_path_join logos_dir ("logo_" +:+ key +:+ ".png")
                    = "logos/logo_" +:+ key +:+ ".png") by reflexivity.
    rewrite Hjoin in Hpath.
    change "logos/logo_City Clinic: North.png"
      with ("logos/logo_" +:+ "City Clinic: North" +:+ ".png") in Hpath.
    apply String.app_inj in Hpath. apply string_app_inj_r in Hpath.
    subst key. discriminate Hkey.
Qed.

(** * Further properties of the claim generator *)

(** ** Loading the inputs *)

Section LoadFacts.
Context `{Runtime}.

Lemma load_data_ret (w : world) data :
  fst (load_data_try w) = Ret data -> load_data w = (Ret data, w).
Proof.
  intros Hret. unfold load_data, mtry.
  pose proof (load_data_try_world w) as Hw.
  destruct (load_data_try w) as [r w']. simpl in *. subst r w'.
  reflexivity.
Qed.

Lemma load_data_cases (w : world) :
  (exists data, fst (load_data_try w) = Ret data
                /\ load_data w = (Ret data, w))
  \/ (exists e, fst (load_data_try w) = Raise e
                /\ load_data w = (Raise e, add_log (LoadDataError e) w)).
Proof.
  destruct (fst (load_data_try w)) as [data|e] eqn:Htry.
  - left. exists data. split; [reflexivity|]. apply load_data_ret, Htry.
  - right. exists e. split; [reflexivity|]. apply load_data_raise, Htry.
Qed.

(** X2.  [load_data] writes no file other than the log and never draws a
    random number; it logs exactly when it raises, and then one record of
    that error. *)
Theorem load_data_logs_only_failures (w : world) :
  fs (snd (load_data w)) = fs w
  /\ rnd (snd (load_data w)) = rnd w
  /\ fake_rnd (snd (load_data w)) = fake_rnd w
  /\ match fst (load_data w) with
     | Ret _ => snd (load_data w) = w
     | Raise e => snd (load_data w) = add_log (LoadDataError e) w
     end.
Proof.
  destruct (load_data_cases w) as [(data & _ & ->)|(e & _ & ->)]; simpl;
    repeat split; reflexivity.
Qed.

(** X4.  [load_billing_items] never raises and writes no file other than
    the log.  When the file is there and holds a JSON object, it returns
    the 'diagnoses' member of the object, or the empty table when the
    object has no such member, and logs nothing.  In every other case it
    returns the empty table and logs one error: that of the missing file,
    that of the text that is not JSON, or that of the document that is
    not an object. *)
Theorem load_billing_items_never_raises (w : world) :
  fs (snd (load_billing_items w)) = fs w
  /\ (exists table, fst (load_billing_items w) = Ret table)
  /\ (forall text data,
        fs w !! billing_json = Some text ->
        json_decode text = Some (VDict data) ->
        load_billing_items w
        = (Ret (default (VDict ∅) (data !! "diagnoses")), w))
  /\ (fs w !! billing_json = None ->
      load_billing_items w
      = (Ret (VDict ∅),
         add_log (BillingLoadError (FileNotFoundError billing_json)) w))
  /\ (forall text,
        fs w !! billing_json = Some text ->
        json_decode text = None ->
        load_billing_items w
        = (Ret (VDict ∅), add_log (BillingLoadError JSONDecodeError) w))
  /\ (forall text document,
        fs w !! billing_json = Some text ->
        json_decode text = Some document ->
        (forall data, document <> VDict data) ->
        load_billing_items w
        = (Ret (VDict ∅), add_log (BillingLoadError AttributeError) w)).
Proof.
  unfold load_billing_items, mtry. unfold mbind. rewrite read_json_eq.
  destruct (fs w !! billing_json) as [text|] eqn:Hfile.
  - destruct (json_decode text) as [document|] eqn:Hjson.
    + destruct document as [| | | | |l|data]; simpl;
        (split; [reflexivity|]); (split; [eexists; reflexivity|]);
        (split; [intros ? ? [= <-] Hdata; rewrite Hjson in Hdata;
                 try discriminate Hdata|]);
        try (injection Hdata as <-; reflexivity);
        (split; [discriminate|]);
        (split; [intros ? [= <-] Hnone; rewrite Hjson in Hnone;
                 discriminate Hnone|]);
        intros ? ? [= <-] Hdoc Hnot; rewrite Hjson in Hdoc;
        injection Hdoc as <-; try reflexivity.
      exfalso. exact (Hnot data eq_refl).
    + simpl. split; [reflexivity|]. split; [eexists; reflexivity|].
      split; [intros ? ? [= <-] Hdata; rewrite Hjson in Hdata;
              discriminate Hdata|].
      split; [discriminate|]. split; [reflexivity|].
      intros ? ? [= <-] Hdoc. rewrite Hjson in Hdoc. discriminate Hdoc.
  - simpl. split; [reflexivity|]. split; [eexists; reflexivity|].
    split; [discriminate|]. split; [reflexivity|].
    split; discriminate.
Qed.

End LoadFacts.

(** ** The logo functions *)

Section LogoExtra.
Context `{Runtime}.

(** X5.  Neither logo function raises.  [verify_logo] changes no file
    (the log aside), answers [False] without a log record for a missing
    file, and
    answers [True] only for a file that PIL accepts, leaving the world as
    it is.  [generate_logo] either writes the image of the first 20
    characters of the name to the path, logs it and answers [True], or
    leaves the files as they were, logs the error and answers [False]. *)
Theorem logo_functions_never_raise (provider_name logo_file : string)
    (w : world) :
  (exists ok,
     verify_logo logo_file w = (Ret ok, snd (verify_logo logo_file w))
     /\ fs (snd (verify_logo logo_file w)) = fs w
     /\ (fs w !! logo_file = None ->
         ok = false /\ snd (verify_logo logo_file w) = w)
     /\ (ok = true ->
         snd (verify_logo logo_file w) = w
         /\ exists bytes,
              fs w !! logo_file = Some bytes /\ image_ok bytes = true))
  /\ (generate_logo provider_name logo_file w
      = (Ret true,
         add_log (LogoGenerated provider_name logo_file)
           (set_fs (<[logo_file := png_encode (substring 0 20 provider_name)]>
                      (fs w)) w))
      \/ exists e,
           generate_logo provider_name logo_file w
           = (Ret false, add_log (LogoError provider_name e) w)).
Proof.
  split.
  - rewrite verify_logo_eq.
    destruct (fs w !! logo_file) as [bytes|] eqn:Hfile.
    + destruct (image_ok bytes) eqn:Hok; eexists;
        (split; [reflexivity|]); (split; [reflexivity|]);
        (split; [discriminate|]); simpl.
      * intros _. split; [reflexivity|]. exists bytes. auto.
      * discriminate.
    + exists false. repeat split; try reflexivity. discriminate.
  - rewrite generate_logo_eq.
    destruct (pil_draws _); [destruct (writable logo_file)|]; eauto.
Qed.

(** X6.  A logo that [generate_logo] has written is accepted by
    [verify_logo] at the same path, provided PIL reads back the image it
    wrote; no other file is touched, and the only log record is that of
    the generation. *)
Theorem generated_logo_verifies (provider_name logo_file : string)
    (w : world) :
  pil_draws (substring 0 20 provider_name) = true ->
  writable logo_file = true ->
  image_ok (png_encode (substring 0 20 provider_name)) = true ->
  exists w1,
    (ok <- generate_logo provider_name logo_file ;; verify_logo logo_file) w
    = (Ret true, w1)
    /\ generate_logo provider_name logo_file w = (Ret true, w1)
    /\ fs w1 !! logo_file = Some (png_encode (substring 0 20 provider_name))
    /\ (forall p, p <> logo_file -> fs w1 !! p = fs w !! p)
    /\ log w1 = (log w ++ [LogoGenerated provider_name logo_file])%list.
Proof.
  intros Hdraws Hwrite Hreads.
  set (w1 := add_log (LogoGenerated provider_name logo_file)
               (set_fs (<[logo_file :=
                            png_encode (substring 0 20 provider_name)]>
                          (fs w)) w)).
  exists w1.
  assert (Hgen : generate_logo provider_name logo_file w = (Ret true, w1)).
  { rewrite generate_logo_eq, Hdraws, Hwrite. reflexivity. }
  split; [|split; [exact Hgen|split; [|split]]].
  - unfold mbind. rewrite Hgen, verify_logo_eq. simpl.
    rewrite lookup_insert_eq, Hreads. reflexivity.
  - simpl. apply lookup_insert_eq.
  - intros p Hp. simpl. apply lookup_insert_ne. congruence.
  - reflexivity.
Qed.

(** X7.  Once the logo step of a call has placed the logo on the page,
    the logo step of any later call for the same clinic, run on the world
    the first left, reuses the file: it places the same image and leaves
    the world as it is (no file written, nothing logged). *)
Theorem logo_is_generated_once (clinic : gmap string string) (name : string)
    (w w1 : world) (page : list canvas_op) :
  clinic !! "name" = Some name ->
  add_clinic_logo clinic (w, page)
  = (Ret tt, (w1, (page ++ [DrawImage (logo_path name) 50 700 100 50])%list)) ->
  forall page',
    add_clinic_logo clinic (w1, page')
    = (Ret tt, (w1, (page' ++ [DrawImage (logo_path name) 50 700 100 50])%list)).
Proof.
  intros Hname Hfirst page'.
  rewrite (add_clinic_logo_eq clinic name w page Hname) in Hfirst.
  cbv zeta in Hfirst. rewrite verify_logo_eq in Hfirst.
  destruct (fs (after_logo_check name w) !! logo_path name) as [bytes|]
    eqn:Hfile.
  - destruct (image_ok bytes) eqn:Hok.
    + rewrite draw_eq in Hfirst.
      destruct (rl_accepts (DrawImage (logo_path name) 50 700 100 50))
        eqn:Hacc; [|discriminate].
      injection Hfirst as Hw1. subst w1.
      rewrite (add_clinic_logo_eq clinic name _ page' Hname). cbv zeta.
      assert (Hsame : after_logo_check name (after_logo_check name w)
                      = after_logo_check name w).
      { unfold after_logo_check at 1. cbv zeta. rewrite Hfile, Hok.
        reflexivity. }
      rewrite Hsame, verify_logo_eq, Hfile, Hok, draw_eq, Hacc. reflexivity.
    + injection Hfirst as _ Hpage. exfalso.
      apply (f_equal (@length _)) in Hpage. rewrite length_app in Hpage.
      simpl in Hpage. lia.
  - injection Hfirst as _ Hpage. exfalso.
    apply (f_equal (@length _)) in Hpage. rewrite length_app in Hpage.
    simpl in Hpage. lia.
Qed.

End LogoExtra.

(** ** Billing lines and the total *)

Section BillingExtra.
Context `{Runtime}.

Lemma billing_row_shape (item : value) (row : list value) :
  billing_row item = Ret row ->
  exists i d q u t,
    row = [i; d; VStr q; VStr u; VStr t]
    /\ py_getitem item "Item" = Ret i
    /\ py_getitem item "Description" = Ret d.
Proof.
  unfold billing_row.
  destruct (py_getitem item "Item") as [i|]; [|discriminate].
  destruct (py_getitem item "Description") as [d|]; [|discriminate].
  destruct (py_getitem item "Quantity") as [q|]; [|discriminate].
  destruct (py_getitem item "Unit Price") as [u|]; [|discriminate].
  destruct (py_getitem item "Total") as [t|]; [|discriminate].
  simpl. intros [= <-]. eauto 10.
Qed.

Lemma billing_rows_shape (items : list value) (rows : list (list value)) :
  omapM billing_row items = Ret rows ->
  Forall (fun row => exists i d q u t, row = [i; d; VStr q; VStr u; VStr t])
    rows.
Proof.
  revert rows. induction items as [|item items IH]; intros rows; simpl.
  - intros [= <-]. constructor.
  - destruct (billing_row item) as [row|] eqn:Hrow; [|discriminate].
    destruct (omapM billing_row items) as [rows'|]; [|discriminate].
    simpl. intros [= <-]. constructor; [|apply IH; reflexivity].
    apply billing_row_shape in Hrow.
    destruct Hrow as (i & d & q & u & t & -> & _). eauto 10.
Qed.

Lemma total_amount_of_text_rows (rows : list (list value)) :
  Forall (fun row => exists i d q u t, row = [i; d; VStr q; VStr u; VStr t])
    rows ->
  (exists total, total_amount rows = Ret total)
  \/ (exists text, total_amount rows = Raise (ValueError text)).
Proof.
  unfold total_amount. induction 1 as [|row rows Hrow _ IH].
  - left. eexists. reflexivity.
  - destruct Hrow as (i & d & q & u & t & ->). simpl.
    destruct (float_of_string t) as [x|]; simpl; [|right; eauto].
    destruct (omapM _ rows) as [xs|e]; simpl in *.
    + left. eexists. reflexivity.
    + destruct IH as [[total [=]]|[text [= ->]]]. right. eauto.
Qed.

Lemma billing_items_shape (diagnosis table : value)
    (rows : list (list value)) :
  get_billing_items_for_diagnosis diagnosis table = Ret rows ->
  Forall (fun row => exists i d q u t, row = [i; d; VStr q; VStr u; VStr t])
    rows
  /\ (rows = fallback_billing_items
      \/ exists entry items elements,
           py_get table diagnosis (VDict ∅) = Ret entry
           /\ py_get entry (VStr "billing_items") (VList []) = Ret items
           /\ py_iter items = Ret elements
           /\ omapM billing_row elements = Ret rows
           /\ length rows = length elements).
Proof.
  intros Hrows. unfold get_billing_items_for_diagnosis in Hrows.
  destruct (py_get table diagnosis (VDict ∅)) as [entry|] eqn:Hentry;
    [|discriminate].
  simpl in Hrows.
  destruct (py_get entry (VStr "billing_items") (VList [])) as [items|]
    eqn:Hitems; [|discriminate].
  simpl in Hrows. destruct (py_truthy items); simpl in Hrows.
  - destruct (py_iter items) as [elements|] eqn:Hiter; [|discriminate].
    simpl in Hrows. split; [exact (billing_rows_shape _ _ Hrows)|].
    right. exists entry, items, elements. repeat split; auto.
    exact (omapM_length _ _ _ Hrows).
  - injection Hrows as <-. split; [|left; reflexivity].
    repeat constructor; eauto 10.
Qed.

Lemma omapM_lookup {A B} (f : A -> outcome B) (l : list A) (ys : list B) :
  omapM f l = Ret ys ->
  forall (i : nat) x,
    l !! i = Some x -> exists y, ys !! i = Some y /\ f x = Ret y.
Proof.
  revert ys. induction l as [|a l IH]; intros ys Hys i x Hx;
    [discriminate Hx|].
  simpl in Hys. destruct (f a) as [b|] eqn:Hb; [|discriminate].
  destruct (omapM f l) as [bs|]; [|discriminate].
  simpl in Hys. injection Hys as <-.
  destruct i as [|i]; simpl in Hx |- *.
  - injection Hx as <-. eauto.
  - exact (IH bs eq_refl i x Hx).
Qed.

Lemma billing_row_fields (item : value) (row : list value) :
  billing_row item = Ret row ->
  exists i d q u t,
    py_getitem item "Item" = Ret i
    /\ py_getitem item "Description" = Ret d
    /\ py_getitem item "Quantity" = Ret q
    /\ py_getitem item "Unit Price" = Ret u
    /\ py_getitem item "Total" = Ret t
    /\ row = [i; d; VStr (py_str q); VStr (py_str u); VStr (py_str t)].
Proof.
  unfold billing_row.
  destruct (py_getitem item "Item") as [i|]; [|discriminate].
  destruct (py_getitem item "Description") as [d|]; [|discriminate].
  destruct (py_getitem item "Quantity") as [q|]; [|discriminate].
  destruct (py_getitem item "Unit Price") as [u|]; [|discriminate].
  destruct (py_getitem item "Total") as [t|]; [|discriminate].
  simpl. intros [= <-]. exists i, d, q, u, t. repeat split.
Qed.

(** X8.  Whatever the table, every row that
    [get_billing_items_for_diagnosis] returns has exactly five cells, the
    last three of them texts.  When the item list of the diagnosis is
    empty or absent the rows are the fallback; for an item list that is
    not empty there are as many rows as items, in the order of the
    items, and the row of an item holds its 'Item' and 'Description' as
    they are and its 'Quantity', 'Unit Price' and 'Total' put through
    [str].  So the total of such rows is computed or fails with
    [ValueError] on a total that is not a number, never with [IndexError]
    or [TypeError]. *)
Theorem billing_rows_have_five_cells (diagnosis table : value)
    (rows : list (list value)) :
  get_billing_items_for_diagnosis diagnosis table = Ret rows ->
  Forall (fun row => length row = 5%nat) rows
  /\ Forall (fun row => exists i d q u t, row = [i; d; VStr q; VStr u; VStr t])
       rows
  /\ (exists entry items,
        py_get table diagnosis (VDict ∅) = Ret entry
        /\ py_get entry (VStr "billing_items") (VList []) = Ret items
        /\ (py_truthy items = false -> rows = fallback_billing_items)
        /\ (py_truthy items = true ->
            exists elements,
              py_iter items = Ret elements
              /\ length rows = length elements
              /\ forall (n : nat) item,
                   elements !! n = Some item ->
                   exists i d q u t,
                     py_getitem item "Item" = Ret i
                     /\ py_getitem item "Description" = Ret d
                     /\ py_getitem item "Quantity" = Ret q
                     /\ py_getitem item "Unit Price" = Ret u
                     /\ py_getitem item "Total" = Ret t
                     /\ rows !! n
                        = Some [i; d; VStr (py_str q); VStr (py_str u);
                                VStr (py_str t)]))
  /\ ((exists total, total_amount rows = Ret total)
      \/ exists text, total_amount rows = Raise (ValueError text)).
Proof.
  intros Hrows.
  destruct (billing_items_shape diagnosis table rows Hrows)
    as [Hshape _].
  split; [|split; [exact Hshape|split]].
  - eapply Forall_impl; [exact Hshape|].
    intros row (i & d & q & u & t & ->). reflexivity.
  - unfold get_billing_items_for_diagnosis in Hrows.
    destruct (py_get table diagnosis (VDict ∅)) as [entry|] eqn:Hentry;
      [|discriminate].
    simpl in Hrows.
    destruct (py_get entry (VStr "billing_items") (VList [])) as [items|]
      eqn:Hitems; [|discriminate].
    simpl in Hrows. exists entry, items.
    split; [reflexivity|]. split; [exact Hitems|].
    destruct (py_truthy items); simpl in Hrows.
    + split; [discriminate|]. intros _.
      destruct (py_iter items) as [elements|]; [|discriminate].
      simpl in Hrows. exists elements. split; [reflexivity|].
      split; [exact (omapM_length _ _ _ Hrows)|].
      intros n item Hitem.
      destruct (omapM_lookup _ _ _ Hrows n item Hitem) as (row & Hrow & Hrun).
      destruct (billing_row_fields item row Hrun)
        as (i & d & q & u & t & Hi & Hd & Hq & Hu & Ht & ->).
      exists i, d, q, u, t. auto 10.
    + injection Hrows as <-. split; [reflexivity|discriminate].
  - apply total_amount_of_text_rows, Hshape.
Qed.

End BillingExtra.

(** ** One call of [generate_claim_pdf] *)

Section ClaimPdfExtra.
Context `{Runtime}.

#[local] Instance only_logs_and_writes_refl : Reflexive only_logs_and_writes.
Proof.
  intros w. split; [exists []; symmetry; apply app_nil_r|auto].
Qed.

#[local] Instance only_logs_and_writes_trans
  : Transitive only_logs_and_writes.
Proof.
  intros w1 w2 w3 ([l1 Hl1] & ? & ? & ?) ([l2 Hl2] & ? & ? & ?).
  split; [|repeat split; congruence].
  exists (l1 ++ l2)%list. rewrite Hl2, Hl1. symmetry. apply app_assoc.
Qed.

#[local] Instance on_fst_quiet_refl {C}
  : Reflexive (@on_fst C only_logs_and_writes).
Proof. intros s. unfold on_fst. reflexivity. Qed.

#[local] Instance on_fst_quiet_trans {C}
  : Transitive (@on_fst C only_logs_and_writes).
Proof. intros s1 s2 s3. unfold on_fst. apply transitivity. Qed.

Lemma add_log_quiet (l : log_entry) (w : world) :
  only_logs_and_writes w (add_log l w).
Proof. split; [exists [l]; reflexivity|auto]. Qed.

Lemma verify_logo_quiet (logo_file : string) (w : world) :
  only_logs_and_writes w (snd (verify_logo logo_file w)).
Proof.
  rewrite verify_logo_eq.
  destruct (fs w !! logo_file) as [bytes|]; [destruct (image_ok bytes)|];
    simpl; first [reflexivity|apply add_log_quiet].
Qed.

Lemma generate_logo_quiet (provider_name logo_file : string) (w : world) :
  only_logs_and_writes w (snd (generate_logo provider_name logo_file w)).
Proof.
  rewrite generate_logo_eq.
  destruct (pil_draws _); [destruct (writable logo_file)|]; simpl;
    try apply add_log_quiet.
  split; [exists [LogoGenerated provider_name logo_file]; reflexivity|auto].
Qed.

Lemma after_logo_check_quiet (name : string) (w : world) :
  only_logs_and_writes w (after_logo_check name w).
Proof.
  unfold after_logo_check. cbv zeta.
  destruct (fs w !! logo_path name) as [bytes|];
    [destruct (image_ok bytes)|]; try reflexivity;
    try apply generate_logo_quiet.
  etransitivity; [apply add_log_quiet|apply generate_logo_quiet].
Qed.

Lemma add_clinic_logo_quiet (clinic : gmap string string) :
  preserves (on_fst only_logs_and_writes) (add_clinic_logo clinic).
Proof.
  intros [w page]. unfold on_fst. simpl fst.
  destruct (clinic !! "name") as [name|] eqn:Hname.
  - rewrite (add_clinic_logo_eq clinic name w page Hname). cbv zeta.
    pose proof (verify_logo_quiet (logo_path name) (after_logo_check name w))
      as Hverify.
    pose proof (after_logo_check_quiet name w) as Hcheck.
    destruct (verify_logo (logo_path name) (after_logo_check name w))
      as [[[|]|e] w3]; simpl in Hverify;
      [rewrite draw_eq; destruct (rl_accepts _)| |]; simpl;
      etransitivity; eassumption.
  - unfold add_clinic_logo, mbind, mlift, row_getitem. rewrite Hname.
    simpl. reflexivity.
Qed.

Lemma after_patient_draws (w : world) :
  log (after_patient w) = log w
  /\ rnd (after_patient w) = rnd w
  /\ today (after_patient w) = today w
  /\ fake_rnd (after_patient w) = drop 2 (fake_rnd w).
Proof.
  unfold after_patient, fake_random_int, fake_name, mbind, draw_fake.
  destruct w as [f l r [|a [|b t]] d]; simpl; auto.
Qed.

(** After the two draws of Faker, a page is built by logging and writing
    files only. *)
Lemma claim_page_quiet clinic doctor diagnosis design billing_items w page :
  only_logs_and_writes (after_patient w)
    (fst (snd (claim_page clinic doctor diagnosis design billing_items
                 (w, page)))).
Proof.
  destruct (claim_page_eq clinic doctor diagnosis design billing_items
              w page) as (pn & pid & ->).
  match goal with
  | |- only_logs_and_writes _ (fst (snd (?m ?s))) =>
      change (on_fst only_logs_and_writes s (snd (m s)));
      generalize s; change (preserves (on_fst only_logs_and_writes) m)
  end.
  repeat (apply preserves_mbind;
          [typeclasses eauto|apply preserves_mlift; typeclasses eauto
          |intros ?]).
  apply preserves_mbind; [typeclasses eauto|apply add_clinic_logo_quiet|].
  intros _. eapply preserves_weaken; [|apply claim_layout_world].
  intros s s' Heq. unfold on_fst in *. rewrite Heq. reflexivity.
Qed.

Lemma total_amount_bad_row (billing_items : list (list value))
    (row : list value) :
  In row billing_items ->
  (forall x, obind (list_getitem row 4) py_float <> Ret x) ->
  exists e, total_amount billing_items = Raise e.
Proof.
  unfold total_amount. induction billing_items as [|r rs IH]; [intros []|].
  intros [->|Hin] Hbad; simpl.
  - destruct (obind (list_getitem row 4) py_float) as [x|e] eqn:Hrow.
    + destruct (Hbad x). reflexivity.
    + eauto.
  - destruct (obind (list_getitem r 4) py_float) as [x|e]; simpl; [|eauto].
    destruct (IH Hin Hbad) as (e & He).
    destruct (omapM _ rs) as [xs|e']; simpl in *; [discriminate|eauto].
Qed.

(** X9.  A billing row with fewer than five cells, or whose fifth cell is
    a text that [float] rejects, makes the call fail: it returns, the last
    log record is the error of the call, and the destination file is as it
    was before the call. *)
Theorem claim_with_bad_total_is_not_written
    (clinic : gmap string string) (doctor : string * string)
    (diagnosis : value) (fraud_type output_pdf : string) (design : value)
    (billing_items : list (list value)) (row : list value) (w : world) :
  In row billing_items ->
  (length row < 5)%nat
  \/ (exists text, row !! 4%nat = Some (VStr text)
                   /\ float_of_string text = None) ->
  (forall name, clinic !! "name" = Some name -> output_pdf <> logo_path name) ->
  exists e w',
    generate_claim_pdf clinic doctor diagnosis fraud_type output_pdf design
      billing_items w = (Ret tt, w')
    /\ last (log w') = Some (ClaimError fraud_type e)
    /\ fs w' !! output_pdf = fs w !! output_pdf.
Proof.
  intros Hin Hbad Hlogo.
  assert (Htotal : exists e, total_amount billing_items = Raise e).
  { apply (total_amount_bad_row billing_items row Hin). intros x.
    unfold list_getitem. destruct Hbad as [Hshort|(text & Hcell & Hfloat)].
    - rewrite (lookup_ge_None_2 row 4) by lia. discriminate.
    - rewrite Hcell. simpl. rewrite Hfloat. discriminate. }
  destruct Htotal as (e0 & Htotal).
  unfold generate_claim_pdf. rewrite generate_claim_pdf_try_eq.
  pose proof (claim_page_frame clinic doctor diagnosis design billing_items
                w []) as Hframe.
  destruct (claim_page clinic doctor diagnosis design billing_items (w, []))
    as [[[]|e] [w2 page]] eqn:Hpage; simpl in Hframe.
  - apply claim_page_ret in Hpage.
    destruct Hpage as (? & ? & ? & ? & ? & ? & ? & ? & ? & total & ? & _
                       & Hsome & _).
    rewrite Htotal in Hsome. discriminate.
  - exists e, (add_log (ClaimError fraud_type e) w2).
    split; [reflexivity|]. split; [apply last_snoc|]. simpl.
    destruct Hframe as [->|(name & Hname & ->)]; [reflexivity|].
    apply lookup_insert_ne. intros Heq. exact (Hlogo name Hname (eq_sym Heq)).
Qed.





(** X12.  A call changes no file other than its destination, the logo of
    its clinic and the log; it draws nothing from [random] and exactly two values
    from Faker, whether it succeeds or not; it only adds to the log, and
    the last record it adds is that of its success or of its error. *)
Theorem generate_claim_pdf_touches_two_files
    (clinic : gmap string string) (doctor : string * string)
    (diagnosis : value) (fraud_type output_pdf : string) (design : value)
    (billing_items : list (list value)) (w : world) :
  exists w' entry,
    generate_claim_pdf clinic doctor diagnosis fraud_type output_pdf design
      billing_items w = (Ret tt, w')
    /\ (forall p,
          p <> output_pdf ->
          p <> log_file ->
          (forall name, clinic !! "name" = Some name -> p <> logo_path name) ->
          fs w' !! p = fs w !! p)
    /\ (exists l, log w' = (log w ++ l ++ [entry])%list)
    /\ (entry = ClaimGenerated output_pdf
        \/ exists e, entry = ClaimError fraud_type e)
    /\ rnd w' = rnd w
    /\ fake_rnd w' = drop 2 (fake_rnd w)
    /\ today w' = today w.
Proof.
  pose proof (fun p (Hp : p <> output_pdf) (_ : p <> log_file) =>
                generate_claim_pdf_frame clinic doctor diagnosis
                  fraud_type output_pdf design billing_items w p Hp)
    as Hframe.
  pose proof (claim_page_quiet clinic doctor diagnosis design billing_items
                w []) as Hquiet.
  destruct (after_patient_draws w) as (Hlog & Hrnd & Htoday & Hfake).
  unfold generate_claim_pdf in *. rewrite generate_claim_pdf_try_eq in *.
  destruct (claim_page clinic doctor diagnosis design billing_items (w, []))
    as [[[]|e] [w2 page]]; simpl in Hquiet;
    destruct Hquiet as ([l Hl] & Hrnd2 & Hfake2 & Htoday2);
    rewrite Hlog in Hl.
  - destruct (writable output_pdf).
    + do 2 eexists. split; [reflexivity|]. split; [exact Hframe|]. simpl.
      split; [exists l; rewrite Hl; apply eq_sym, app_assoc|].
      split; [left; reflexivity|]. repeat split; congruence.
    + do 2 eexists. split; [reflexivity|]. split; [exact Hframe|]. simpl.
      split; [exists l; rewrite Hl; apply eq_sym, app_assoc|].
      split; [right; eexists; reflexivity|]. repeat split; congruence.
  - do 2 eexists. split; [reflexivity|]. split; [exact Hframe|]. simpl.
    split; [exists l; rewrite Hl; apply eq_sym, app_assoc|].
    split; [right; eexists; reflexivity|]. repeat split; congruence.
Qed.

End ClaimPdfExtra.

(** ** The batch *)

Section BatchExtra.
Context `{Runtime}.

Lemma random_choice_ret {A} (l : list A) (w w' : world) (x : A) :
  random_choice l w = (Ret x, w') -> In x l.
Proof.
  destruct l as [|x0 l]; [discriminate|].
  unfold random_choice, mbind, draw_rnd, mret.
  assert (Hnth : forall r, In (nth (r mod length (x0 :: l))%nat (x0 :: l) x0)
                              (x0 :: l)).
  { intros r. apply nth_In. apply Nat.mod_upper_bound. simpl. lia. }
  destruct (rnd w) as [|r t]; intros Heq; apply (f_equal fst) in Heq;
    cbv beta iota in Heq; cbn [fst] in Heq; injection Heq as <-;
    [exact (Hnth 0%nat)|exact (Hnth r)].
Qed.

Lemma random_choice_value_ret (l : list value) (w w' : world) (x : value) :
  random_choice_value (VList l) w = (Ret x, w') -> In x l.
Proof. apply random_choice_ret. Qed.

(** A slot queues at most one task, and what [queued_for] says of it
    holds. *)
Lemma claim_slot_queues kind stem clinics_info doctors_info
    specialties_diseases designs billing_items_data i :
  appends_at_most
    (queued_for kind stem clinics_info doctors_info specialties_diseases
       designs billing_items_data i)
    (claim_slot kind stem clinics_info doctors_info specialties_diseases
       designs billing_items_data i).
Proof.
  intros [w q].
  destruct (claim_slot kind stem clinics_info doctors_info
              specialties_diseases designs billing_items_data i (w, q))
    as [r s'] eqn:Hrun.
  unfold claim_slot in Hrun.
  unfold mbind at 1, on_world at 1 in Hrun. simpl fst in Hrun; simpl snd in Hrun.
  destruct (random_choice clinics_info w) as [[clinic|e] w1] eqn:Hclinic;
    [|injection Hrun as <- <-; left; reflexivity].
  unfold mbind at 1, on_world at 1 in Hrun.
  simpl fst in Hrun; simpl snd in Hrun.
  destruct (random_choice doctors_info w1) as [[doctor|e] w2] eqn:Hdoctor;
    [|injection Hrun as <- <-; left; reflexivity].
  rewrite mbind_mlift in Hrun.
  destruct (py_contains specialties_diseases (snd doctor)) as [[|]|e]
    eqn:Hknown; try (injection Hrun as <- <-; left; reflexivity).
  rewrite mbind_mlift in Hrun.
  destruct (py_getitem specialties_diseases (snd doctor)) as [diagnoses|e]
    eqn:Hdiagnoses; [|injection Hrun as <- <-; left; reflexivity].
  unfold mbind at 1, on_world at 1 in Hrun.
  simpl fst in Hrun; simpl snd in Hrun.
  destruct (random_choice_value diagnoses w2) as [[diagnosis|e] w3]
    eqn:Hdiagnosis; [|injection Hrun as <- <-; left; reflexivity].
  rewrite mbind_mlift in Hrun.
  destruct (get_billing_items_for_diagnosis diagnosis billing_items_data)
    as [billing_items|e] eqn:Hbilling;
    [|injection Hrun as <- <-; left; reflexivity].
  rewrite mbind_mlift in Hrun.
  destruct (row_getitem clinic "name") as [clinic_name|e] eqn:Hname;
    [|injection Hrun as <- <-; left; reflexivity].
  rewrite mbind_mlift in Hrun.
  destruct (py_getitem designs clinic_name) as [design|e] eqn:Hdesign;
    [|injection Hrun as <- <-; left; reflexivity].
  injection Hrun as <- <-.
  right. eexists. split; [reflexivity|].
  unfold queued_for. simpl.
  split; [reflexivity|]. split; [reflexivity|].
  split; [exact (random_choice_ret _ _ _ _ Hclinic)|].
  split; [exact (random_choice_ret _ _ _ _ Hdoctor)|].
  split; [exact Hknown|]. split.
  - exists diagnoses. split; [exact Hdiagnoses|]. intros l ->.
    exact (random_choice_value_ret _ _ _ _ Hdiagnosis).
  - split; [exact Hbilling|]. exists clinic_name.
    split; [apply row_getitem_ret, Hname|exact Hdesign].
Qed.

(** The tasks a loop queues, with the slots they come from: no slot
    comes twice. *)
Lemma for_range_from_queue (P : nat -> task -> Prop)
    (body : nat -> M (world * list task) unit) :
  (forall i, appends_at_most (P i) (body i)) ->
  forall n start s,
  exists new slots,
    snd (snd (for_range_from start n body s)) = (snd s ++ new)%list
    /\ Forall2 P slots new
    /\ NoDup slots
    /\ Forall (fun i => (start <= i < start + n)%nat) slots.
Proof.
  intros Hbody. induction n as [|n IH]; intros start s; simpl.
  - exists [], []. rewrite app_nil_r. repeat split; constructor.
  - unfold mbind. specialize (Hbody start s).
    destruct (body start s) as [[[]|e] s1]; simpl in Hbody.
    + destruct (IH (S start) s1) as (new & slots & Hnew & Hall & Hsorted
                                     & Hrange).
      assert (Hrange' : Forall (fun i => (start <= i < start + S n)%nat) slots).
      { eapply Forall_impl; [exact Hrange|]. simpl. intros; lia. }
      destruct Hbody as [Hq|(t & Hq & Ht)].
      * exists new, slots. rewrite Hnew, Hq. auto.
      * exists (t :: new), (start :: slots). rewrite Hnew, Hq, <- app_assoc.
        split; [reflexivity|]. split; [constructor; assumption|].
        split; [|constructor; [lia|exact Hrange']].
        constructor; [|exact Hsorted].
        intros Hin. rewrite Forall_forall in Hrange.
        specialize (Hrange start Hin). lia.
    + simpl. destruct Hbody as [Hq|(t & Hq & Ht)].
      * exists [], []. rewrite app_nil_r. repeat split; auto; constructor.
      * exists [t], [start]. split; [exact Hq|].
        split; [repeat constructor; exact Ht|].
        split; [repeat constructor; apply not_elem_of_nil|].
        repeat constructor; lia.
Qed.

Lemma queued_outputs (P : nat -> task -> Prop) (stem : string)
    (slots : list nat) (new : list task) :
  (forall i t, P i t -> t_output t = claim_path stem i) ->
  Forall2 P slots new ->
  t_output <$> new = claim_path stem <$> slots.
Proof.
  intros HP. induction 1 as [|i t slots new Ht _ IH]; [reflexivity|].
  rewrite !fmap_cons, (HP i t Ht), IH. reflexivity.
Qed.

Lemma claim_paths_NoDup (stem : string) (slots : list nat) :
  stem <> "" -> NoDup slots -> NoDup (claim_path stem <$> slots).
Proof.
  intros Hstem. induction 1 as [|i slots Hnotin _ IH]; simpl.
  - constructor.
  - constructor; [|exact IH]. intros Hin.
    apply list_elem_of_fmap in Hin. destruct Hin as (j & Heq & Hj).
    apply (claim_path_inj stem i j Hstem) in Heq. subst j. exact (Hnotin Hj).
Qed.

Lemma legit_path_not_fraud (i j : nat) :
  claim_path "legit_claim_" i <> claim_path "fraud_claim_" j.
Proof. unfold claim_path, os_path_join. simpl. discriminate. Qed.

(** The two loops, run one after the other on a queue. *)
Lemma claim_loops_queue (n m : nat) clinics_info doctors_info
    specialties_diseases designs billing_items_data
    (s : world * list task) :
  exists legit fraud legit_slots fraud_slots,
    snd (snd ((claim_loop "legitimate" "legit_claim_" n clinics_info
                 doctors_info specialties_diseases designs
                 billing_items_data ;;
               claim_loop "fraudulent" "fraud_claim_" m clinics_info
                 doctors_info specialties_diseases designs
                 billing_items_data) s))
    = (snd s ++ legit ++ fraud)%list
    /\ Forall2 (queued_for "legitimate" "legit_claim_" clinics_info
                  doctors_info specialties_diseases designs
                  billing_items_data) legit_slots legit
    /\ Forall2 (queued_for "fraudulent" "fraud_claim_" clinics_info
                  doctors_info specialties_diseases designs
                  billing_items_data) fraud_slots fraud
    /\ NoDup legit_slots /\ NoDup fraud_slots
    /\ Forall (fun i => (i < n)%nat) legit_slots
    /\ Forall (fun i => (i < m)%nat) fraud_slots.
Proof.
  unfold claim_loop, for_range.
  destruct (for_range_from_queue _ _
              (claim_slot_queues "legitimate" "legit_claim_" clinics_info
                 doctors_info specialties_diseases designs
                 billing_items_data) n 0%nat s)
    as (legit & legit_slots & Hlegit & Hall & Hsorted & Hrange).
  assert (Hrange' : Forall (fun i => (i < n)%nat) legit_slots).
  { eapply Forall_impl; [exact Hrange|]. simpl. intros; lia. }
  unfold mbind at 1.
  destruct (for_range_from 0 n _ s) as [[[]|e] s1]; simpl in Hlegit.
  - destruct (for_range_from_queue _ _
                (claim_slot_queues "fraudulent" "fraud_claim_" clinics_info
                   doctors_info specialties_diseases designs
                   billing_items_data) m 0%nat s1)
      as (fraud & fraud_slots & Hfraud & Hall2 & Hsorted2 & Hrange2).
    exists legit, fraud, legit_slots, fraud_slots.
    rewrite Hfraud, Hlegit, <- app_assoc. repeat split; auto.
    eapply Forall_impl; [exact Hrange2|]. simpl. intros; lia.
  - exists legit, [], legit_slots, []. simpl. rewrite app_nil_r.
    repeat split; auto; constructor.
Qed.

(** What [main_submit] leaves in the queue: nothing when loading fails,
    otherwise what the two loops queue from the loaded data. *)
Lemma main_submit_queue (n m : nat) (w : world) :
  snd (snd (main_submit n m (w, []))) = []
  \/ exists clinics_info doctors_info specialties_diseases designs
            billing_items_data w1 w2 legit fraud legit_slots fraud_slots,
       load_data w = (Ret (clinics_info, doctors_info, specialties_diseases), w)
       /\ load_or_create_designs clinics_info w = (Ret designs, w1)
       /\ load_billing_items w1 = (Ret billing_items_data, w2)
       /\ snd (snd (main_submit n m (w, []))) = (legit ++ fraud)%list
       /\ Forall2 (queued_for "legitimate" "legit_claim_" clinics_info
                     doctors_info specialties_diseases designs
                     billing_items_data) legit_slots legit
       /\ Forall2 (queued_for "fraudulent" "fraud_claim_" clinics_info
                     doctors_info specialties_diseases designs
                     billing_items_data) fraud_slots fraud
       /\ NoDup legit_slots /\ NoDup fraud_slots
       /\ Forall (fun i => (i < n)%nat) legit_slots
       /\ Forall (fun i => (i < m)%nat) fraud_slots.
Proof.
  destruct (main_submit n m (w, [])) as [r s'] eqn:Hrun.
  unfold main_submit in Hrun. unfold mbind at 1, on_world at 1 in Hrun.
  simpl fst in Hrun; simpl snd in Hrun.
  destruct (load_data_cases w) as [(data & _ & Hload)|(e & _ & Hload)];
    rewrite Hload in Hrun |- *; [|injection Hrun as <- <-; left; reflexivity].
  destruct data as [[clinics_info doctors_info] specialties_diseases].
  cbv zeta in Hrun. simpl fst in Hrun; simpl snd in Hrun.
  unfold mbind at 1, on_world at 1 in Hrun.
  simpl fst in Hrun; simpl snd in Hrun.
  destruct (load_or_create_designs clinics_info w) as [[designs|e] w1]
    eqn:Hdesigns; [|injection Hrun as <- <-; left; reflexivity].
  unfold mbind at 1, on_world at 1 in Hrun.
  simpl fst in Hrun; simpl snd in Hrun.
  destruct (load_billing_items w1) as [[billing_items_data|e] w2]
    eqn:Hbilling; [|injection Hrun as <- <-; left; reflexivity].
  right.
  destruct (claim_loops_queue n m clinics_info doctors_info
              specialties_diseases designs billing_items_data (w2, []))
    as (legit & fraud & legit_slots & fraud_slots & Hq & Hrest).
  rewrite Hrun in Hq.
  exists clinics_info, doctors_info, specialties_diseases, designs,
    billing_items_data, w1, w2, legit, fraud, legit_slots, fraud_slots.
  split; [reflexivity|]. split; [exact Hdesigns|]. split; [exact Hbilling|].
  split; [exact Hq|exact Hrest].
Qed.

(** X13.  No two queued claims share a destination: whatever the counts
    and the inputs, the paths of the tasks the main program queues are
    pairwise distinct, so no claim overwrites another. *)
Theorem queued_outputs_are_distinct (legitimate_count fraudulent_count : nat)
    (w : world) :
  NoDup (t_output <$>
           snd (snd (main_submit legitimate_count fraudulent_count (w, [])))).
Proof.
  destruct (main_submit_queue legitimate_count fraudulent_count w)
    as [->|(ci & di & sd & ds & bd & w1 & w2 & legit & fraud & ls & fs'
            & _ & _ & _ & -> & Hlegit & Hfraud & Hs1 & Hs2 & _ & _)].
  - constructor.
  - rewrite fmap_app.
    rewrite (queued_outputs _ "legit_claim_" ls legit
               (fun i t Ht => proj1 Ht) Hlegit).
    rewrite (queued_outputs _ "fraud_claim_" fs' fraud
               (fun i t Ht => proj1 Ht) Hfraud).
    apply NoDup_app. split; [|split].
    + apply claim_paths_NoDup; [discriminate|exact Hs1].
    + intros p Hp Hp'. apply list_elem_of_fmap in Hp, Hp'.
      destruct Hp as (i & -> & _). destruct Hp' as (j & Heq & _).
      exact (legit_path_not_fraud i j Heq).
    + apply claim_paths_NoDup; [discriminate|exact Hs2].
Qed.

(** X14.  Every task the main program queues was built from the loaded
    data: its clinic is a row of the loaded clinics and has a name, its
    doctor is a loaded doctor whose specialty is a key of the specialty
    table, its design is the entry of the design store under the clinic's
    name, and its billing rows are those of its diagnosis: at least one
    row, each of five cells.  Its destination is the path of a slot below
    the requested count, with the stem of its kind. *)
Theorem queued_tasks_come_from_loaded_data
    (legitimate_count fraudulent_count : nat) (w : world) (t : task) :
  In t (snd (snd (main_submit legitimate_count fraudulent_count (w, [])))) ->
  exists clinics_info doctors_info specialties_diseases designs
         billing_items_data w1 w2 name,
    load_data w = (Ret (clinics_info, doctors_info, specialties_diseases), w)
    /\ load_or_create_designs clinics_info w = (Ret designs, w1)
    /\ load_billing_items w1 = (Ret billing_items_data, w2)
    /\ In (t_clinic t) clinics_info
    /\ In (t_doctor t) doctors_info
    /\ py_contains specialties_diseases (snd (t_doctor t)) = Ret true
    /\ t_clinic t !! "name" = Some name
    /\ py_getitem designs name = Ret (t_design t)
    /\ get_billing_items_for_diagnosis (t_diagnosis t) billing_items_data
       = Ret (t_billing t)
    /\ t_billing t <> []
    /\ Forall (fun row => length row = 5%nat) (t_billing t)
    /\ ((t_kind t = "legitimate"
         /\ exists i, (i < legitimate_count)%nat
                      /\ t_output t = claim_path "legit_claim_" i)
        \/ (t_kind t = "fraudulent"
            /\ exists i, (i < fraudulent_count)%nat
                         /\ t_output t = claim_path "fraud_claim_" i)).
Proof.
  intros Hin.
  destruct (main_submit_queue legitimate_count fraudulent_count w)
    as [Hq|(ci & di & sd & ds & bd & w1 & w2 & legit & fraud & ls & fs'
            & Hload & Hdesigns & Hbilling & Hq & Hlegit & Hfraud & _ & _
            & Hr1 & Hr2)];
    rewrite Hq in Hin; [destruct Hin|].
  assert (Htask : exists kind stem count i,
            (i < count)%nat
            /\ queued_for kind stem ci di sd ds bd i t
            /\ ((kind = "legitimate" /\ stem = "legit_claim_"
                 /\ count = legitimate_count)
                \/ (kind = "fraudulent" /\ stem = "fraud_claim_"
                    /\ count = fraudulent_count))).
  { apply in_app_or in Hin. destruct Hin as [Hin|Hin].
    - apply (proj2 (list_elem_of_In _ _)) in Hin.
      apply list_elem_of_lookup_1 in Hin. destruct Hin as [k Hk].
      destruct (Forall2_lookup_r _ _ _ _ _ Hlegit Hk) as (i & Hi & Ht).
      exists "legitimate", "legit_claim_", legitimate_count, i.
      split; [|split; [exact Ht|left; auto]].
      rewrite Forall_forall in Hr1. apply Hr1.
      apply list_elem_of_lookup. eauto.
    - apply (proj2 (list_elem_of_In _ _)) in Hin.
      apply list_elem_of_lookup_1 in Hin. destruct Hin as [k Hk].
      destruct (Forall2_lookup_r _ _ _ _ _ Hfraud Hk) as (i & Hi & Ht).
      exists "fraudulent", "fraud_claim_", fraudulent_count, i.
      split; [|split; [exact Ht|right; auto]].
      rewrite Forall_forall in Hr2. apply Hr2.
      apply list_elem_of_lookup. eauto. }
  destruct Htask as (kind & stem & count & i & Hi & Htask & Hkind).
  destruct Htask as (Hout & Hk & Hclinic & Hdoctor & Hknown & _ & Hrows
                     & name & Hname & Hdesign).
  exists ci, di, sd, ds, bd, w1, w2, name.
  repeat (split; [assumption|]).
  split; [|split].
  - intros Hnil. rewrite Hnil in Hrows.
    exact (billing_items_not_nil _ _ Hrows).
  - destruct (billing_items_shape _ _ _ Hrows) as [Hshape _].
    eapply Forall_impl; [exact Hshape|].
    intros row (? & ? & ? & ? & ? & ->). reflexivity.
  - destruct Hkind as [(-> & -> & ->)|(-> & -> & ->)]; [left|right];
      (split; [exact Hk|exists i; split; [exact Hi|exact Hout]]).
Qed.

End BatchExtra.

(** ** The main program as a whole *)

Section MainExtra.
Context `{Runtime}.

#[local] Instance keeps_files_but_refl path : Reflexive (keeps_files_but path).
Proof. intros w p _. reflexivity. Qed.

#[local] Instance keeps_files_but_trans path
  : Transitive (keeps_files_but path).
Proof.
  intros w1 w2 w3 H12 H23 p Hp. rewrite (H23 p Hp). apply H12, Hp.
Qed.

#[local] Instance on_fst_files_refl {C} path
  : Reflexive (@on_fst C (keeps_files_but path)).
Proof. intros s. unfold on_fst. reflexivity. Qed.

#[local] Instance on_fst_files_trans {C} path
  : Transitive (@on_fst C (keeps_files_but path)).
Proof. intros s1 s2 s3. unfold on_fst. apply transitivity. Qed.

Lemma same_files_keeps path (w w' : world) :
  fs w' = fs w -> keeps_files_but path w w'.
Proof. intros Heq p _. rewrite Heq. reflexivity. Qed.

Lemma preserves_on_world {C A} (R : world -> world -> Prop) (m : M world A) :
  preserves R m -> preserves (@on_fst C R) (on_world m).
Proof.
  intros Hm [w c]. unfold on_fst, on_world. simpl fst. specialize (Hm w).
  destruct (m w) as [r w']. exact Hm.
Qed.

Lemma random_choice_fs {A} (l : list A) (w : world) :
  fs (snd (random_choice l w)) = fs w.
Proof.
  destruct l as [|x l]; [reflexivity|].
  unfold random_choice, mbind, draw_rnd. destruct (rnd w); reflexivity.
Qed.

Lemma random_choice_value_fs (v : value) (w : world) :
  fs (snd (random_choice_value v w)) = fs w.
Proof.
  destruct v; try reflexivity; simpl; try apply random_choice_fs.
  destruct (map_to_list d); [reflexivity|].
  unfold mbind, draw_rnd. destruct (rnd w); reflexivity.
Qed.

Lemma random_choice_files {A} path (l : list A) :
  preserves (keeps_files_but path) (random_choice l).
Proof. intros w. apply same_files_keeps, random_choice_fs. Qed.

Lemma new_design_files path (c : gmap string string)
    (designs : gmap string value) :
  preserves (keeps_files_but path) (new_design c designs).
Proof.
  unfold new_design.
  apply preserves_mbind;
    [typeclasses eauto|apply preserves_mlift; typeclasses eauto|intros ?].
  do 3 (apply preserves_mbind;
        [typeclasses eauto|apply random_choice_files|intros ?]).
  intros w. reflexivity.
Qed.

Lemma create_designs_files path (clinics_info : list (gmap string string)) :
  forall designs,
    preserves (keeps_files_but path) (create_designs clinics_info designs).
Proof.
  induction clinics_info as [|c rest IH]; intros designs; simpl.
  - intros w. reflexivity.
  - apply preserves_mbind;
      [typeclasses eauto|apply new_design_files|intros ?; apply IH].
Qed.

Lemma load_or_create_designs_files (clinics_info : list (gmap string string))
    (w : world) :
  keeps_files_but design_file w
    (snd (load_or_create_designs clinics_info w)).
Proof.
  unfold load_or_create_designs. rewrite mbind_mget.
  destruct (fs w !! design_file) as [text|].
  - destruct (json_decode text); reflexivity.
  - revert w. apply preserves_mbind;
      [typeclasses eauto|apply create_designs_files|intros designs].
    apply preserves_mbind; [typeclasses eauto| |intros ? w; reflexivity].
    intros w. unfold write_file. destruct (writable design_file); simpl.
    + intros p Hp. simpl. apply lookup_insert_ne. congruence.
    + reflexivity.
Qed.

Lemma load_billing_items_fs (w : world) :
  fs (snd (load_billing_items w)) = fs w.
Proof.
  unfold load_billing_items, mtry. unfold mbind. rewrite read_json_eq.
  destruct (fs w !! billing_json) as [text|]; [|reflexivity].
  destruct (json_decode text) as [v|]; [|reflexivity].
  destruct v; reflexivity.
Qed.

Lemma claim_slot_files kind stem clinics_info doctors_info
    specialties_diseases designs billing_items_data i :
  preserves (on_fst (keeps_files_but design_file))
    (claim_slot kind stem clinics_info doctors_info specialties_diseases
       designs billing_items_data i).
Proof.
  unfold claim_slot.
  apply preserves_mbind; [typeclasses eauto| |intros clinic].
  { apply preserves_on_world. intros w.
    apply same_files_keeps, random_choice_fs. }
  apply preserves_mbind; [typeclasses eauto| |intros doctor].
  { apply preserves_on_world. intros w.
    apply same_files_keeps, random_choice_fs. }
  apply preserves_mbind;
    [typeclasses eauto|apply preserves_mlift; typeclasses eauto|].
  intros [|]; [|intros s; reflexivity].
  apply preserves_mbind;
    [typeclasses eauto|apply preserves_mlift; typeclasses eauto|intros ?].
  apply preserves_mbind; [typeclasses eauto| |intros ?].
  { apply preserves_on_world. intros w.
    apply same_files_keeps, random_choice_value_fs. }
  do 3 (apply preserves_mbind;
        [typeclasses eauto|apply preserves_mlift; typeclasses eauto
        |intros ?]).
  intros s. unfold on_fst. simpl. reflexivity.
Qed.

Lemma for_range_from_preserves {St} (R : St -> St -> Prop)
    `{!Reflexive R} `{!Transitive R} (body : nat -> M St unit) :
  (forall i, preserves R (body i)) ->
  forall n start, preserves R (for_range_from start n body).
Proof.
  intros Hbody. induction n as [|n IH]; intros start; simpl.
  - intros s. reflexivity.
  - apply preserves_mbind; [assumption|apply Hbody|intros _; apply IH].
Qed.

(** Loading and queueing writes at most the design file. *)
Lemma main_submit_files (n m : nat) :
  preserves (on_fst (keeps_files_but design_file)) (main_submit n m).
Proof.
  unfold main_submit.
  apply preserves_mbind; [typeclasses eauto| |intros data].
  { apply preserves_on_world. intros w. apply same_files_keeps.
    destruct (load_data_cases w) as [(? & _ & ->)|(? & _ & ->)]; reflexivity. }
  cbv zeta.
  apply preserves_mbind; [typeclasses eauto| |intros designs].
  { apply preserves_on_world. intros w. apply load_or_create_designs_files. }
  apply preserves_mbind; [typeclasses eauto| |intros billing_items_data].
  { apply preserves_on_world. intros w.
    apply same_files_keeps, load_billing_items_fs. }
  apply preserves_mbind; [typeclasses eauto| |intros _];
    unfold claim_loop, for_range;
    apply for_range_from_preserves; try typeclasses eauto;
    intros i; apply claim_slot_files.
Qed.

Lemma run_tasks_returns (ts : list task) (w : world) :
  fst (run_tasks ts w) = Ret tt.
Proof.
  revert w. induction ts as [|t ts IH]; intros w; [reflexivity|].
  simpl. unfold mbind.
  destruct (generate_claim_pdf_returns (t_clinic t) (t_doctor t)
              (t_diagnosis t) (t_kind t) (t_output t) (t_design t)
              (t_billing t) w) as (w' & Hrun).
  fold (run_task t) in Hrun. rewrite Hrun. apply IH.
Qed.

(** X16.  The main program writes only the log, the design file, logo
    files and the claim files of its slots: any other file, its four input
    files among them, is after the run as it was before. *)
Theorem main_program_writes_only_its_outputs
    (legitimate_count fraudulent_count : nat) (w : world) (p : string) :
  p <> log_file ->
  p <> design_file ->
  (forall name, p <> logo_path name) ->
  (forall i, (i < legitimate_count)%nat -> p <> claim_path "legit_claim_" i) ->
  (forall i, (i < fraudulent_count)%nat -> p <> claim_path "fraud_claim_" i) ->
  fs (snd (main_program legitimate_count fraudulent_count w)) !! p
  = fs w !! p.
Proof.
  intros _ Hdesign Hlogo Hlegit Hfraud.
  pose proof (main_submit_files legitimate_count fraudulent_count (w, []))
    as Hsubmit.
  assert (Hqueue :
    Forall (fun t => t_output t <> p)
      (snd (snd (main_submit legitimate_count fraudulent_count (w, []))))).
  { destruct (main_submit_queue legitimate_count fraudulent_count w)
      as [->|(ci & di & sd & ds & bd & w1 & w2 & legit & fraud & ls & fs'
              & _ & _ & _ & -> & Hl & Hf & _ & _ & Hr1 & Hr2)];
      [constructor|].
    apply Forall_app. split.
    - clear Hf. induction Hl as [|i t ls legit Ht _ IH]; constructor.
      + destruct Ht as (-> & _). apply not_eq_sym, Hlegit.
        apply (Forall_inv Hr1).
      + apply IH. apply (Forall_inv_tail Hr1).
    - clear Hl. induction Hf as [|i t fs' fraud Ht _ IH]; constructor.
      + destruct Ht as (-> & _). apply not_eq_sym, Hfraud.
        apply (Forall_inv Hr2).
      + apply IH. apply (Forall_inv_tail Hr2). }
  unfold main_program, mbind.
  destruct (main_submit legitimate_count fraudulent_count (w, []))
    as [r [w1 futures]]. unfold on_fst in Hsubmit. simpl in Hsubmit, Hqueue.
  pose proof (run_tasks_frame futures w1 p Hqueue Hlogo) as Hframe.
  pose proof (run_tasks_returns futures w1) as Hrun.
  destruct (run_tasks futures w1) as [r2 w2]. simpl in Hrun, Hframe.
  subst r2. rewrite <- (Hsubmit p Hdesign), <- Hframe.
  destruct r as [[]|e]; reflexivity.
Qed.

(** X17.  A slot that draws a clinic whose name is not a key of the design
    store, for a doctor with a known specialty, a diagnosis and billing
    rows, raises [KeyError] of that name and queues nothing: a design
    store that is out of date is found out only at this point. *)
Theorem clinic_missing_from_design_store_raises
    (kind stem : string) (clinics_info : list (gmap string string))
    (doctors_info : list (string * string))
    (specialties_diseases billing_items_data : value)
    (store : gmap string value) (i : nat) (s : world * list task)
    (clinic : gmap string string) (doctor : string * string)
    (diagnoses diagnosis : value) (billing_items : list (list value))
    (name : string) (w1 w2 w3 : world) :
  random_choice clinics_info (fst s) = (Ret clinic, w1) ->
  random_choice doctors_info w1 = (Ret doctor, w2) ->
  py_contains specialties_diseases (snd doctor) = Ret true ->
  py_getitem specialties_diseases (snd doctor) = Ret diagnoses ->
  random_choice_value diagnoses w2 = (Ret diagnosis, w3) ->
  get_billing_items_for_diagnosis diagnosis billing_items_data
  = Ret billing_items ->
  clinic !! "name" = Some name ->
  store !! name = None ->
  claim_slot kind stem clinics_info doctors_info specialties_diseases
    (VDict store) billing_items_data i s
  = (Raise (KeyError name), (w3, snd s)).
Proof.
  intros Hclinic Hdoctor Hknown Hdiagnoses Hdiagnosis Hbilling Hname Hstore.
  unfold claim_slot.
  unfold mbind at 1, on_world at 1. rewrite Hclinic.
  unfold mbind at 1, on_world at 1. simpl fst; simpl snd. rewrite Hdoctor.
  rewrite mbind_mlift, Hknown, mbind_mlift, Hdiagnoses.
  unfold mbind at 1, on_world at 1. simpl fst; simpl snd. rewrite Hdiagnosis.
  rewrite mbind_mlift, Hbilling, mbind_mlift. unfold row_getitem.
  rewrite Hname, mbind_mlift. simpl py_getitem. rewrite Hstore. reflexivity.
Qed.

(** X18.  A design file that is there but is not JSON is never replaced:
    [load_or_create_designs] raises and leaves the world as it is, and a
    main program whose inputs load stops there with the fatal error and
    no claim. *)
Theorem corrupt_design_file_is_fatal (w : world) (text : string) :
  fs w !! design_file = Some text ->
  json_decode text = None ->
  (forall clinics_info,
     load_or_create_designs clinics_info w = (Raise JSONDecodeError, w))
  /\ (forall data n m,
        load_data w = (Ret data, w) ->
        main_submit n m (w, []) = (Raise JSONDecodeError, (w, []))
        /\ main_program n m w
           = (Ret tt, add_log (FatalError JSONDecodeError) w)).
Proof.
  intros Hfile Hjson.
  assert (Hload : forall clinics_info,
            load_or_create_designs clinics_info w
            = (Raise JSONDecodeError, w)).
  { intros clinics_info. unfold load_or_create_designs.
    rewrite mbind_mget, Hfile, Hjson. reflexivity. }
  split; [exact Hload|]. intros data n m Hdata.
  assert (Hsubmit : main_submit n m (w, [])
                    = (Raise JSONDecodeError, (w, []))).
  { unfold main_submit. unfold mbind at 1, on_world at 1. simpl fst.
    rewrite Hdata. unfold mbind at 1, on_world at 1. simpl fst.
    rewrite Hload. reflexivity. }
  split; [exact Hsubmit|]. unfold main_program. rewrite Hsubmit. reflexivity.
Qed.

(** X19.  Without a design file, one clinic row without a 'name' column
    makes [load_or_create_designs] raise [KeyError('name')]; nothing is
    written, so no design file is left behind, and nothing is logged. *)
Theorem design_store_needs_clinic_names
    (clinics_info : list (gmap string string)) (w : world) :
  fs w !! design_file = None ->
  Exists (fun c : gmap string string => c !! "name" = None) clinics_info ->
  exists w',
    load_or_create_designs clinics_info w = (Raise (KeyError "name"), w')
    /\ fs w' = fs w /\ log w' = log w.
Proof.
  intros Hfile Hbad.
  assert (Hcreate : forall designs w0,
            exists w',
              create_designs clinics_info designs w0
              = (Raise (KeyError "name"), w')
              /\ fs w' = fs w0 /\ log w' = log w0).
  { induction Hbad as [c rest Hc|c rest _ IH]; intros designs w0; simpl.
    - unfold mbind, new_design. rewrite mbind_mlift. unfold row_getitem.
      rewrite Hc. eauto.
    - destruct (c !! "name") as [name|] eqn:Hname.
      + destruct (new_design_spec c name designs w0 Hname)
          as (d & w1 & Hnew & _ & Hfs1 & Hlog1).
        unfold mbind. rewrite Hnew.
        destruct (IH (<[name := d]> designs) w1) as (w' & Hrun & Hfs & Hlog).
        exists w'. split; [exact Hrun|]. split; congruence.
      + unfold mbind, new_design. rewrite mbind_mlift. unfold row_getitem.
        rewrite Hname. eauto. }
  destruct (Hcreate ∅ w) as (w' & Hrun & Hfs & Hlog).
  exists w'. split; [|auto].
  unfold load_or_create_designs. rewrite mbind_mget, Hfile.
  unfold mbind at 1. rewrite Hrun. reflexivity.
Qed.

End MainExtra.

(** ** Saving the scraped records: failures *)

Section SaveExtra.
Context `{Runtime}.

Lemma write_dict_rows_partial (path : string) (fieldnames : list string)
    (good : list record) (bad : record) (rest : list record)
    (rows : list (list string)) (e : exn) :
  omapM (dict_to_row fieldnames) good = Ret rows ->
  dict_to_row fieldnames bad = Raise e ->
  forall written (w : world),
    fs w !! path = Some (csv_encode written) ->
    exists w',
      write_dict_rows path fieldnames written (good ++ bad :: rest) w
      = (Raise e, w')
      /\ fs w' = <[path := csv_encode (written ++ rows)%list]> (fs w)
      /\ log w' = log w.
Proof.
  revert rows. induction good as [|d good IH]; intros rows Hrows Hbad
    written w Hfile; simpl in Hrows |- *.
  - injection Hrows as <-. rewrite mbind_mlift, Hbad. exists w.
    split; [reflexivity|]. rewrite app_nil_r.
    split; [symmetry; apply insert_id, Hfile|reflexivity].
  - destruct (dict_to_row fieldnames d) as [row|] eqn:Hrow; [|discriminate].
    destruct (omapM (dict_to_row fieldnames) good) as [rows'|] eqn:Hgood;
      [|discriminate].
    simpl in Hrows. injection Hrows as <-.
    rewrite mbind_mlift. unfold mbind at 1, mmodify at 1.
    destruct (IH rows' eq_refl Hbad (written ++ [row])%list
                (set_fs (<[path := csv_encode (written ++ [row])%list]>
                           (fs w)) w))
      as (w' & Hrun & Hfs & Hlog).
    { apply lookup_insert_eq. }
    exists w'. split; [exact Hrun|]. split; [|exact Hlog].
    rewrite Hfs. simpl. rewrite insert_insert_eq, <- app_assoc. reflexivity.
Qed.

Lemma write_dict_rows_frame (path : string) (fieldnames : list string)
    (details : list record) :
  forall written (w : world),
    keeps_files_but path w
      (snd (write_dict_rows path fieldnames written details w))
    /\ log (snd (write_dict_rows path fieldnames written details w)) = log w.
Proof.
  induction details as [|d details IH]; intros written w; simpl.
  - split; [intros p _; reflexivity|reflexivity].
  - rewrite mbind_mlift.
    destruct (dict_to_row fieldnames d) as [row|e];
      [|split; [intros p _; reflexivity|reflexivity]].
    unfold mbind, mmodify.
    destruct (IH (written ++ [row])%list
                (set_fs (<[path := csv_encode (written ++ [row])%list]>
                           (fs w)) w)) as [Hfiles Hlog].
    split; [|rewrite Hlog; reflexivity].
    intros p Hp. rewrite (Hfiles p Hp). simpl. apply lookup_insert_ne.
    congruence.
Qed.

(** X20.  [save_to_csv] never raises, whatever the records and whether or
    not the file can be written; it touches no file other than the clinic
    CSV, and it adds exactly one log record: the warning for no records,
    the success message, or the error it caught. *)
Theorem save_to_csv_never_raises (hospital_details : list record)
    (w : world) :
  exists w' entry,
    save_to_csv hospital_details w = (Ret tt, w')
    /\ (forall p, p <> clinics_csv -> fs w' !! p = fs w !! p)
    /\ log w' = (log w ++ [entry])%list
    /\ (entry = NoHospitalDetails /\ hospital_details = [] /\ fs w' = fs w
        \/ entry = HospitalsSaved /\ hospital_details <> []
        \/ exists e, entry = CsvSaveError e /\ hospital_details <> []).
Proof.
  destruct hospital_details as [|first rest].
  - exists (add_log NoHospitalDetails w), NoHospitalDetails.
    split; [reflexivity|]. split; [reflexivity|]. split; [reflexivity|].
    left. auto.
  - unfold save_to_csv, mtry, write_file.
    destruct (writable clinics_csv).
    + unfold mbind at 1, mmodify at 1. unfold mbind at 1, mmodify at 1.
      set (w1 := set_fs _ (set_fs _ w)).
      destruct (write_dict_rows_frame clinics_csv (record_keys first)
                  (first :: rest) [record_keys first] w1) as [Hfiles Hlog].
      unfold mbind at 1.
      destruct (write_dict_rows clinics_csv (record_keys first)
                  [record_keys first] (first :: rest) w1) as [[[]|e] w2];
        simpl in Hfiles, Hlog.
      * exists (add_log HospitalsSaved w2), HospitalsSaved.
        split; [reflexivity|]. split; [|split].
        -- intros p Hp. simpl. rewrite (Hfiles p Hp). subst w1. simpl.
           rewrite !lookup_insert_ne by congruence. reflexivity.
        -- simpl. rewrite Hlog. reflexivity.
        -- right. left. split; [reflexivity|discriminate].
      * exists (add_log (CsvSaveError e) w2), (CsvSaveError e).
        split; [reflexivity|]. split; [|split].
        -- intros p Hp. simpl. rewrite (Hfiles p Hp). subst w1. simpl.
           rewrite !lookup_insert_ne by congruence. reflexivity.
        -- simpl. rewrite Hlog. reflexivity.
        -- right. right. exists e. split; [reflexivity|discriminate].
    + exists (add_log (CsvSaveError (OSError clinics_csv)) w),
        (CsvSaveError (OSError clinics_csv)).
      split; [reflexivity|]. split; [reflexivity|]. split; [reflexivity|].
      right. right. eexists. split; [reflexivity|discriminate].
Qed.

Lemma dict_to_row_own_keys (r : record) :
  exists row, dict_to_row (record_keys r) r = Ret row.
Proof.
  unfold dict_to_row.
  assert (Hall : forallb (fun kv : string * option string =>
                            existsb (String.eqb (fst kv)) (record_keys r)) r
                 = true).
  { apply forallb_forall. intros kv Hin. apply existsb_exists.
    exists (fst kv). split; [|apply String.eqb_refl].
    unfold record_keys. apply in_map_iff. exists kv. auto. }
  rewrite Hall. eauto.
Qed.

(** X21.  A record with a field outside the columns of the first record
    stops the writing: the error is caught and logged, and the clinic CSV
    is left holding the header and the rows of the records before that
    one; nothing marks it as incomplete. *)
Theorem save_to_csv_stops_at_foreign_field
    (first : record) (good : list record) (bad : record)
    (rest : list record) (rows : list (list string)) (e : exn) (w : world) :
  writable clinics_csv = true ->
  omapM (dict_to_row (record_keys first)) (first :: good) = Ret rows ->
  dict_to_row (record_keys first) bad = Raise e ->
  e = ValueError "dict contains fields not in fieldnames"
  /\ exists w',
       save_to_csv (first :: good ++ bad :: rest) w = (Ret tt, w')
       /\ fs w' = <[clinics_csv := csv_encode (record_keys first :: rows)]>
                    (fs w)
       /\ log w' = (log w ++ [CsvSaveError e])%list.
Proof.
  intros Hwrite Hrows Hbad. split.
  { unfold dict_to_row in Hbad. destruct (forallb _ bad); [discriminate|].
    injection Hbad as <-. reflexivity. }
  set (keys := record_keys first) in *.
  set (w1 := set_fs (<[clinics_csv := csv_encode [keys]]>
                       (<[clinics_csv := csv_encode []]> (fs w))) w).
  destruct (write_dict_rows_partial clinics_csv keys (first :: good) bad rest
              rows e Hrows Hbad [keys] w1) as (w' & Hrun & Hfs & Hlog).
  { apply lookup_insert_eq. }
  exists (add_log (CsvSaveError e) w'). split; [|split].
  - unfold save_to_csv. fold keys. unfold mtry, write_file.
    rewrite Hwrite. unfold mbind at 1, mmodify at 1.
    unfold mbind at 1, mmodify at 1.
    change (set_fs _ (set_fs _ w)) with w1.
    unfold mbind at 1.
    change (first :: good ++ bad :: rest)
      with ((first :: good) ++ bad :: rest)%list.
    rewrite Hrun. reflexivity.
  - simpl. rewrite Hfs. subst w1. simpl.
    rewrite !insert_insert_eq. reflexivity.
  - simpl. rewrite Hlog. reflexivity.
Qed.

(** X22.  When the output cannot be opened for writing, the clinic
    scraper logs the error and returns with no file written, while the
    doctor scraper lets the error escape: [save_doctors_to_csv] raises
    after its first log record and the script ends there. *)
Theorem unwritable_csv_is_logged_or_raised (w : world) :
  (writable clinics_csv = false ->
   forall first rest,
     save_to_csv (first :: rest) w
     = (Ret tt, add_log (CsvSaveError (OSError clinics_csv)) w))
  /\ (forall filename doctor_data,
        writable filename = false ->
        save_doctors_to_csv doctor_data filename w
        = (Raise (OSError filename),
           add_log (SavingDoctors (length doctor_data)) w))
  /\ (writable doctors_csv = false ->
      forall results,
        doctor_main results w
        = (Raise (OSError doctors_csv),
           add_log (SavingDoctors (length (concat results))) w)).
Proof.
  assert (Hsave : forall filename doctor_data,
            writable filename = false ->
            save_doctors_to_csv doctor_data filename w
            = (Raise (OSError filename),
               add_log (SavingDoctors (length doctor_data)) w)).
  { intros filename doctor_data Hw.
    unfold save_doctors_to_csv, mbind, logging, mmodify, write_file.
    rewrite Hw. reflexivity. }
  split; [|split; [exact Hsave|]].
  - intros Hw first rest. unfold save_to_csv, mtry, write_file.
    rewrite Hw. reflexivity.
  - intros Hw results. apply Hsave, Hw.
Qed.

End SaveExtra.

(** * Properties of the fetching code *)

Section FetchFacts.
Context `{PyInt}.


Lemma site_after_after (urls1 urls2 : list string)
    (entries1 entries2 : list scrape_entry) (st : site) :
  site_after urls2 entries2 (site_after urls1 entries1 st)
  = site_after (urls1 ++ urls2) (entries1 ++ entries2) st.
Proof.
  unfold site_after. simpl.
  rewrite drop_drop, length_app, !app_assoc. reflexivity.
Qed.

Lemma site_logged (entries : list scrape_entry) (st : site) :
  Site (responses st) (requested st) (scrape_log st ++ entries) (cpu_count st)
  = site_after [] entries st.
Proof. unfold site_after. simpl. rewrite app_nil_r. reflexivity. Qed.

(** What one request does to the site. *)
Lemma session_get_eq (url : string) (st : site) :
  session_get url st
  = (match responses st with
     | [] => Raise LibraryError
     | r :: _ => r
     end, site_after [url] [] st).
Proof.
  unfold session_get, site_after. simpl.
  destruct (responses st); rewrite app_nil_r; reflexivity.
Qed.

Lemma scrape_logging_eq (l : scrape_entry) (st : site) :
  scrape_logging l st = (Ret tt, site_after [] [l] st).
Proof. unfold scrape_logging, mmodify. rewrite site_logged. reflexivity. Qed.

Lemma mbind_scrape_logging {A} (l : scrape_entry) (k : unit -> M site A)
    (st : site) :
  mbind (scrape_logging l) k st = k tt (site_after [] [l] st).
Proof. unfold mbind. rewrite scrape_logging_eq. reflexivity. Qed.

Lemma mbind_session_get {A} (url : string) (k : response -> M site A)
    (st : site) :
  mbind (session_get url) k st =
  match responses st with
  | Ret r :: _ => k r (site_after [url] [] st)
  | Raise e :: _ => (Raise e, site_after [url] [] st)
  | [] => (Raise LibraryError, site_after [url] [] st)
  end.
Proof.
  unfold mbind. rewrite session_get_eq.
  destruct (responses st) as [|[r|e] rest]; reflexivity.
Qed.

(** The steps of a fetching function: a log record, the request, the
    handler of its [try] block. *)
Ltac fetch_step :=
  first [ rewrite mbind_scrape_logging
        | rewrite scrape_logging_eq
        | rewrite mbind_mlift
        | rewrite site_after_after ];
  cbv beta iota.

Lemma status_200 (r : response) :
  (status_code r =? 200) = true ->
  r = Response 200 (soup r).
Proof. intros Hs. apply Z.eqb_eq in Hs. destruct r. simpl in *. congruence. Qed.

Lemma next_page_200 (st : site) (r : response)
    (rest : list (outcome response)) :
  responses st = Ret r :: rest ->
  (status_code r =? 200) = true ->
  next_page st (soup r).
Proof.
  intros Hr Hstatus. exists rest. rewrite Hr, <- (status_200 r Hstatus).
  reflexivity.
Qed.

Lemma not_next_page (st : site) (r : response) (rest : list (outcome response))
    (page : html) :
  responses st = Ret r :: rest ->
  (status_code r =? 200) = false ->
  ~ next_page st page.
Proof.
  intros Hr Hstatus [rest' Hpage]. rewrite Hr in Hpage.
  injection Hpage as -> _. discriminate Hstatus.
Qed.

(** ** doctor_scrapper.py *)

Lemma doctor_row_pair (columns row : list string) :
  doctor_row columns = Some row ->
  doctor_pair row /\ take 2 columns = row.
Proof.
  unfold doctor_row. destruct columns as [|n [|s rest]]; try discriminate.
  destruct (String.eqb n "") eqn:Hn; [discriminate|].
  destruct (String.eqb s "") eqn:Hs; [discriminate|].
  simpl. intros [= <-]. split; [|reflexivity].
  exists n, s. apply String.eqb_neq in Hn, Hs. auto.
Qed.

Lemma doctor_rows_pairs (rows : list (list string)) :
  Forall doctor_pair (omap doctor_row rows).
Proof.
  induction rows as [|columns rows IH]; simpl; [constructor|].
  destruct (doctor_row columns) as [row|] eqn:Hrow; [|exact IH].
  constructor; [apply (doctor_row_pair columns row Hrow)|exact IH].
Qed.

(** [fetch_doctors_data], as a case analysis on the answer. *)
Lemma fetch_doctors_data_eq (url : string) (st : site) :
  fetch_doctors_data url st =
  match responses st with
  | [] =>
      (Ret [],
       site_after [url] [FetchingData url; FetchError url LibraryError] st)
  | Raise e :: _ =>
      (Ret [], site_after [url] [FetchingData url; FetchError url e] st)
  | Ret r :: _ =>
      if status_code r =? 200 then
        match doctor_list_result (soup r) with
        | Some table =>
            let doctor_data := omap doctor_row (drop 1 table) in
            (Ret doctor_data,
             site_after [url]
               [FetchingData url; Retrieved url;
                DoctorsFound (length doctor_data) url] st)
        | None =>
            (Ret [],
             site_after [url]
               [FetchingData url; Retrieved url; TableNotFound url] st)
        end
      else
        (Ret [],
         site_after [url]
           [FetchingData url; RetrieveFailed url (status_code r)] st)
  end.
Proof.
  unfold fetch_doctors_data. rewrite mbind_scrape_logging. unfold mtry.
  rewrite mbind_session_get.
  replace (responses (site_after [] [FetchingData url] st))
    with (responses st) by reflexivity.
  destruct (responses st) as [|[r|e] rest]; cbv beta iota.
  - repeat fetch_step. reflexivity.
  - destruct (status_code r =? 200); cbn [negb]; cbv iota.
    + fetch_step. destruct (doctor_list_result (soup r)) as [table|];
        cbv zeta; repeat fetch_step; reflexivity.
    + repeat fetch_step. reflexivity.
  - repeat fetch_step. reflexivity.
Qed.

(** X23.  [fetch_doctors_data] never raises and makes exactly one
    request, for its URL.  From a page answered with status 200 that
    holds the table it returns the first two cells of the table rows
    after the first, in their order, rows with fewer than two cells or
    with an empty name or specialty left out; from a page without the
    table, from an answer with another status and from a request that
    raises it returns no row.  Every row it returns is a pair of a name
    and a specialty, neither empty. *)
Theorem fetch_doctors_data_returns_pairs (url : string) (st : site) :
  exists doctor_data entries,
    fetch_doctors_data url st = (Ret doctor_data, site_after [url] entries st)
    /\ doctor_data = answer_rows (head (responses st))
    /\ Forall doctor_pair doctor_data
    /\ (forall page table,
          next_page st page ->
          doctor_list_result page = Some table ->
          doctor_data = omap doctor_row (drop 1 table))
    /\ (forall page,
          next_page st page -> doctor_list_result page = None ->
          doctor_data = [])
    /\ ((forall page, ~ next_page st page) -> doctor_data = [])
    /\ (forall row, In row doctor_data ->
          exists page table columns,
            next_page st page
            /\ doctor_list_result page = Some table
            /\ In columns (drop 1 table)
            /\ row = take 2 columns).
Proof.
  rewrite fetch_doctors_data_eq.
  destruct (responses st) as [|[r|e] rest] eqn:Hresponses.
  - do 2 eexists. split; [reflexivity|]. split; [reflexivity|].
    split; [constructor|]. split; [|split; [|split]].
    + intros page table [rest' Hpage]. rewrite Hresponses in Hpage.
      discriminate Hpage.
    + intros; reflexivity.
    + intros; reflexivity.
    + intros row [].
  - destruct (status_code r =? 200) eqn:Hstatus.
    + pose proof (next_page_200 st r rest Hresponses Hstatus) as Hnext.
      assert (Hsame : forall page, next_page st page -> page = soup r).
      { intros page [rest' Hpage]. rewrite Hresponses in Hpage.
        injection Hpage as -> _. reflexivity. }
      destruct (doctor_list_result (soup r)) as [table|] eqn:Htable.
      * cbv zeta. do 2 eexists. split; [reflexivity|].
        split; [simpl; rewrite Hstatus, Htable; reflexivity|].
        split; [apply doctor_rows_pairs|]. split; [|split; [|split]].
        -- intros page table' Hpage Htable'.
           rewrite (Hsame page Hpage), Htable in Htable'.
           injection Htable' as <-. reflexivity.
        -- intros page Hpage Hnone.
           rewrite (Hsame page Hpage), Htable in Hnone. discriminate Hnone.
        -- intros Hnone. exfalso. exact (Hnone (soup r) Hnext).
        -- intros row Hin. apply (proj2 (list_elem_of_In _ _)) in Hin.
           apply list_elem_of_omap in Hin.
           destruct Hin as (columns & Hcolumns & Hrow).
           exists (soup r), table, columns.
           split; [exact Hnext|]. split; [exact Htable|].
           split; [apply list_elem_of_In, Hcolumns|].
           symmetry. apply (doctor_row_pair columns row Hrow).
      * do 2 eexists. split; [reflexivity|].
        split; [simpl; rewrite Hstatus, Htable; reflexivity|].
        split; [constructor|]. split; [|split; [|split]].
        -- intros page table Hpage Htable'.
           rewrite (Hsame page Hpage), Htable in Htable'.
           discriminate Htable'.
        -- intros; reflexivity.
        -- intros; reflexivity.
        -- intros row [].
    + do 2 eexists. split; [reflexivity|].
      split; [simpl; rewrite Hstatus; reflexivity|].
      split; [constructor|]. split; [|split; [|split]].
      * intros page table Hpage. exfalso.
        exact (not_next_page st r rest page Hresponses Hstatus Hpage).
      * intros; reflexivity.
      * intros; reflexivity.
      * intros row [].
  - do 2 eexists. split; [reflexivity|]. split; [reflexivity|].
    split; [constructor|]. split; [|split; [|split]].
    + intros page table [rest' Hpage]. rewrite Hresponses in Hpage.
      discriminate Hpage.
    + intros; reflexivity.
    + intros; reflexivity.
    + intros row [].
Qed.








End FetchFacts.

Section ScriptFacts.
Context `{Runtime} `{PyInt}.


End ScriptFacts.

(** ** clinic_scrapper.py *)

Section ClinicFetchFacts.
Context `{PyInt}.

Ltac fetch_step :=
  first [ rewrite mbind_scrape_logging
        | rewrite scrape_logging_eq
        | rewrite mbind_mlift
        | rewrite site_after_after ];
  cbv beta iota.

(** [fetch_hospital_details], as a case analysis on the answer. *)
Lemma fetch_hospital_details_eq (hospital_url : string) (st : site) :
  fetch_hospital_details hospital_url st =
  match responses st with
  | [] =>
      (Ret None,
       site_after [hospital_url]
         [ScrapingDetails hospital_url;
          DetailsError hospital_url LibraryError] st)
  | Raise e :: _ =>
      (Ret None,
       site_after [hospital_url]
         [ScrapingDetails hospital_url; DetailsError hospital_url e] st)
  | Ret r :: _ =>
      if status_code r =? 200 then
        (Ret (Some [("name", main_name (soup r));
                    ("field", main_field (soup r));
                    ("telephone", fst (fst (contact_fields (soup r))));
                    ("address", snd (fst (contact_fields (soup r))));
                    ("location", snd (contact_fields (soup r)))]),
         site_after [hospital_url]
           [ScrapingDetails hospital_url;
            ResponseStatus hospital_url (status_code r)] st)
      else
        (Ret None,
         site_after [hospital_url]
           [ScrapingDetails hospital_url;
            ResponseStatus hospital_url (status_code r);
            RetrieveFailed hospital_url (status_code r)] st)
  end.
Proof.
  unfold fetch_hospital_details. rewrite mbind_scrape_logging. unfold mtry.
  rewrite mbind_session_get.
  replace (responses (site_after [] [ScrapingDetails hospital_url] st))
    with (responses st) by reflexivity.
  destruct (responses st) as [|[r|e] rest]; cbv beta iota.
  - repeat fetch_step. reflexivity.
  - fetch_step. destruct (status_code r =? 200); cbn [negb]; cbv iota.
    + destruct (contact_fields (soup r)) as [[telephone address] location].
      cbv beta iota zeta. unfold mret. repeat fetch_step. reflexivity.
    + repeat fetch_step. reflexivity.
  - repeat fetch_step. reflexivity.
Qed.

(** X25.  [fetch_hospital_details] never raises and makes exactly one
    request, for its URL.  It returns a record exactly when the answer is
    a page delivered with status 200, and then the record has the five
    fields name, field, telephone, address and location, in this order,
    filled from the page or left [None]; in every other case (another
    status, a request that raises) it returns [None]. *)
Theorem fetch_hospital_details_returns_five_fields (hospital_url : string)
    (st : site) :
  exists result entries,
    fetch_hospital_details hospital_url st
    = (Ret result, site_after [hospital_url] entries st)
    /\ (forall page,
          next_page st page ->
          result = Some [("name", main_name page);
                         ("field", main_field page);
                         ("telephone", fst (fst (contact_fields page)));
                         ("address", snd (fst (contact_fields page)));
                         ("location", snd (contact_fields page))])
    /\ ((forall page, ~ next_page st page) -> result = None)
    /\ (forall r, result = Some r -> record_keys r = clinic_columns).
Proof.
  rewrite fetch_hospital_details_eq.
  destruct (responses st) as [|[r|e] rest] eqn:Hresponses.
  - do 2 eexists. split; [reflexivity|].
    split; [|split; [reflexivity|discriminate]].
    intros page [rest' Hpage]. rewrite Hresponses in Hpage. discriminate.
  - destruct (status_code r =? 200) eqn:Hstatus.
    + do 2 eexists. split; [reflexivity|]. split; [|split].
      * intros page [rest' Hpage]. rewrite Hresponses in Hpage.
        injection Hpage as -> _. reflexivity.
      * intros Hnone. exfalso.
        exact (Hnone (soup r) (next_page_200 st r rest Hresponses Hstatus)).
      * intros rec [= <-]. reflexivity.
    + do 2 eexists. split; [reflexivity|].
      split; [|split; [reflexivity|discriminate]].
      intros page Hpage. exfalso.
      exact (not_next_page st r rest page Hresponses Hstatus Hpage).
  - do 2 eexists. split; [reflexivity|].
    split; [|split; [reflexivity|discriminate]].
    intros page [rest' Hpage]. rewrite Hresponses in Hpage. discriminate.
Qed.

Lemma fetch_hospital_details_keys (hospital_url : string) (st : site) :
  exists result entries,
    fetch_hospital_details hospital_url st
    = (Ret result, site_after [hospital_url] entries st)
    /\ (forall r, result = Some r -> record_keys r = clinic_columns).
Proof.
  rewrite fetch_hospital_details_eq.
  destruct (responses st) as [|[r|e] rest];
    try (do 2 eexists; split; [reflexivity|discriminate]).
  destruct (status_code r =? 200); do 2 eexists;
    (split; [reflexivity|]); [|discriminate].
  intros rec [= <-]. reflexivity.
Qed.

Lemma contact_fields_snoc (pagination : option (list string))
    (tags : list (string * bool)) (name field : option string)
    (doctors : option (list (list string)))
    (rows : list (list string)) (cells : list string) :
  contact_fields (Html pagination tags name field
                    (Some (Some (rows ++ [cells])%list)) doctors)
  = contact_step
      (contact_fields (Html pagination tags name field (Some (Some rows))
                         doctors))
      cells.
Proof. unfold contact_fields. simpl. apply foldl_snoc. Qed.

(** X26.  The contact table is read row by row, and a later row
    overrides an earlier one: the telephone of a page is the value of the
    last two-cell row whose label contains 'Telephone'; the address is
    the value of the last two-cell row whose label contains 'Address' but
    not 'Telephone'; the location is the value of the last two-cell row
    whose label contains 'Location' but neither of the other two words.
    Rows that do not have exactly two cells count for nothing, and a
    field with no such row is [None]. *)
Theorem contact_fields_last_row_wins (pagination : option (list string))
    (tags : list (string * bool)) (name field : option string)
    (doctors : option (list (list string))) (rows : list (list string)) :
  let page := Html pagination tags name field (Some (Some rows)) doctors in
  fst (fst (contact_fields page))
  = last (omap (fun cells : list string =>
                  match cells with
                  | [label; value] =>
                      if text_contains "Telephone" label then Some value
                      else None
                  | _ => None
                  end) rows)
  /\ snd (fst (contact_fields page))
     = last (omap (fun cells : list string =>
                     match cells with
                     | [label; value] =>
                         if text_contains "Telephone" label then None
                         else if text_contains "Address" label then Some value
                         else None
                     | _ => None
                     end) rows)
  /\ snd (contact_fields page)
     = last (omap (fun cells : list string =>
                     match cells with
                     | [label; value] =>
                         if text_contains "Telephone" label then None
                         else if text_contains "Address" label then None
                         else if text_contains "Location" label then Some value
                         else None
                     | _ => None
                     end) rows).
Proof.
  cbv zeta. induction rows as [|cells rows IH] using rev_ind.
  - repeat split.
  - rewrite contact_fields_snoc, !omap_app. simpl omap.
    destruct (contact_fields (Html pagination tags name field
                                (Some (Some rows)) doctors))
      as [[telephone address] location].
    simpl in IH. destruct IH as (IHt & IHa & IHl).
    unfold contact_step.
    destruct cells as [|label [|value [|extra cells]]];
      try (rewrite !app_nil_r; simpl; auto).
    destruct (text_contains "Telephone" label).
    { rewrite last_snoc, !app_nil_r. simpl. auto. }
    destruct (text_contains "Address" label).
    { rewrite last_snoc, !app_nil_r. simpl. auto. }
    destruct (text_contains "Location" label).
    { rewrite last_snoc, !app_nil_r. simpl. auto. }
    rewrite !app_nil_r. simpl. auto.
Qed.

Lemma page_links_spec (tags : list (string * bool)) (link : string) :
  link ∈ page_links tags
  <-> exists href, In (href, true) tags /\ link = full_url href.
Proof.
  unfold page_links.
  assert (Hfold : forall (links : gset string),
            link ∈ foldl (fun (links : gset string) (a_tag : string * bool) =>
                            if snd a_tag
                            then {[ full_url (fst a_tag) ]} ∪ links
                            else links) links tags
            <-> link ∈ links
                \/ exists href, In (href, true) tags /\ link = full_url href).
  { induction tags as [|[href section] tags IH]; intros links; simpl.
    - split; [auto|]. intros [Hin|(? & [] & _)]. exact Hin.
    - rewrite IH. destruct section; simpl.
      + rewrite elem_of_union, elem_of_singleton. split.
        * intros [[->|Hin]|(h & Hh & ->)]; eauto.
        * intros [Hin|(h & [[= <-]|Hh] & ->)]; eauto.
      + split.
        * intros [Hin|(h & Hh & ->)]; eauto.
        * intros [Hin|(h & [[=]|Hh] & ->)]; eauto. }
  rewrite Hfold. split; [intros [Hin|Hex]; [set_solver|exact Hex]|auto].
Qed.

(** [fetch_hospital_links_from_page], as a case analysis on the answer. *)
Lemma fetch_hospital_links_eq (url : string) (st : site) :
  fetch_hospital_links_from_page url st =
  match responses st with
  | [] =>
      (Ret [],
       site_after [url] [FetchingLinks url; LinksError url LibraryError] st)
  | Raise e :: _ =>
      (Ret [], site_after [url] [FetchingLinks url; LinksError url e] st)
  | Ret r :: _ =>
      if status_code r =? 200 then
        let links := page_links (anchors (soup r)) in
        (Ret (elements links),
         site_after [url] [FetchingLinks url; LinksFound (size links)] st)
      else
        (Ret [],
         site_after [url]
           [FetchingLinks url; RetrieveFailed url (status_code r)] st)
  end.
Proof.
  unfold fetch_hospital_links_from_page. rewrite mbind_scrape_logging.
  unfold mtry. rewrite mbind_session_get.
  replace (responses (site_after [] [FetchingLinks url] st))
    with (responses st) by reflexivity.
  destruct (responses st) as [|[r|e] rest]; cbv beta iota.
  - repeat fetch_step. reflexivity.
  - destruct (status_code r =? 200); cbn [negb]; cbv iota zeta;
      repeat fetch_step; reflexivity.
  - repeat fetch_step. reflexivity.
Qed.

(** X27.  [fetch_hospital_links_from_page] never raises and makes exactly
    one request.  From a page delivered with status 200 it returns,
    without repetition, the addresses of the links that hold a result
    section, an address that starts with 'index.php' put behind the base
    address and a slash; in every other case it returns no link. *)
Theorem fetch_hospital_links_are_distinct (url : string) (st : site) :
  exists links entries,
    fetch_hospital_links_from_page url st
    = (Ret links, site_after [url] entries st)
    /\ NoDup links
    /\ (forall page,
          next_page st page ->
          forall link,
            In link links
            <-> exists href,
                  In (href, true) (anchors page)
                  /\ link = (if Stdlib.Strings.String.prefix "index.php" href
                             then "https://www.medpages.info/sf//" +:+ href
                             else href))
    /\ ((forall page, ~ next_page st page) -> links = []).
Proof.
  rewrite fetch_hospital_links_eq.
  destruct (responses st) as [|[r|e] rest] eqn:Hresponses.
  - do 2 eexists. split; [reflexivity|].
    split; [constructor|split; [|reflexivity]].
    intros page [rest' Hpage]. rewrite Hresponses in Hpage. discriminate.
  - destruct (status_code r =? 200) eqn:Hstatus.
    + cbv zeta. do 2 eexists. split; [reflexivity|].
      split; [apply NoDup_elements|split].
      * intros page [rest' Hpage]. rewrite Hresponses in Hpage.
        injection Hpage as -> _. simpl. intros link.
        rewrite <- list_elem_of_In, elem_of_elements.
        apply page_links_spec.
      * intros Hnone. exfalso.
        exact (Hnone (soup r) (next_page_200 st r rest Hresponses Hstatus)).
    + do 2 eexists. split; [reflexivity|].
      split; [constructor|split; [|reflexivity]].
      intros page Hpage. exfalso.
      exact (not_next_page st r rest page Hresponses Hstatus Hpage).
  - do 2 eexists. split; [reflexivity|].
    split; [constructor|split; [|reflexivity]].
    intros page [rest' Hpage]. rewrite Hresponses in Hpage. discriminate.
Qed.

Lemma fetch_hospital_links_nodup (url : string) (st : site) :
  exists links entries,
    fetch_hospital_links_from_page url st
    = (Ret links, site_after [url] entries st)
    /\ NoDup links.
Proof.
  rewrite fetch_hospital_links_eq.
  destruct (responses st) as [|[r|e] rest];
    try (do 2 eexists; split; [reflexivity|constructor]).
  destruct (status_code r =? 200); cbv zeta; do 2 eexists;
    (split; [reflexivity|]); [apply NoDup_elements|constructor].
Qed.

(** What [get_max_page_number] reads off a page: the number in the last
    but one link of the pagination. *)
Lemma get_max_page_number_eq (url : string) (st : site) :
  get_max_page_number url st =
  match responses st with
  | [] =>
      (Ret 1,
       site_after [url] [FetchingMaxPage url; MaxPageError LibraryError] st)
  | Raise e :: _ =>
      (Ret 1, site_after [url] [FetchingMaxPage url; MaxPageError e] st)
  | Ret r :: _ =>
      if status_code r =? 200 then
        match
          obind (match pagination_links (soup r) with
                 | Some links => Ret links
                 | None => Raise AttributeError
                 end) (fun links =>
          obind (py_second_last links) (fun text =>
          match int_of_string text with
          | Some n => Ret n
          | None => Raise (ValueError text)
          end))
        with
        | Ret n =>
            (Ret n,
             site_after [url] [FetchingMaxPage url; MaxPageNumber n] st)
        | Raise e =>
            (Ret 1, site_after [url] [FetchingMaxPage url; MaxPageError e] st)
        end
      else
        (Ret 1,
         site_after [url]
           [FetchingMaxPage url; RetrieveFailed url (status_code r)] st)
  end.
Proof.
  unfold get_max_page_number. rewrite mbind_scrape_logging. unfold mtry.
  rewrite mbind_session_get.
  replace (responses (site_after [] [FetchingMaxPage url] st))
    with (responses st) by reflexivity.
  destruct (responses st) as [|[r|e] rest]; cbv beta iota.
  - repeat fetch_step. reflexivity.
  - destruct (status_code r =? 200); cbn [negb]; cbv iota.
    + fetch_step.
      destruct (pagination_links (soup r)) as [links|]; cbn [obind];
        [|repeat fetch_step; reflexivity].
      fetch_step.
      destruct (py_second_last links) as [text|e]; cbn [obind];
        [|repeat fetch_step; reflexivity].
      fetch_step.
      destruct (int_of_string text) as [n|]; repeat fetch_step; reflexivity.
    + repeat fetch_step. reflexivity.
  - repeat fetch_step. reflexivity.
Qed.

Lemma py_second_last_lookup {A} (l : list A) (x : A) :
  (2 <= length l)%nat ->
  l !! (length l - 2)%nat = Some x ->
  py_second_last l = Ret x.
Proof.
  intros Hlen Hx. unfold py_second_last, list_getitem.
  destruct (length l) as [|[|k]]; [lia|lia|].
  replace (S (S k) - 2)%nat with k in Hx by lia. rewrite Hx. reflexivity.
Qed.

(** X28.  [get_max_page_number] never raises and makes exactly one
    request.  When the answer is a page delivered with status 200 whose
    pagination holds at least two links and the text of the last but one
    is read by [int], it returns that number, whatever it is; in every
    other case it returns 1. *)
Theorem get_max_page_number_falls_back_to_one (url : string) (st : site) :
  exists max_page entries,
    get_max_page_number url st = (Ret max_page, site_after [url] entries st)
    /\ (forall page links text n,
          next_page st page ->
          pagination_links page = Some links ->
          (2 <= length links)%nat ->
          links !! (length links - 2)%nat = Some text ->
          int_of_string text = Some n ->
          max_page = n)
    /\ (max_page = 1
        \/ exists page links text,
             next_page st page
             /\ pagination_links page = Some links
             /\ (2 <= length links)%nat
             /\ links !! (length links - 2)%nat = Some text
             /\ int_of_string text = Some max_page).
Proof.
  rewrite get_max_page_number_eq.
  destruct (responses st) as [|[r|e] rest] eqn:Hresponses.
  - do 2 eexists. split; [reflexivity|]. split; [|left; reflexivity].
    intros page links text n [rest' Hpage]. rewrite Hresponses in Hpage.
    discriminate Hpage.
  - destruct (status_code r =? 200) eqn:Hstatus.
    + assert (Hsame : forall page, next_page st page -> page = soup r).
      { intros page [rest' Hpage]. rewrite Hresponses in Hpage.
        injection Hpage as -> _. reflexivity. }
      destruct (pagination_links (soup r)) as [links|] eqn:Hlinks;
        cbn [obind].
      * destruct (py_second_last links) as [text|e] eqn:Htext; cbn [obind].
        -- destruct (int_of_string text) as [m|] eqn:Hint.
           ++ do 2 eexists. split; [reflexivity|]. split.
              ** intros page links' text' n Hpage Hlinks' Hlen Htext' Hint'.
                 rewrite (Hsame page Hpage), Hlinks in Hlinks'.
                 injection Hlinks' as <-.
                 rewrite (py_second_last_lookup links text' Hlen Htext')
                   in Htext.
                 injection Htext as ->. congruence.
              ** right. exists (soup r), links, text.
                 split; [exact (next_page_200 st r rest Hresponses Hstatus)|].
                 split; [exact Hlinks|].
                 unfold py_second_last, list_getitem in Htext.
                 destruct (length links) as [|[|k]] eqn:Hlen;
                   try discriminate.
                 split; [lia|]. split; [|exact Hint].
                 replace (S (S k) - 2)%nat with k by lia.
                 destruct (links !! k); [congruence|discriminate].
           ++ do 2 eexists. split; [reflexivity|]. split; [|left; reflexivity].
              intros page links' text' n Hpage Hlinks' Hlen Htext' Hint'.
              rewrite (Hsame page Hpage), Hlinks in Hlinks'.
              injection Hlinks' as <-.
              rewrite (py_second_last_lookup links text' Hlen Htext')
                in Htext.
              injection Htext as ->. congruence.
        -- do 2 eexists. split; [reflexivity|]. split; [|left; reflexivity].
           intros page links' text' n Hpage Hlinks' Hlen Htext' Hint'.
           rewrite (Hsame page Hpage), Hlinks in Hlinks'.
           injection Hlinks' as <-.
           rewrite (py_second_last_lookup links text' Hlen Htext') in Htext.
           discriminate Htext.
      * do 2 eexists. split; [reflexivity|]. split; [|left; reflexivity].
        intros page links' text' n Hpage Hlinks' Hlen Htext' Hint'.
        rewrite (Hsame page Hpage), Hlinks in Hlinks'. discriminate Hlinks'.
    + do 2 eexists. split; [reflexivity|]. split; [|left; reflexivity].
      intros page links text n Hpage. exfalso.
      exact (not_next_page st r rest page Hresponses Hstatus Hpage).
  - do 2 eexists. split; [reflexivity|]. split; [|left; reflexivity].
    intros page links text n [rest' Hpage]. rewrite Hresponses in Hpage.
    discriminate Hpage.
Qed.

Lemma get_max_page_number_returns (url : string) (st : site) :
  exists max_page entries,
    get_max_page_number url st = (Ret max_page, site_after [url] entries st).
Proof.
  rewrite get_max_page_number_eq.
  destruct (responses st) as [|[r|e] rest]; try (do 2 eexists; reflexivity).
  destruct (status_code r =? 200); [|do 2 eexists; reflexivity].
  destruct (obind _ _); do 2 eexists; reflexivity.
Qed.


(** A pool of tasks that never raise returns, and every result has the
    property of a single one. *)
Lemma pool_map_returns {A B} (task : A -> M site B) (P : B -> Prop) :
  (forall a st, exists b st', task a st = (Ret b, st') /\ P b) ->
  forall arguments st,
  exists bs st', pool_map task arguments st = (Ret bs, st') /\ Forall P bs.
Proof.
  intros Htask. induction arguments as [|a rest IH]; intros st; simpl.
  - exists [], st. split; [reflexivity|constructor].
  - destruct (Htask a st) as (b & st1 & Hrun & Hb).
    destruct (IH st1) as (bs & st2 & Hrest & Hbs).
    exists (b :: bs), st2. unfold mbind. rewrite Hrun, Hrest.
    split; [reflexivity|constructor; assumption].
Qed.

(** What the second pool of [scrape_hospitals] hands back: records of
    the five columns, or [None]. *)
Lemma collect_hospital_details_records (st : site) :
  exists details st',
    collect_hospital_details st = (Ret details, st')
    /\ Forall (fun result : option record =>
                 forall r, result = Some r -> record_keys r = clinic_columns)
         details.
Proof.
  unfold collect_hospital_details.
  destruct (get_max_page_number_returns (search_url 1) st)
    as (max_page & entries1 & Hmax).
  unfold mbind at 1. rewrite Hmax, mbind_mget, mbind_scrape_logging. cbv zeta.
  match goal with
  | |- context [mbind (pool_map fetch_hospital_links_from_page ?urls) _ ?st2] =>
      destruct (pool_map_returns fetch_hospital_links_from_page
                  (fun _ => True)
                  (fun url st0 =>
                     match fetch_hospital_links_nodup url st0 with
                     | ex_intro _ links (ex_intro _ entries (conj Hrun _)) =>
                         ex_intro _ links (ex_intro _ _ (conj Hrun I))
                     end) urls st2)
        as (link_lists & st3 & Hlinks & _)
  end.
  unfold mbind at 1. rewrite Hlinks, mbind_scrape_logging.
  match goal with
  | |- context [mbind (pool_map fetch_hospital_details ?urls) _ ?st4] =>
      destruct (pool_map_returns fetch_hospital_details
                  (fun result : option record =>
                     forall r, result = Some r
                               -> record_keys r = clinic_columns)
                  (fun url st0 =>
                     match fetch_hospital_details_keys url st0 with
                     | ex_intro _ result
                         (ex_intro _ entries (conj Hrun Hkeys)) =>
                         ex_intro _ result (ex_intro _ _ (conj Hrun Hkeys))
                     end) urls st4)
        as (details & st5 & Hdetails & Hkeys)
  end.
  unfold mbind at 1. rewrite Hdetails, mbind_scrape_logging. unfold mret.
  do 2 eexists. split; [reflexivity|exact Hkeys].
Qed.

End ClinicFetchFacts.

Section ClinicScriptFacts.
Context `{Runtime} `{PyInt}.

Lemma dict_to_row_columns (r : record) :
  record_keys r = clinic_columns ->
  dict_to_row clinic_columns r = Ret (clinic_row r).
Proof.
  intros Hkeys. destruct (dict_to_row_own_keys r) as (row & Hrow).
  rewrite Hkeys in Hrow. rewrite Hrow.
  unfold dict_to_row in Hrow. destruct (forallb _ r); [|discriminate].
  injection Hrow as <-. reflexivity.
Qed.

Lemma dict_rows_columns (records : list record) :
  Forall (fun r => record_keys r = clinic_columns) records ->
  omapM (dict_to_row clinic_columns) records = Ret (clinic_row <$> records).
Proof.
  induction 1 as [|r records Hr _ IH]; simpl; [reflexivity|].
  rewrite (dict_to_row_columns r Hr). simpl. rewrite IH. reflexivity.
Qed.

Lemma save_to_csv_ok (first : record) (rest : list record)
    (rows : list (list string)) (w : world) :
  writable clinics_csv = true ->
  omapM (dict_to_row (record_keys first)) (first :: rest) = Ret rows ->
  exists w',
    save_to_csv (first :: rest) w = (Ret tt, w')
    /\ fs w' = <[clinics_csv := csv_encode (record_keys first :: rows)]> (fs w)
    /\ log w' = (log w ++ [HospitalsSaved])%list.
Proof.
  intros Hwrite Hrows.
  set (keys := record_keys first) in *.
  set (w1 := set_fs (<[clinics_csv := csv_encode [keys]]>
                       (<[clinics_csv := csv_encode []]> (fs w))) w).
  destruct (write_dict_rows_ok clinics_csv keys (first :: rest) rows Hrows
              [keys] w1) as (w' & Hrun & Hfs & Hlog).
  { apply lookup_insert_eq. }
  exists (add_log HospitalsSaved w'). split; [|split].
  - unfold save_to_csv. fold keys. unfold mtry, write_file.
    rewrite Hwrite. unfold mbind at 1, mmodify at 1.
    unfold mbind at 1, mmodify at 1.
    change (set_fs _ (set_fs _ w)) with w1.
    unfold mbind at 1. rewrite Hrun. reflexivity.
  - simpl. rewrite Hfs. subst w1. simpl.
    rewrite !insert_insert_eq. reflexivity.
  - simpl. rewrite Hlog. reflexivity.
Qed.

(** X30.  When the clinic CSV can be opened for writing, the clinic
    scraper as a whole returns, whatever the site answers, and what it
    fetched is written in full: the records the second pool handed back
    all have the same five columns, so the writer never meets a field
    outside the header.  When no page gave a record, the warning is
    logged and no file is touched; otherwise the file holds the header
    name, field, telephone, address, location and, in their order, one
    row for every record, its five fields with the empty text for a
    missing one.  There is no email column. *)
Theorem scraped_clinics_are_always_written (w : world) (st : site) :
  writable clinics_csv = true ->
  exists details st' w',
    collect_hospital_details st = (Ret details, st')
    /\ scrape_hospitals_script (w, st) = (Ret tt, (w', st'))
    /\ Forall (fun r => record_keys r = clinic_columns) (omap id details)
    /\ (omap id details = [] ->
        fs w' = fs w /\ log w' = (log w ++ [NoHospitalDetails])%list)
    /\ (omap id details <> [] ->
        fs w' = <[clinics_csv :=
                    csv_encode (["name"; "field"; "telephone"; "address";
                                 "location"]
                                :: (clinic_row <$> omap id details))]> (fs w)
        /\ log w' = (log w ++ [HospitalsSaved])%list).
Proof.
  intros Hwrite.
  destruct (collect_hospital_details_records st)
    as (details & st' & Hrun & Hkeys).
  assert (Hrecords : Forall (fun r => record_keys r = clinic_columns)
                       (omap id details)).
  { apply Forall_forall. intros r Hin. apply list_elem_of_omap in Hin.
    destruct Hin as (result & Hin & Hsome). simpl in Hsome. subst result.
    rewrite Forall_forall in Hkeys. exact (Hkeys (Some r) Hin r eq_refl). }
  exists details, st'.
  unfold scrape_hospitals_script. unfold mbind, on_site at 1. simpl snd.
  rewrite Hrun. unfold on_world, scrape_hospitals. simpl fst.
  destruct (omap id details) as [|first rest] eqn:Hdetails.
  - eexists. split; [reflexivity|]. split; [reflexivity|].
    split; [constructor|]. split; [|intros []; reflexivity].
    intros _. split; reflexivity.
  - pose proof (dict_rows_columns (first :: rest) Hrecords) as Hrows.
    assert (Hfirst : record_keys first = clinic_columns)
      by exact (Forall_inv Hrecords).
    rewrite <- Hfirst in Hrows.
    destruct (save_to_csv_ok first rest _ w Hwrite Hrows)
      as (w' & Hsave & Hfs & Hlog).
    rewrite Hsave. exists w'. split; [reflexivity|]. split; [reflexivity|].
    split; [exact Hrecords|]. split; [discriminate|].
    intros _. split; [|exact Hlog]. rewrite Hfs, Hfirst. reflexivity.
Qed.

End ClinicScriptFacts.

(** * The theorems at work on concrete inputs *)

Module Witness.
Import Sample.

Lemma billing_fallback_when_absent_witness :
  billing_map !! "Malaria" = None
  /\ get_billing_items_for_diagnosis (VStr "Malaria") (VDict billing_map)
     = Ret [ [VStr "Consultation"; VStr "General Consultation"; VStr "1";
              VStr "1000"; VStr "1000"];
             [VStr "Lab Test"; VStr "General Lab Test"; VStr "1";
              VStr "500"; VStr "500"] ].
Proof.
  split; [reflexivity|].
  apply (billing_fallback_when_absent "Malaria" billing_map).
  reflexivity.
Defined.

Lemma billing_items_never_empty_witness :
  exists rows,
    get_billing_items_for_diagnosis (VStr "Flu") (VDict billing_map)
    = Ret rows
    /\ (0 < length rows)%nat
    /\ (billing_map !! "Flu" = None -> rows = fallback_billing_items)
    /\ (forall e, billing_map !! "Flu" = Some (VDict e) ->
                  e !! "billing_items" = Some (VList []) ->
                  rows = fallback_billing_items).
Proof.
  apply (proj1 (proj2 (billing_items_never_empty "Flu" billing_map))).
  intros entry Hentry.
  change (Some (VDict (<["billing_items" := VList [flu_item]]> ∅))
          = Some entry) in Hentry.
  injection Hentry as <-. reflexivity.
Defined.

Lemma displayed_total_is_sum_of_totals_witness :
  let run :=
    generate_claim_pdf_try city_clinic dr_a (VStr "Flu")
      "output/legit_claim_0.pdf" city_design flu_lines (empty_world, []) in
  run = (Ret tt, (fst (snd run), snd (snd run)))
  /\ fs (fst (snd run)) !! "output/legit_claim_0.pdf"
     = Some (pdf_encode (snd (snd run)))
  /\ In (DrawString 400 370 "Total Amount: Rs 800.00") (snd (snd run)).
Proof.
  cbv zeta.
  assert (Hrun :
    generate_claim_pdf_try city_clinic dr_a (VStr "Flu")
      "output/legit_claim_0.pdf" city_design flu_lines (empty_world, [])
    = (Ret tt,
       (fst (snd (generate_claim_pdf_try city_clinic dr_a (VStr "Flu")
                    "output/legit_claim_0.pdf" city_design flu_lines
                    (empty_world, []))),
        snd (snd (generate_claim_pdf_try city_clinic dr_a (VStr "Flu")
                    "output/legit_claim_0.pdf" city_design flu_lines
                    (empty_world, []))))))
    by reflexivity.
  destruct (displayed_total_is_sum_of_totals city_clinic dr_a (VStr "Flu")
              "legitimate" "output/legit_claim_0.pdf" city_design flu_lines
              empty_world _ _ Hrun)
    as (_ & Hfile & totals & Htotals & Hshown & _).
  split; [exact Hrun|]. split; [exact Hfile|].
  change (Ret [80000] = Ret totals) in Htotals.
  injection Htotals as <-. exact Hshown.
Defined.

Lemma generate_claim_pdf_never_raises_witness :
  exists w',
    generate_claim_pdf nameless_street_clinic dr_a (VStr "Flu") "legitimate"
      "output/legit_claim_0.pdf" city_design flu_lines empty_world
    = (Ret tt, w')
    /\ last (log w') = Some (ClaimError "legitimate" (KeyError "address"))
    /\ fs w' !! "output/legit_claim_0.pdf" = None.
Proof.
  destruct (generate_claim_pdf_never_raises nameless_street_clinic dr_a
              (VStr "Flu") "legitimate" "output/legit_claim_0.pdf"
              city_design flu_lines empty_world) as (w' & Hrun & Hfail).
  exists w'. split; [exact Hrun|].
  assert (Hraise :
    generate_claim_pdf_try nameless_street_clinic dr_a (VStr "Flu")
      "output/legit_claim_0.pdf" city_design flu_lines (empty_world, [])
    = (Raise (KeyError "address"),
       (fst (snd (generate_claim_pdf_try nameless_street_clinic dr_a
                    (VStr "Flu") "output/legit_claim_0.pdf" city_design
                    flu_lines (empty_world, []))),
        snd (snd (generate_claim_pdf_try nameless_street_clinic dr_a
                    (VStr "Flu") "output/legit_claim_0.pdf" city_design
                    flu_lines (empty_world, []))))))
    by reflexivity.
  destruct (Hfail _ _ Hraise) as (_ & Hlast & Hfiles).
  split; [exact Hlast|].
  destruct Hfiles as [Hsame|(name & Hname & Hlogo)].
  - rewrite Hsame. reflexivity.
  - change (Some "City Clinic" = Some name) in Hname.
    injection Hname as <-. rewrite Hlogo. reflexivity.
Defined.

Lemma unknown_specialty_slot_is_skipped_witness :
  claim_slot "legitimate" "legit_claim_" [city_clinic] [dr_a; dr_b]
    (VDict specialty_map) design_store billing_table 0
    (urology_world, [])
  = (Ret tt, (set_rnd [0; 0; 0]%nat urology_world, []))
  /\ exists new,
       snd (snd (claim_loop "legitimate" "legit_claim_" 2 [city_clinic]
                   [dr_a; dr_b] (VDict specialty_map) design_store
                   billing_table (urology_world, [])))
       = ([] ++ new)%list
       /\ (length new < 2)%nat
       /\ Forall (fun t => t_output t <> claim_path "legit_claim_" 0) new
       /\ forall order w0,
            (forall t, In t order -> In t new) ->
            fs (snd (run_tasks order w0)) !! claim_path "legit_claim_" 0
            = fs w0 !! claim_path "legit_claim_" 0.
Proof.
  apply (proj2 (unknown_specialty_slot_is_skipped "legitimate"
                  "legit_claim_" 2 [city_clinic] [dr_a; dr_b] specialty_map
                  design_store billing_table)
           0%nat (urology_world, []) (urology_world, []) city_clinic dr_b
           (set_rnd [1; 0; 0; 0]%nat urology_world)
           (set_rnd [0; 0; 0]%nat urology_world)).
  - discriminate.
  - lia.
  - reflexivity.
  - reflexivity.
  - reflexivity.
  - reflexivity.
Defined.


Lemma load_data_fatal_inputs_witness :
  (let e := ValueError "No data found in hospitals_and_clinics.csv" in
   load_data headers_only_world
   = (Raise e, add_log (LoadDataError e) headers_only_world)
   /\ main_program 50 50 headers_only_world
      = (Ret tt,
         add_log (FatalError e)
           (add_log (LoadDataError e) headers_only_world)))
  /\ (exists e,
        load_data empty_world
        = (Raise e, add_log (LoadDataError e) empty_world)
        /\ main_program 50 50 empty_world
           = (Ret tt,
              add_log (FatalError e) (add_log (LoadDataError e) empty_world)))
  /\ load_billing_items empty_world
     = (Ret (VDict ∅),
        add_log (BillingLoadError (FileNotFoundError billing_json))
          empty_world).
Proof.
  split; [|split].
  - destruct (proj1 (load_data_fatal_inputs headers_only_world)
                "name,address,telephone,location")
      as [Hload Hmain]; [reflexivity|reflexivity|].
    split; [exact Hload|]. apply (proj2 (Hmain 50%nat 50%nat)).
  - destruct (proj1 (proj2 (load_data_fatal_inputs empty_world))
                doctors_csv) as (e & Hload & Hmain).
    + right. left. reflexivity.
    + reflexivity.
    + exists e. split; [exact Hload|]. apply (proj2 (Hmain 50%nat 50%nat)).
  - apply (proj2 (proj2 (load_data_fatal_inputs empty_world))).
    reflexivity.
Defined.

Lemma logo_reused_or_regenerated_witness :
  exists w',
    generate_claim_pdf city_clinic dr_a (VStr "Flu") "legitimate"
      "output/legit_claim_0.pdf" city_design flu_lines empty_world
    = (Ret tt, w')
    /\ log w' = [LogoGenerated "City Clinic" "logos/logo_City Clinic.png";
                 ClaimGenerated "output/legit_claim_0.pdf"]
    /\ fs w' !! "logos/logo_City Clinic.png" = Some "PNG:City Clinic".
Proof.
  destruct (logo_reused_or_regenerated city_clinic "City Clinic" dr_a
              (VStr "Flu") "legitimate" "output/legit_claim_0.pdf"
              city_design flu_lines empty_world ltac:(reflexivity)
              ltac:(reflexivity))
    as (w2 & w' & Hrun & _ & _).
  exists w'. split; [exact Hrun|].
  pose proof (f_equal snd Hrun) as Hw.
  change (snd (generate_claim_pdf city_clinic dr_a (VStr "Flu")
                 "legitimate" "output/legit_claim_0.pdf" city_design
                 flu_lines empty_world) = w') in Hw.
  rewrite <- Hw.
  split; reflexivity.
Defined.

Lemma scrapers_write_results_witness :
  (exists w',
     save_to_csv scraped_records empty_world = (Ret tt, w')
     /\ fs w' = <[clinics_csv :=
                    csv_encode
                      [ ["name"; "field"; "telephone"; "address"; "location"];
                        ["City Clinic"; "Clinic"; "555 0100"; "";
                         "Port Louis"];
                        ["Lake Hospital"; ""; ""; "2 Lake Road";
                         "Curepipe"] ]]> (fs empty_world)
     /\ log w' = ([] ++ [HospitalsSaved])%list)
  /\ (exists w',
        save_doctors_to_csv [] doctors_csv empty_world = (Ret tt, w')
        /\ fs w' = <[doctors_csv :=
                       csv_encode [["Doctor Name"; "Specialty"]]]>
                     (fs empty_world)
        /\ log w' = ([] ++ [SavingDoctors 0; DoctorsSaved doctors_csv])%list).
Proof.
  split.
  - apply (proj1 (proj2 (proj2 (scrapers_write_results empty_world))));
      reflexivity.
  - apply (proj2 (proj2 (proj2 (scrapers_write_results empty_world)))
             [] doctors_csv).
    reflexivity.
Defined.

Lemma logo_file_keyed_by_raw_name_witness :
  logo_path "City Clinic" = "logos/logo_City Clinic.png"
  /\ exists w',
       generate_claim_pdf city_clinic dr_a (VStr "Flu") "legitimate"
         "output/legit_claim_0.pdf" city_design flu_lines empty_world
       = (Ret tt, w')
       /\ fs w' !! logo_path "City Clinic"
          = Some (png_encode (substring 0 20 "City Clinic"))
       /\ forall p, p <> logo_path "City Clinic" ->
                    p <> "output/legit_claim_0.pdf" ->
                    fs w' !! p = fs empty_world !! p.
Proof.
  split.
  - apply (proj1 (logo_file_keyed_by_raw_name "City Clinic")).
  - apply (proj2 (proj2 (logo_file_keyed_by_raw_name "City Clinic"))
             city_clinic dr_a (VStr "Flu") "legitimate"
             "output/legit_claim_0.pdf" city_design flu_lines empty_world).
    + reflexivity.
    + reflexivity.
    + reflexivity.
    + reflexivity.
    + reflexivity.
    + discriminate.
Defined.

End Witness.

(** * The further properties at work on concrete inputs *)

Module Instances.
Import Sample.

Lemma generated_logo_verifies_witness :
  exists w1,
    generate_logo "City Clinic" "logos/logo_City Clinic.png" empty_world
    = (Ret true, w1)
    /\ fs w1 !! "logos/logo_City Clinic.png" = Some "PNG:City Clinic".
Proof.
  destruct (@generated_logo_verifies _ runtime "City Clinic"
              "logos/logo_City Clinic.png" empty_world ltac:(reflexivity)
              ltac:(reflexivity) ltac:(reflexivity))
    as (w1 & _ & Hgen & Hfile & _).
  exists w1. split; [exact Hgen|exact Hfile].
Defined.

Lemma logo_is_generated_once_witness :
  let w1 := fst (snd (add_clinic_logo city_clinic (empty_world, []))) in
  add_clinic_logo city_clinic (w1, [])
  = (Ret tt, (w1, [DrawImage (logo_path "City Clinic") 50 700 100 50])).
Proof.
  cbv zeta.
  apply (@logo_is_generated_once _ runtime city_clinic "City Clinic"
           empty_world
           (fst (snd (@add_clinic_logo _ runtime city_clinic
                        (empty_world, []))))
           [] ltac:(reflexivity) ltac:(reflexivity) []).
Defined.

Lemma billing_rows_have_five_cells_witness :
  get_billing_items_for_diagnosis (VStr "Flu") billing_table
  = Ret [[VStr "Consult"; VStr "GP visit"; VStr "1"; VStr "800";
          VStr "800"]]
  /\ exists elements,
       py_iter (VList [flu_item]) = Ret elements
       /\ length flu_lines = length elements.
Proof.
  split; [reflexivity|].
  destruct (@billing_rows_have_five_cells _ runtime (VStr "Flu")
              billing_table flu_lines ltac:(reflexivity))
    as (_ & _ & (entry & items & Hentry & Hitems & _ & Hrows) & _).
  change (Ret (VDict (<["billing_items" := VList [flu_item]]> ∅))
          = Ret entry) in Hentry.
  injection Hentry as <-.
  change (Ret (VList [flu_item]) = Ret items) in Hitems.
  injection Hitems as <-.
  destruct (Hrows eq_refl) as (elements & Hiter & Hlen & _).
  exists elements. split; [exact Hiter|exact Hlen].
Defined.

Lemma claim_with_bad_total_is_not_written_witness :
  exists e w',
    generate_claim_pdf city_clinic dr_a (VStr "Flu") "legitimate"
      "output/legit_claim_0.pdf" city_design [[VStr "Consult"]] empty_world
    = (Ret tt, w')
    /\ last (log w') = Some (ClaimError "legitimate" e)
    /\ fs w' !! "output/legit_claim_0.pdf"
       = fs empty_world !! "output/legit_claim_0.pdf".
Proof.
  apply (@claim_with_bad_total_is_not_written _ runtime city_clinic dr_a
           (VStr "Flu") "legitimate" "output/legit_claim_0.pdf" city_design
           [[VStr "Consult"]] [VStr "Consult"] empty_world).
  - left. reflexivity.
  - left. simpl. lia.
  - intros name _. rewrite logo_path_eq. discriminate.
Defined.



Lemma queued_tasks_come_from_loaded_data_witness :
  exists t,
    head (snd (snd (main_submit 1 1 (world_without_billing, [])))) = Some t
    /\ t_billing t <> [].
Proof.
  destruct (snd (snd (@main_submit _ runtime 1 1
                        (world_without_billing, [])))) as [|t rest] eqn:Hq;
    [discriminate Hq|].
  exists t. split; [reflexivity|].
  destruct (@queued_tasks_come_from_loaded_data _ runtime 1 1
              world_without_billing t)
    as (? & ? & ? & ? & ? & ? & ? & ? & _ & _ & _ & _ & _ & _ & _ & _ & _
        & Hrows & _).
  - rewrite Hq. left. reflexivity.
  - exact Hrows.
Defined.

Lemma main_program_writes_only_its_outputs_witness :
  fs (snd (main_program 1 1 world_without_billing)) !! clinics_csv
  = Some "(clinics)".
Proof.
  rewrite (@main_program_writes_only_its_outputs _ runtime 1 1
             world_without_billing clinics_csv).
  - reflexivity.
  - discriminate.
  - discriminate.
  - intros name. rewrite logo_path_eq. discriminate.
  - intros i _. unfold claim_path, os_path_join. simpl. discriminate.
  - intros i _. unfold claim_path, os_path_join. simpl. discriminate.
Defined.

Lemma clinic_missing_from_design_store_raises_witness :
  claim_slot "legitimate" "legit_claim_" [city_clinic] [dr_a]
    specialties (VDict ∅) billing_table 0 (gp_world, [])
  = (Raise (KeyError "City Clinic"), (set_rnd [] gp_world, [])).
Proof.
  apply (@clinic_missing_from_design_store_raises _ runtime "legitimate"
           "legit_claim_" [city_clinic] [dr_a] specialties billing_table ∅
           0%nat (gp_world, []) city_clinic dr_a (VList [VStr "Flu"])
           (VStr "Flu") flu_lines "City Clinic"
           (set_rnd [0; 0]%nat gp_world) (set_rnd [0]%nat gp_world)
           (set_rnd [] gp_world));
    reflexivity.
Defined.

Lemma corrupt_design_file_is_fatal_witness :
  main_program 50 50 corrupt_design_world
  = (Ret tt, add_log (FatalError JSONDecodeError) corrupt_design_world).
Proof.
  apply (proj2 (@corrupt_design_file_is_fatal _ runtime corrupt_design_world
                  "{" ltac:(reflexivity) ltac:(reflexivity))
           ([clinic_of_row city_row], [dr_a; dr_b], specialties)
           50%nat 50%nat).
  reflexivity.
Defined.

Lemma design_store_needs_clinic_names_witness :
  exists w',
    load_or_create_designs [city_clinic; ∅] empty_world
    = (Raise (KeyError "name"), w')
    /\ fs w' = fs empty_world /\ log w' = log empty_world.
Proof.
  apply (@design_store_needs_clinic_names _ runtime [city_clinic; ∅]
           empty_world).
  - reflexivity.
  - right. left. reflexivity.
Defined.

Lemma save_to_csv_stops_at_foreign_field_witness :
  exists w',
    save_to_csv [[("name", Some "A")]; [("email", Some "a@b.c")];
                 [("name", Some "C")]] empty_world
    = (Ret tt, w')
    /\ fs w' = <[clinics_csv := csv_encode [["name"]; ["A"]]]>
                 (fs empty_world)
    /\ log w'
       = (log empty_world
          ++ [CsvSaveError
                (ValueError "dict contains fields not in fieldnames")])%list.
Proof.
  apply (proj2 (@save_to_csv_stops_at_foreign_field _ runtime
                  [("name", Some "A")] [] [("email", Some "a@b.c")]
                  [[("name", Some "C")]] [["A"]]
                  (ValueError "dict contains fields not in fieldnames")
                  empty_world ltac:(reflexivity) ltac:(reflexivity)
                  ltac:(reflexivity))).
Defined.


Lemma scraped_clinics_are_always_written_witness :
  exists w' st',
    scrape_hospitals_script (empty_world, clinic_site) = (Ret tt, (w', st'))
    /\ fs w' !! clinics_csv
       = Some (csv_encode
                 [["name"; "field"; "telephone"; "address"; "location"];
                  ["City Clinic"; "Clinic"; "555 0100"; ""; "Port Louis"]]).
Proof.
  destruct (@scraped_clinics_are_always_written _ runtime decimal
              empty_world clinic_site ltac:(reflexivity))
    as (details & st' & w' & Hcollect & Hrun & _ & _ & Hsome).
  assert (Hdetails :
    fst (collect_hospital_details clinic_site)
    = Ret [Some [("name", Some "City Clinic"); ("field", Some "Clinic");
                 ("telephone", Some "555 0100"); ("address", None);
                 ("location", Some "Port Louis")]])
    by reflexivity.
  rewrite Hcollect in Hdetails. injection Hdetails as ->.
  exists w', st'. split; [exact Hrun|].
  destruct Hsome as [Hfs _]; [discriminate|].
  rewrite Hfs. reflexivity.
Defined.

End Instances.
